(** * paired-end_barcode_splitter.py

    A shallow embedding of [paired-end_barcode_splitter.py]: first the
    synchronisation loop of [BarcodeSplitter.run] and [find_prefix], then the
    selection of the bucket files, [Options], [BarcodeSplitter.__init__],
    [barcode_splitter] and [main].  Python 2 byte strings are Rocq
    strings, file objects are the bytes that remain to be read (inputs) or
    the bytes written so far (outputs), the three parallel lists of the
    method are lists indexed by position, and the method body runs in a
    state-and-exception monad over the record [world].  A dictionary is a
    finite map from strings to values; what the script takes from outside
    (the outcome of [getopt], [int], the usage text, the order of a dictionary
    of keyword arguments, the lines of the batch list and the effect of a job
    on the files) is a parameter of the functions that use it. *)

From Stdlib Require Import Ascii String.
From stdpp Require Import base option list strings gmap pretty.


(** * The program *)

(** ** Python string primitives *)

Module Py.

(** The newline byte. *)
Definition nl : ascii := "010"%char.

(** [str.isspace] on one byte: tab, newline, vertical tab, form feed,
    carriage return and space. *)
Definition isspace (c : ascii) : bool :=
  match c with
  | "009" | "010" | "011" | "012" | "013" | " " => true
  | _ => false
  end%char.

(** Truthiness of a string: non-empty. *)
Definition truthy (s : string) : bool :=
  match s with "" => false | String _ _ => true end.

(** [all(xs)] for a list of strings. *)
Definition all (xs : list string) : bool := forallb truthy xs.

(** [s.split()] without argument: the maximal runs of non-whitespace bytes.
    [cur] is the token being accumulated. *)
Fixpoint split_go (cur : string) (s : string) : list string :=
  match s with
  | "" => if truthy cur then [cur] else []
  | String c s' =>
      if isspace c
      then (if truthy cur then cur :: split_go "" s' else split_go "" s')
      else split_go (cur +:+ String c "") s'
  end.

Definition split (s : string) : list string := split_go "" s.

Fixpoint lstrip (s : string) : string :=
  match s with
  | "" => ""
  | String c s' => if isspace c then lstrip s' else s
  end.

Fixpoint rstrip (s : string) : string :=
  match s with
  | "" => ""
  | String c s' =>
      let r := rstrip s' in
      if isspace c && negb (truthy r) then "" else String c r
  end.

(** [s.strip()] *)
Definition strip (s : string) : string := lstrip (rstrip s).

(** [f.readline()] on the bytes that remain in [f]: the line up to and
    including its newline (or up to the end of the file), and the rest.  At the
    end of the file the line is the empty string. *)
Fixpoint readline (f : string) : string * string :=
  match f with
  | "" => ("", "")
  | String c f' =>
      if Ascii.eqb c nl then (String c "", f')
      else let '(l, r) := readline f' in (String c l, r)
  end.

(** [''.join(xs)], the bytes [writelines] appends. *)
Fixpoint join (xs : list string) : string :=
  match xs with
  | [] => ""
  | x :: xs' => x +:+ join xs'
  end.

End Py.

(** ** [find_prefix] *)

(** The body of the [for x, y in zip(a, b)] loop, with the accumulator [c]. *)
Fixpoint find_prefix_loop (zs : list (ascii * ascii)) (c : string) : string :=
  match zs with
  | [] => c
  | (x, y) :: zs' =>
      if negb (Ascii.eqb x y) then c
      else find_prefix_loop zs' (c +:+ String x "")
  end.

Definition find_prefix (a b : string) : string :=
  find_prefix_loop (zip (list_ascii_of_string a) (list_ascii_of_string b)) "".


(** ** The state of [BarcodeSplitter.run] *)

(** Exceptions the method can raise. *)
Inductive exn := IndexError | IOError | UnboundLocalError.

(** Result of a computation: a value, a propagating exception, or a loop that
    used up its fuel (the model's only non-Python outcome; [run_total] shows
    that [run] never ends this way). *)
Inductive res (A : Type) :=
  | Ok (a : A)
  | Raise (e : exn)
  | OutOfFuel.
Arguments Ok {A} a.
Arguments Raise {A} e.
Arguments OutOfFuel {A}.

(** File objects of one job: the mate-2 input, and for the i-th name of
    [fnames] its [_demux1] input and its [_demux2] output. *)
Inductive handle := File2 | Demux1 (i : nat) | Demux2 (i : nat).

Global Instance handle_eq_dec : EqDecision handle.
Proof. solve_decision. Defined.

(** The variables of [run] and what it acts on.  An input file is the bytes
    not yet read, an output file is the bytes written so far. *)
Record world := World {
  f_2 : string;
  demultiplexed_files_1 : list string;
  demultiplexed_files_2 : list string;
  slots : list (list string);
  stderr : string;
  log_demultiplexed : nat;
  log_not_matched : nat;
  (** whether the two list variables have been assigned yet *)
  bound_files_1 : bool;
  bound_files_2 : bool;
  (** file objects that are open *)
  open_files : list handle
}.

Definition set_f_2 (v : string) (w : world) : world :=
  World v (demultiplexed_files_1 w) (demultiplexed_files_2 w) (slots w)
    (stderr w) (log_demultiplexed w) (log_not_matched w)
    (bound_files_1 w) (bound_files_2 w) (open_files w).
Definition set_files_1 (v : list string) (w : world) : world :=
  World (f_2 w) v (demultiplexed_files_2 w) (slots w)
    (stderr w) (log_demultiplexed w) (log_not_matched w)
    (bound_files_1 w) (bound_files_2 w) (open_files w).
Definition set_files_2 (v : list string) (w : world) : world :=
  World (f_2 w) (demultiplexed_files_1 w) v (slots w)
    (stderr w) (log_demultiplexed w) (log_not_matched w)
    (bound_files_1 w) (bound_files_2 w) (open_files w).
Definition set_slots (v : list (list string)) (w : world) : world :=
  World (f_2 w) (demultiplexed_files_1 w) (demultiplexed_files_2 w) v
    (stderr w) (log_demultiplexed w) (log_not_matched w)
    (bound_files_1 w) (bound_files_2 w) (open_files w).
Definition set_stderr (v : string) (w : world) : world :=
  World (f_2 w) (demultiplexed_files_1 w) (demultiplexed_files_2 w) (slots w)
    v (log_demultiplexed w) (log_not_matched w)
    (bound_files_1 w) (bound_files_2 w) (open_files w).
Definition set_log_demultiplexed (v : nat) (w : world) : world :=
  World (f_2 w) (demultiplexed_files_1 w) (demultiplexed_files_2 w) (slots w)
    (stderr w) v (log_not_matched w)
    (bound_files_1 w) (bound_files_2 w) (open_files w).
Definition set_log_not_matched (v : nat) (w : world) : world :=
  World (f_2 w) (demultiplexed_files_1 w) (demultiplexed_files_2 w) (slots w)
    (stderr w) (log_demultiplexed w) v
    (bound_files_1 w) (bound_files_2 w) (open_files w).
Definition set_bound_files_1 (v : bool) (w : world) : world :=
  World (f_2 w) (demultiplexed_files_1 w) (demultiplexed_files_2 w) (slots w)
    (stderr w) (log_demultiplexed w) (log_not_matched w)
    v (bound_files_2 w) (open_files w).
Definition set_bound_files_2 (v : bool) (w : world) : world :=
  World (f_2 w) (demultiplexed_files_1 w) (demultiplexed_files_2 w) (slots w)
    (stderr w) (log_demultiplexed w) (log_not_matched w)
    (bound_files_1 w) v (open_files w).
Definition set_open_files (v : list handle) (w : world) : world :=
  World (f_2 w) (demultiplexed_files_1 w) (demultiplexed_files_2 w) (slots w)
    (stderr w) (log_demultiplexed w) (log_not_matched w)
    (bound_files_1 w) (bound_files_2 w) v.

(** ** The state-and-exception monad *)

Definition M (A : Type) : Type := world → res A * world.

Definition ret {A} (a : A) : M A := fun w => (Ok a, w).

Definition bind {A B} (m : M A) (k : A → M B) : M B :=
  fun w =>
    match m w with
    | (Ok a, w') => k a w'
    | (Raise e, w') => (Raise e, w')
    | (OutOfFuel, w') => (OutOfFuel, w')
    end.

Definition raise {A} (e : exn) : M A := fun w => (Raise e, w).

Notation "'let*' x ':=' m 'in' k" := (bind m (fun x => k))
  (at level 10, x name, m at level 100, k at level 200).

(** [try: m finally: fin].  The [finally] block runs whatever [m] did; an
    exception raised by the block replaces the outcome of [m]. *)
Definition try_finally {A} (m : M A) (fin : M unit) : M A :=
  fun w =>
    let '(r, w') := m w in
    match fin w' with
    | (Ok _, w'') => (r, w'')
    | (Raise e, w'') => (Raise e, w'')
    | (OutOfFuel, w'') => (OutOfFuel, w'')
    end.

(** [xs[i]]: an index out of range raises [IndexError]. *)
Definition item {A} (xs : list A) (i : nat) : M A :=
  match xs !! i with
  | Some x => ret x
  | None => raise IndexError
  end.

(** [[m for j in xrange(n)]] *)
Fixpoint times {A} (n : nat) (m : M A) : M (list A) :=
  match n with
  | 0 => ret []
  | S n' => let* x := m in let* xs := times n' m in ret (x :: xs)
  end.

(** [f_2.readline()] *)
Definition f_2_readline : M string :=
  fun w => let '(l, r) := Py.readline (f_2 w) in (Ok l, set_f_2 r w).

(** [demultiplexed_files_1[i].readline()] *)
Definition files_1_readline (i : nat) : M string :=
  fun w =>
    match demultiplexed_files_1 w !! i with
    | Some f =>
        let '(l, r) := Py.readline f in
        (Ok l, set_files_1 (<[i:=r]> (demultiplexed_files_1 w)) w)
    | None => (Raise IndexError, w)
    end.

(** [demultiplexed_files_2[i].writelines(lines)] *)
Definition files_2_writelines (i : nat) (lines : list string) : M unit :=
  fun w =>
    match demultiplexed_files_2 w !! i with
    | Some f =>
        (Ok tt,
         set_files_2 (<[i:=f +:+ Py.join lines]> (demultiplexed_files_2 w)) w)
    | None => (Raise IndexError, w)
    end.

(** [slots[i]] *)
Definition get_slot (i : nat) : M (list string) :=
  fun w => item (slots w) i w.

(** [slots[i] = v] *)
Definition assign_slot (i : nat) (v : list string) : M unit :=
  fun w =>
    if decide (i < length (slots w))
    then (Ok tt, set_slots (<[i:=v]> (slots w)) w)
    else (Raise IndexError, w).

(** [sys.stderr.write(s)] *)
Definition stderr_write (s : string) : M unit :=
  fun w => (Ok tt, set_stderr (stderr w +:+ s) w).

(** [self.log["demultiplexed"] += 1] and [self.log["not matched"] += 1] *)
Definition incr_demultiplexed : M unit :=
  fun w => (Ok tt, set_log_demultiplexed (log_demultiplexed w + 1) w).
Definition incr_not_matched : M unit :=
  fun w => (Ok tt, set_log_not_matched (log_not_matched w + 1) w).

(** [xrange(n)] *)
Definition xrange (n : nat) : list nat := seq 0 n.

(** ** The synchronisation loop *)

(** ["mate missing in file_2: {}\n".format(read_name)] *)
Definition missing_message (read_name : string) : string :=
  "mate missing in file_2: " +:+ read_name +:+ String Py.nl "".

(** The [for i in xrange(len(fnames))] loop over the indices [idxs] still to
    visit; the result is the flag [found]. *)
Fixpoint scan (idxs : list nat) (read_name : string) (read_2_lines : list string)
    : M bool :=
  match idxs with
  | [] => ret false
  | i :: idxs' =>
      let* read_1_lines := get_slot i in
      let* line := item read_1_lines 0 in
      if negb (Py.truthy line) then scan idxs' read_name read_2_lines
      else
        let* name_1 := item (Py.split line) 0 in
        if String.eqb name_1 read_name then
          let* _ := files_2_writelines i read_2_lines in
          let* lines := times 4 (files_1_readline i) in
          let* _ := assign_slot i lines in
          let* _ := incr_demultiplexed in
          ret true
        else scan idxs' read_name read_2_lines
  end.

(** One pass through the body of the [while] loop, up to the report of an
    unmatched mate; [n] is [len(fnames)]. *)
Definition iteration (n : nat) (read_2_lines : list string) : M unit :=
  let* line := item read_2_lines 0 in
  let* read_name := item (Py.split line) 0 in
  let* found := scan (xrange n) read_name read_2_lines in
  if negb found then
    let* _ := stderr_write (missing_message read_name) in
    incr_not_matched
  else ret tt.

(** [while all(read_2_lines): ...; read_2_lines = [f_2.readline() ...]] *)
Fixpoint while_loop (fuel : nat) (n : nat) (read_2_lines : list string)
    : M unit :=
  if Py.all read_2_lines then
    match fuel with
    | 0 => fun w => (OutOfFuel, w)
    | S fuel' =>
        let* _ := iteration n read_2_lines in
        let* next := times 4 f_2_readline in
        while_loop fuel' n next
    end
  else ret tt.

(** Lines 196-230: the first read of [f_2] followed by the [while] loop. *)
Definition read_loop (fuel : nat) (n : nat) : M unit :=
  let* read_2_lines := times 4 f_2_readline in
  while_loop fuel n read_2_lines.

(** [slots = [[f_1.readline().strip() for j in xrange(4)] for f_1 in ...]],
    over the indices [idxs] of [demultiplexed_files_1]. *)
Fixpoint prime (idxs : list nat) : M (list (list string)) :=
  match idxs with
  | [] => ret []
  | i :: idxs' =>
      let* lines := times 4 (let* l := files_1_readline i in ret (Py.strip l)) in
      let* rest := prime idxs' in
      ret (lines :: rest)
  end.

(** The body of the [try] block once both lists of files are open. *)
Definition synchronise (fuel : nat) (n : nat) : M unit :=
  let* primed :=
    (fun w => prime (xrange (length (demultiplexed_files_1 w))) w) in
  let* _ := (fun w => (Ok tt, set_slots primed w)) in
  read_loop fuel n.

(** ** Opening and closing the files of a job *)

(** What the file system answers for one name of [fnames]: the bytes of the
    [_demux1] file when [open(fname)] succeeds, and whether opening the
    [_demux2] file for writing succeeds. *)
Record demux_file := Demux_file {
  readable : option string;
  writable : bool
}.

Definition open_handle (h : handle) : M unit :=
  fun w => (Ok tt, set_open_files (open_files w ++ [h]) w).

(** [x.close()] *)
Definition close_handle (h : handle) : M unit :=
  fun w => (Ok tt, set_open_files (filter (λ h', h' ≠ h) (open_files w)) w).

(** [open(fname)] for the i-th name: [IOError] when the file cannot be read. *)
Definition open_read (i : nat) (d : demux_file) : M string :=
  match readable d with
  | Some bytes => let* _ := open_handle (Demux1 i) in ret bytes
  | None => raise IOError
  end.

(** [open(fname.replace("_demux1", "_demux2"), "w")] for the i-th name: a
    fresh empty file, or [IOError]. *)
Definition open_write (i : nat) (d : demux_file) : M string :=
  if writable d then let* _ := open_handle (Demux2 i) in ret ""
  else raise IOError.

(** [[open_ (...) for fname in fnames]], [i] being the index of the head. *)
Fixpoint open_each (open_ : nat → demux_file → M string) (i : nat)
    (fnames : list demux_file) : M (list string) :=
  match fnames with
  | [] => ret []
  | d :: fnames' =>
      let* f := open_ i d in
      let* fs := open_each open_ (S i) fnames' in
      ret (f :: fs)
  end.

(** [map(lambda x: x.close(), files)] *)
Fixpoint close_each (hs : list handle) : M unit :=
  match hs with
  | [] => ret tt
  | h :: hs' => let* _ := close_handle h in close_each hs'
  end.

Definition assign_files_1 (fs : list string) : M unit :=
  fun w => (Ok tt, set_bound_files_1 true (set_files_1 fs w)).
Definition assign_files_2 (fs : list string) : M unit :=
  fun w => (Ok tt, set_bound_files_2 true (set_files_2 fs w)).

(** The [try] block of [run]. *)
Definition try_block (fuel : nat) (fnames : list demux_file) : M unit :=
  let* fs1 := open_each open_read 0 fnames in
  let* _ := assign_files_1 fs1 in
  let* fs2 := open_each open_write 0 fnames in
  let* _ := assign_files_2 fs2 in
  synchronise fuel (length fnames).

(** The [finally] block of [run]: reading a list variable that was never
    assigned raises [UnboundLocalError]. *)
Definition finally_block : M unit :=
  let* _ := (fun w =>
    if bound_files_1 w
    then close_each (Demux1 <$> xrange (length (demultiplexed_files_1 w))) w
    else (Raise UnboundLocalError, w)) in
  fun w =>
    if bound_files_2 w
    then close_each (Demux2 <$> xrange (length (demultiplexed_files_2 w))) w
    else (Raise UnboundLocalError, w).

(** The state in which [run] starts. *)
Definition initial : world := World "" [] [] [] "" 0 0 false false [].

(** [BarcodeSplitter.run] from the point where [file_2] is opened
    (lines 176-233): [file_2] is the content of the mate-2 file when it can be
    opened and [fnames] the listing of the [_demux1] files left by the
    classifier.  The [with] statement closes [f_2] on every way out. *)
Definition run (file_2 : option string) (fnames : list demux_file)
    : res unit * world :=
  match file_2 with
  | None => (Raise IOError, initial)
  | Some bytes =>
      let w := set_open_files [File2] (set_f_2 bytes initial) in
      let '(r, w') :=
        try_finally (try_block (S (String.length bytes)) fnames)
                    finally_block w in
      (r, snd (close_handle File2 w'))
  end.


(** * Vocabulary of the statements *)

(** ** Lookaheads and names *)

(** [line.split()[0]] when it exists: the name of a read, its first
    whitespace-delimited token. *)
Definition name_of (line : string) : option string := Py.split line !! 0.

(** The name carried by a record, or by a lookahead: that of its first line. *)
Definition key (lines : list string) : option string :=
  lines !! 0 ≫= name_of.

(** The scan steps over the lookahead: it is at the end of its file, or it
    carries a name other than [name]. *)
Definition passes (name : string) (read_1_lines : list string) : bool :=
  match read_1_lines !! 0 with
  | Some line =>
      negb (Py.truthy line) ||
      match name_of line with
      | Some name_1 => negb (String.eqb name_1 name)
      | None => false
      end
  | None => false
  end.

(** The lookahead is a read named [name]. *)
Definition matches (name : string) (read_1_lines : list string) : bool :=
  match read_1_lines !! 0 with
  | Some line =>
      Py.truthy line &&
      match name_of line with
      | Some name_1 => String.eqb name_1 name
      | None => false
      end
  | None => false
  end.

(** The lookahead's first line is non-empty but holds no token. *)
Definition nameless (read_1_lines : list string) : bool :=
  match read_1_lines !! 0 with
  | Some line =>
      Py.truthy line &&
      match name_of line with Some _ => false | None => true end
  | None => false
  end.

(** [n] successive [readline] calls on the bytes [f]. *)
Fixpoint readlines (n : nat) (f : string) : list string * string :=
  match n with
  | 0 => ([], f)
  | S n' =>
      let '(l, f') := Py.readline f in
      let '(ls, f'') := readlines n' f' in
      (l :: ls, f'')
  end.

(** The state after the i-th slot took the record [read_2_lines]. *)
Definition routed (i : nat) (read_2_lines : list string) (out f1 : string)
    (w : world) : world :=
  set_log_demultiplexed (log_demultiplexed w + 1)
    (set_slots (<[i:=(readlines 4 f1).1]> (slots w))
       (set_files_1 (<[i:=(readlines 4 f1).2]> (demultiplexed_files_1 w))
          (set_files_2 (<[i:=out +:+ Py.join read_2_lines]>
                          (demultiplexed_files_2 w)) w))).

(** The state after the record named [name] was reported as unmatched. *)
Definition reported (name : string) (w : world) : world :=
  set_log_not_matched (log_not_matched w + 1)
    (set_stderr (stderr w +:+ missing_message name) w).


(** The scan steps over the j-th slot. *)
Definition slot_passes (name : string) (w : world) (j : nat) : bool :=
  match slots w !! j with
  | Some look => passes name look
  | None => false
  end.


(** ** Records read and classified *)

(** The bytes of a sequence of records. *)
Definition stream (records : list (list string)) : string :=
  Py.join (Py.join <$> records).

(** Records counted so far. *)
Definition counted (w : world) : nat :=
  log_demultiplexed w + log_not_matched w.

(** [classified n k w w']: from [w], where the next record is about to be read
    from [f_2], the loop reads [k] records one after the other, finishes the
    iteration of each, and is then in [w'], about to read again. *)
Inductive classified (n : nat) : nat → world → world → Prop :=
  | classified_O w : classified n 0 w w
  | classified_S k w r rest w1 w' :
      readlines 4 (f_2 w) = (r, rest) →
      Py.all r = true →
      iteration n r (set_f_2 rest w) = (Ok tt, w1) →
      classified n k w1 w' →
      classified n (S k) w w'.


(** ** Lines and whitespace *)

(** The string holds nothing but whitespace. *)
Fixpoint whitespace_only (s : string) : bool :=
  match s with
  | "" => true
  | String c s' => Py.isspace c && whitespace_only s'
  end.

(** The number of lines [readline] finds in the bytes [f]. *)
Fixpoint line_count (f : string) : nat :=
  match f with
  | "" => 0
  | String c f' =>
      if Ascii.eqb c Py.nl then S (line_count f')
      else match f' with "" => 1 | _ => line_count f' end
  end.


(** No byte of the string is whitespace. *)
Definition no_space (s : string) : bool :=
  forallb (λ c, negb (Py.isspace c)) (list_ascii_of_string s).

(** No byte of the string is a newline. *)
Definition no_newline (s : string) : bool :=
  forallb (λ c, negb (Ascii.eqb c Py.nl)) (list_ascii_of_string s).


(** A line as [readline] returns it before the end of a file: bytes other than
    newline, then one newline. *)
Fixpoint is_line (l : string) : bool :=
  match l with
  | "" => false
  | String c l' =>
      if Ascii.eqb c Py.nl then negb (Py.truthy l') else is_line l'
  end.

(** A read record of a FASTQ file: four lines, the first of which holds a
    name. *)
Definition wf_read (r : list string) : bool :=
  (length r =? 4) && forallb is_line r &&
  match key r with Some _ => true | None => false end.

(** ** Runs in step *)

(** The names of a sequence of records. *)
Definition names (records : list (list string)) : list string :=
  omap key records.

(** A [_demux1] file with the given bytes that can be opened, next to a
    [_demux2] file that can be created. *)
Definition openable (bytes : string) : demux_file :=
  Demux_file (Some bytes) true.

(** The lookahead [look] and the unread bytes [f1] of a slot stand for the
    records [rs] the slot has not given away yet. *)
Definition holds (look : list string) (f1 : string)
    (rs : list (list string)) : Prop :=
  match rs with
  | [] => look !! 0 = Some ""
  | r :: rs' =>
      (∃ line, look !! 0 = Some line ∧ line ≠ "" ∧ name_of line = key r) ∧
      f1 = stream rs'
  end.

(** The slots of [w] stand for the records [R], slot by slot. *)
Definition in_sync (n : nat) (R : list (list (list string))) (w : world)
    : Prop :=
  length R = n ∧ length (demultiplexed_files_2 w) = n ∧
  ∀ i rs, R !! i = Some rs →
    Forall (λ r, wf_read r = true) rs ∧
    ∃ look f1,
      slots w !! i = Some look ∧
      demultiplexed_files_1 w !! i = Some f1 ∧
      holds look f1 rs.

(** The name is found in the names of exactly one slot. *)
Definition in_one_slot (K : list (list string)) (name : string) : Prop :=
  length (filter (λ ks, name ∈ ks) K) = 1.

(** The names [M] that belong to the slot with names [ks] come in [M] in the
    order of [ks], none left out: they are an initial segment of [ks]. *)
Definition in_step (M : list string) (ks : list string) : Prop :=
  filter (.∈ ks) M `prefix_of` ks.


(** ** Runs in which every file opens *)

(** The state in which the [try] block starts its work on the records, once
    the mate-2 file and the files of every slot are open. *)
Definition opened (bytes : string) (contents : list string) : world :=
  World bytes contents (replicate (length contents) "") [] "" 0 0 true true
    ([File2] ++ (Demux1 <$> seq 0 (length contents))
             ++ (Demux2 <$> seq 0 (length contents))).

(** The first lookahead of a slot and what is then left of its file. *)
Definition first_lookahead (f : string) : list string :=
  Py.strip <$> (readlines 4 f).1.
Definition after_first (f : string) : string := (readlines 4 f).2.


(** A computation that never runs out of fuel and leaves the mate-2 file
    where it is. *)
Definition steady {A} (m : M A) : Prop :=
  ∀ w, (m w).1 ≠ OutOfFuel ∧ f_2 (m w).2 = f_2 w.

(** ** Test data *)

Module Fastq.

Definition line (s : string) : string := s +:+ String Py.nl "".

(** A four-line read record. *)
Definition read (name seq qual : string) : list string :=
  [line name; line seq; line "+"; line qual].

Definition file (reads : list (list string)) : string := stream reads.

Definition bucket (reads : list (list string)) : demux_file :=
  openable (file reads).

(** A bucket whose file has a blank line after its reads. *)
Definition blank_tailed (reads : list (list string)) : demux_file :=
  openable (file reads +:+ line "").

Definition id1_1 := read "@id1 1" "ACGT" "IIII".
Definition id2_1 := read "@id2 1" "CCGT" "IIJI".
Definition id3_1 := read "@id3 1" "GGGT" "JIII".
Definition id1_2 := read "@id1 2" "TTTT" "HHHH".
Definition id2_2 := read "@id2 2" "TTAA" "HHGG".
Definition id3_2 := read "@id3 2" "AATT" "GGHH".
Definition id4_2 := read "@id4 2" "ATAT" "GHGH".

(** A record of four lines whose first line is one space. *)
Definition nameless_read : list string :=
  [line " "; line "ACGT"; line "+"; line "IIII"].

(** The first two lines of a read. *)
Definition half_read : string := line "@id2 2" +:+ line "TTAA".

(** Two slots: the first waits for id1, the second for id3. *)
Definition waiting : world :=
  World "" [file [id2_1]; ""] [""; ""] [id1_1; id3_1] "" 0 0 true true [].

(** One slot whose file had a blank line after its only read, now its
    lookahead. *)
Definition blank_lookahead : world :=
  World "" [""] [file [id1_2]] [[line ""; ""; ""; ""]] "" 1 0 true true [].

(** Two slots: the first waits for id1, the lookahead of the second is a
    blank line. *)
Definition blank_second : world :=
  World "" [file [id2_1]; ""] [""; file [id3_2]]
    [id1_1; [line ""; ""; ""; ""]] "" 1 0 true true [].

(** Two slots: the lookahead of the first is a blank line, the second waits
    for id3. *)
Definition blank_first : world :=
  World "" [""; ""] [file [id1_2]; ""]
    [[line ""; ""; ""; ""]; id3_1] "" 1 0 true true [].

(** Slot A holds id1, id2, slot B holds id3; the mate-2 reads are id3, id1,
    id2: the scenario of the specification. *)
Definition buckets_AB : list (list (list string)) :=
  [[id1_1; id2_1]; [id3_1]].
Definition mates_AB : list (list string) := [id3_2; id1_2; id2_2].

(** One slot holds id1, id2, id3; the mate-2 file has id1 and id3 only. *)
Definition buckets_gap : list (list (list string)) :=
  [[id1_1; id2_1; id3_1]].
Definition mates_gap : list (list string) := [id1_2; id3_2].

(** A mate-2 file with the read id1 and then half a read. *)
Definition truncated : res unit * world :=
  run (Some (file [id1_2] +:+ half_read)) [bucket [id1_1; id2_1]].

(** After id1 the only slot is left with a blank line; id4 comes next. *)
Definition blank_then_unmatched : res unit * world :=
  run (Some (file [id1_2; id4_2])) [blank_tailed [id1_1]].

(** Slot B is left with a blank line after id3; id1 and id2 go to slot A. *)
Definition blank_never_reached : res unit * world :=
  run (Some (file mates_AB)) [bucket [id1_1; id2_1]; blank_tailed [id3_1]].

End Fastq.

(** * The rest of the script *)

(** ** The files of a job *)

(** [s.startswith(p)] *)
Definition startswith (s p : string) : bool := String.prefix p s.

(** [s[n:]] *)
Fixpoint tail_from (n : nat) (s : string) : string :=
  match n, s with
  | S n', String _ s' => tail_from n' s'
  | _, _ => s
  end.

(** [s.endswith(p)]: the last [len(p)] bytes of [s] are [p]. *)
Definition endswith (s p : string) : bool :=
  (String.length p <=? String.length s) &&
  String.eqb (tail_from (String.length s - String.length p) s) p.

(** [s.replace(old, new)] for a non-empty [old], scanning [s] from the left:
    where [old] starts, [new] is put out and the other [len(old) - 1] bytes of
    the occurrence are skipped, so that occurrences do not overlap. *)
Fixpoint replace_go (old new : string) (skip : nat) (s : string) : string :=
  match s with
  | "" => ""
  | String c s' =>
      match skip with
      | S k => replace_go old new k s'
      | 0 =>
          if String.prefix old s
          then new +:+ replace_go old new (String.length old - 1) s'
          else String c (replace_go old new 0 s')
      end
  end.

(** With an empty [old], [new] goes before every byte and at the end. *)
Fixpoint replace_empty (new s : string) : string :=
  match s with
  | "" => new
  | String c s' => new +:+ String c (replace_empty new s')
  end.

Definition replace (s old new : string) : string :=
  match old with
  | "" => replace_empty new s
  | _ => replace_go old new 0 s
  end.

(** Lines 171-173: the names of the listing that start with the prefix and
    end with the suffix given to the classifier, in the order of the
    listing. *)
Definition fnames_of (prefix : string) (listdir : list string) : list string :=
  List.filter
    (λ fname, startswith fname prefix && endswith fname "_demux1.fastq")
    listdir.

(** Line 187: the name of the mate-2 output that goes with [fname]. *)
Definition demux2_name (fname : string) : string :=
  replace fname "_demux1" "_demux2".

(** What [run] finds in the working directory once the classifier is done:
    the listing, the bytes of the files that can be read, and the names under
    which a file can be created. *)
Record disk := Disk {
  listdir : list string;
  content : string → option string;
  creatable : string → bool
}.

(** Lines 171-233 of [BarcodeSplitter.run]. *)
Definition run_listing (d : disk) (prefix file_2 : string)
    : res unit * world :=
  run (content d file_2)
      ((λ fname, Demux_file (content d fname) (creatable d (demux2_name fname)))
         <$> fnames_of prefix (listdir d)).

(** ** Values and exceptions of the driver *)

(** The values that options and keyword arguments take. *)
Inductive pyval := PNone | PBool (b : bool) | PInt (z : Z) | PStr (s : string).

(** [str(v)] *)
Definition str (v : pyval) : string :=
  match v with
  | PNone => "None"
  | PBool true => "True"
  | PBool false => "False"
  | PInt z => pretty z
  | PStr s => s
  end.

(** Truthiness of a value. *)
Definition truth (v : pyval) : bool :=
  match v with
  | PNone => false
  | PBool b => b
  | PInt z => negb (Z.eqb z 0)
  | PStr s => Py.truthy s
  end.

(** Exceptions that leave the functions of the driver; [SystemExit] is what
    [sys.exit] raises, [Exn] an exception of [run]'s kind. *)
Inductive failure :=
  | ValueError
  | TypeError
  | KeyError
  | GetoptError
  | SystemExit (status : Z)
  | Exn (e : exn).

Inductive outcome (A : Type) :=
  | Return (a : A)
  | Throw (e : failure).
Arguments Return {A} a.
Arguments Throw {A} e.

(** What was written to the two standard streams. *)
Record printed := Printed { on_stdout : string; on_stderr : string }.

(** [d[k]] *)
Definition getitem (d : gmap string pyval) (k : string) : outcome pyval :=
  match d !! k with
  | Some v => Return v
  | None => Throw KeyError
  end.

(** ** [Options] *)

Module Options.

(** The dictionary and the two attributes of an instance. *)
Record t := Make {
  dict : gmap string pyval;
  args : list string;
  opts : list (string * string)
}.

Definition set_default (self : gmap string pyval) : gmap string pyval :=
  <["position" := PNone]>
    (<["prefix" := PNone]>
       (<["mismatch" := PInt 1]>
          (<["bcfile" := PNone]>
             (<["batch" := PBool false]> self)))).

Section Init.

(** The usage text [__doc__], and [int(a)] on a string, [None] standing for
    [ValueError]. *)
Variable doc : string.
Variable int : string → option Z.

(** The [for o, a in opts] loop; the string is what went to standard output.
    The value of [self['position'].lower()] is dropped by the source. *)
Fixpoint loop (opts : list (string * string)) (self : gmap string pyval)
    : outcome (gmap string pyval) * string :=
  match opts with
  | [] => (Return self, "")
  | (o, a) :: opts' =>
      if String.eqb o "--help" then (Throw (SystemExit 0), doc)
      else if String.eqb o "-b" then
        loop opts' (<["batch" := PBool true]> self)
      else if String.eqb o "--bcfile" then
        loop opts' (<["bcfile" := PStr a]> self)
      else if String.eqb o "--mismatch" then
        match int a with
        | Some z => loop opts' (<["mismatch" := PInt z]> self)
        | None => (Throw ValueError, "")
        end
      else if String.eqb o "--prefix" then
        loop opts' (<["prefix" := PStr a]> self)
      else if String.eqb o "--position" then
        loop opts' (<["position" := PStr a]> self)
      else (Throw GetoptError, "")
  end.

(** [Options.__init__], from the outcome of [getopt.getopt]: the message of
    its [GetoptError], or the pair [(opts, args)]. *)
Definition init (parsed : string + list (string * string) * list string)
    : outcome t * printed :=
  match parsed with
  | inl e =>
      (Throw (SystemExit 1),
       Printed "" (e +:+ String Py.nl (String Py.nl "") +:+ doc))
  | inr (opts, args) =>
      match loop opts (set_default ∅) with
      | (Return self, out) => (Return (Make self args opts), Printed out "")
      | (Throw e, out) => (Throw e, Printed out "")
      end
  end.

End Init.

End Options.

(** ** [BarcodeSplitter.__init__] *)

Module BarcodeSplitter.

(** The attributes of an instance; the last four are unset until their
    keyword is met.  The two counters of [self.log] start at zero, as in
    [initial]. *)
Record t := Make {
  args : list pyval;
  file_1 : string;
  file_2 : string;
  bcfile : option pyval;
  mismatch : option pyval;
  prefix : option pyval;
  position : option pyval
}.

(** The body of the [for k in kwargs] loop, [v] being [kwargs[k]]. *)
Definition keyword (self : t) (k : string) (v : pyval) : outcome t :=
  if String.eqb k "bcfile" then
    Return (Make (args self ++ [PStr "--bcfile"; v])
                 (file_1 self) (file_2 self)
                 (Some v) (mismatch self) (prefix self) (position self))
  else if String.eqb k "mismatch" then
    Return (Make (args self ++ [PStr "--mismatch"; PStr (str v)])
                 (file_1 self) (file_2 self)
                 (bcfile self) (Some v) (prefix self) (position self))
  else if String.eqb k "prefix" then
    Return (Make (args self ++ [PStr "--prefix"; v])
                 (file_1 self) (file_2 self)
                 (bcfile self) (mismatch self) (Some v) (position self))
  else if String.eqb k "position" then
    match v with
    | PStr s =>
        Return (Make (args self ++ [PStr ("--" +:+ s)])
                     (file_1 self) (file_2 self)
                     (bcfile self) (mismatch self) (prefix self) (Some v))
    | _ => Throw TypeError
    end
  else Throw ValueError.

Fixpoint keywords (kwargs : list (string * pyval)) (self : t) : outcome t :=
  match kwargs with
  | [] => Return self
  | (k, v) :: kwargs' =>
      match keyword self k v with
      | Return self' => keywords kwargs' self'
      | Throw e => Throw e
      end
  end.

(** [BarcodeSplitter.__init__]; [kwargs] lists the keyword arguments in the
    order in which the dictionary yields them. *)
Definition init (file_1 file_2 : string) (kwargs : list (string * pyval))
    : outcome t :=
  keywords kwargs
    (Make [PStr "fastx_barcode_splitter.pl"; PStr "--suffix";
           PStr "_demux1.fastq"]
          file_1 file_2 None None None None).

End BarcodeSplitter.

(** ** [barcode_splitter] and [main] *)

Section Main.

(** The state of the host (its files and processes), the usage text, [int],
    the order in which a dictionary of keyword arguments yields its keys, and
    the method [BarcodeSplitter.run] as it acts on the host. *)
Context {St : Type}.
Variable doc : string.
Variable int : string → option Z.
Variable kwargs_order : list (string * pyval) → list (string * pyval).
Variable run_method : BarcodeSplitter.t → St → option failure * St.

Definition barcode_splitter (file_1 file_2 : string)
    (bcfile prefix position mismatch : pyval) (s : St) : option failure * St :=
  match BarcodeSplitter.init file_1 file_2
          (kwargs_order [("bcfile", bcfile); ("prefix", prefix);
                         ("position", position); ("mismatch", mismatch)]) with
  | Return b => run_method b s
  | Throw e => (Some e, s)
  end.

(** The [for line in fileinput.input()] loop over the lines still to come. *)
Fixpoint batch (options : gmap string pyval) (lines : list string) (s : St)
    : option failure * St :=
  match lines with
  | [] => (None, s)
  | line :: lines' =>
      if negb (Py.truthy (Py.strip line)) then batch options lines' s
      else
        match Py.split line with
        | [bcfile; file_1; file_2] =>
            let prefix := find_prefix file_1 file_2 in
            match getitem options "position" with
            | Throw e => (Some e, s)
            | Return position =>
                match getitem options "mismatch" with
                | Throw e => (Some e, s)
                | Return mismatch =>
                    match barcode_splitter file_1 file_2 (PStr bcfile)
                            (PStr prefix) position mismatch s with
                    | (None, s') => batch options lines' s'
                    | (Some e, s') => (Some e, s')
                    end
                end
            end
        | _ => (Some ValueError, s)
        end
  end.

(** The single-input branch. *)
Definition single (options : Options.t) (s : St) : option failure * St :=
  match Options.args options with
  | file_1 :: file_2 :: _ =>
      match getitem (Options.dict options) "bcfile" with
      | Throw e => (Some e, s)
      | Return bcfile =>
      match getitem (Options.dict options) "prefix" with
      | Throw e => (Some e, s)
      | Return prefix =>
      match getitem (Options.dict options) "position" with
      | Throw e => (Some e, s)
      | Return position =>
      match getitem (Options.dict options) "mismatch" with
      | Throw e => (Some e, s)
      | Return mismatch =>
          barcode_splitter file_1 file_2 bcfile prefix position mismatch s
      end end end end
  | _ => (Some (Exn IndexError), s)
  end.

(** [main] once the options are read; [lines] is what [fileinput.input()]
    yields from the files named by [options.args], or from standard input
    when there is none (line 268). *)
Definition dispatch (options : Options.t) (lines : list string) (s : St)
    : outcome Z * St :=
  match getitem (Options.dict options) "batch" with
  | Throw e => (Throw e, s)
  | Return b =>
      match (if truth b then batch (Options.dict options) lines s
             else single options s) with
      | (None, s') => (Return 0%Z, s')
      | (Some e, s') => (Throw e, s')
      end
  end.

Definition main (parsed : string + list (string * string) * list string)
    (lines : list string) (s : St) : outcome Z * printed * St :=
  match Options.init doc int parsed with
  | (Return options, p) =>
      let '(r, s') := dispatch options lines s in (r, p, s')
  | (Throw e, p) => (Throw e, p, s)
  end.

End Main.

(** ** More vocabulary *)

(** The lookahead of slot [j] is at the end of its file: its first line is the
    empty string. *)
Definition exhausted (w : world) (j : nat) : bool :=
  match slots w !! j with
  | Some look =>
      match look !! 0 with
      | Some line => negb (Py.truthy line)
      | None => false
      end
  | None => false
  end.


(** A [_demux1] file with the given bytes that can be opened, next to a
    [_demux2] file that can be created or not. *)
Definition readable_file (bytes : string) (w : bool) : demux_file :=
  Demux_file (Some bytes) w.

(** The byte [c] occurs in [s]. *)
Definition has_byte (c : ascii) (s : string) : bool :=
  existsb (Ascii.eqb c) (list_ascii_of_string s).

(** The arguments given with the option [o], in the order of the command
    line. *)
Definition given (o : string) (opts : list (string * string)) : list string :=
  snd <$> List.filter (λ oa, String.eqb oa.1 o) opts.

(** A dictionary with the five keys of [Options], each with a value of its
    kind. *)
Definition typed (d : gmap string pyval) : Prop :=
  (∀ k, is_Some (d !! k) ↔
        k ∈ ["batch"; "bcfile"; "mismatch"; "prefix"; "position"]) ∧
  (∃ b, d !! "batch" = Some (PBool b)) ∧
  (∃ z, d !! "mismatch" = Some (PInt z)) ∧
  ∀ k, k ∈ ["bcfile"; "prefix"; "position"] →
       d !! k = Some PNone ∨ ∃ a, d !! k = Some (PStr a).

(** The words a keyword argument adds to the command line of the
    classifier. *)
Definition words (kv : string * pyval) : list pyval :=
  match kv with
  | ("bcfile", v) => [PStr "--bcfile"; v]
  | ("mismatch", v) => [PStr "--mismatch"; PStr (str v)]
  | ("prefix", v) => [PStr "--prefix"; v]
  | ("position", PStr s) => [PStr ("--" +:+ s)]
  | _ => []
  end.

(** The keyword arguments that [barcode_splitter] passes. *)
Definition passed (bcfile prefix position mismatch : pyval)
    : list (string * pyval) :=
  [("bcfile", bcfile); ("prefix", prefix); ("position", position);
   ("mismatch", mismatch)].

(** A keyword argument that [__init__] takes without raising. *)
Definition accepted (kv : string * pyval) : Prop :=
  kv.1 ∈ ["bcfile"; "mismatch"; "prefix"] ∨
  (kv.1 = "position" ∧ ∃ s, kv.2 = PStr s).

(** The line is not blank: [line.strip()] is truthy. *)
Definition not_blank (line : string) : bool := Py.truthy (Py.strip line).

(** The option is neither [--bcfile] nor [--prefix]. *)
Definition kept_in_batch (oa : string * string) : bool :=
  negb (String.eqb oa.1 "--bcfile" || String.eqb oa.1 "--prefix").

(** ** The records of a file *)

(** The records at the head of the bytes [f], read as the loop reads them
    (lines 196, 199 and 230): four lines at a time, as long as the four lines
    are non-empty. *)
Fixpoint records_of (fuel : nat) (f : string) : list (list string) :=
  match fuel with
  | 0 => []
  | S fuel' =>
      if Py.all (readlines 4 f).1
      then (readlines 4 f).1 :: records_of fuel' (readlines 4 f).2
      else []
  end.

(** The records of a mate-2 file. *)
Definition mate_2_records (bytes : string) : list (list string) :=
  records_of (S (String.length bytes)) bytes.

(** The records whose destination is [d], in the order of [records]: the
    i-th record goes where the i-th element of [dest] says, to the output of
    a slot or, for [None], to the report of unmatched reads. *)
Definition sent_to (dest : list (option nat)) (records : list (list string))
    (d : option nat) : list (list string) :=
  snd <$> filter (λ tr, tr.1 = d) (zip dest records).

(** ** More test data *)

(** A host for examples: its state is the list of the instances that were
    run, none of which fails, [int] reads one digit, and a dictionary yields
    its keys in the order in which they were passed. *)
Module Toy.

Definition int (a : string) : option Z :=
  match a with
  | String c "" => Z.of_nat <$> Ascii.is_nat c
  | _ => None
  end.

Definition run_method (b : BarcodeSplitter.t) (jobs : list BarcodeSplitter.t)
    : option failure * list BarcodeSplitter.t :=
  (None, jobs ++ [b]).

Definition main := main (St:=list BarcodeSplitter.t) "usage" int id run_method.

(** The instance of [Options] made from the options and arguments, when
    [Options.__init__] returns. *)
Definition options (opts : list (string * string)) (args : list string)
    : Options.t :=
  match (Options.init "usage" int (inr (opts, args))).1 with
  | Return o => o
  | Throw _ => Options.Make ∅ args opts
  end.

(** A batch run with one mismatch more, and a run on a pair of files. *)
Definition batch_opts : list (string * string) :=
  [("-b", ""); ("--position", "bol"); ("--mismatch", "2")].
Definition pair_opts : list (string * string) :=
  [("--bcfile", "barcodes.txt"); ("--prefix", "s1_"); ("--position", "eol")].

End Toy.

Module Cases.

(** Two slots: the first is at the end of its file, the second waits for
    id1. *)
Definition used_up : world :=
  World "" [""; Fastq.file [Fastq.id2_1]] [""; ""]
    [[""; ""; ""; ""]; Fastq.id1_1] "" 0 0 true true [].

(** Two bucket files, the first of which starts with a blank line. *)
Definition blank_start : list string :=
  [Fastq.line "" +:+ Fastq.file [Fastq.id1_1]; Fastq.file [Fastq.id3_1]].

(** A working directory with one bucket of the job [s1_], next to the
    mate-2 file of the job in the directory [data]. *)
Definition in_data : disk :=
  Disk ["s1_AAA_demux1.fastq"; "notes.txt"]
       (λ name, if String.eqb name "data/s1_2.fastq"
                then Some (Fastq.file Fastq.mates_gap) else None)
       (λ _, true).


End Cases.

(** * Lemmas *)

Section StringFacts.

Lemma app_nil_l_str (s : string) : "" +:+ s = s.
Proof. reflexivity. Qed.

Lemma app_cons_str c (s t : string) : String c s +:+ t = String c (s +:+ t).
Proof. reflexivity. Qed.

Lemma app_empty_r (s : string) : s +:+ "" = s.
Proof. induction s as [|c s IH]; [done | by rewrite app_cons_str, IH]. Qed.

Lemma app_assoc_str (s t u : string) : (s +:+ t) +:+ u = s +:+ (t +:+ u).
Proof. induction s as [|c s IH]; [done | by rewrite !app_cons_str, IH]. Qed.

Lemma app_length_str (s t : string) :
  String.length (s +:+ t) = String.length s + String.length t.
Proof.
  induction s as [|c s IH]; [done | rewrite app_cons_str; simpl; by rewrite IH].
Qed.

End StringFacts.

Section Primitives.

Example split_tokens :
  Py.split (Fastq.line "  @id1 1  length=4 ") = ["@id1"; "1"; "length=4"].
Proof. reflexivity. Qed.

Example split_blank : Py.split (Fastq.line " ") = [].
Proof. reflexivity. Qed.

Example strip_line : Py.strip (Fastq.line "  @id1 1 ") = "@id1 1".
Proof. reflexivity. Qed.

Example strip_blank : Py.strip (Fastq.line " ") = "".
Proof. reflexivity. Qed.

Example readline_first :
  Py.readline (Fastq.line "@id1 1" +:+ "ACGT") = (Fastq.line "@id1 1", "ACGT").
Proof. reflexivity. Qed.

Example readline_last : Py.readline "ACGT" = ("ACGT", "").
Proof. reflexivity. Qed.

Example readline_at_end : Py.readline "" = ("", "").
Proof. reflexivity. Qed.

Example find_prefix_of_pair :
  find_prefix "run7_1.fastq.gz" "run7_2.fastq.gz" = "run7_".
Proof. reflexivity. Qed.

End Primitives.

Section FindPrefix.

Lemma find_prefix_loop_acc zs c :
  find_prefix_loop zs c = c +:+ find_prefix_loop zs "".
Proof.
  revert c. induction zs as [|[x y] zs IH]; intros c; simpl.
  - by rewrite app_empty_r.
  - destruct (Ascii.eqb x y); simpl.
    + rewrite app_nil_l_str, (IH (c +:+ String x "")), (IH (String x "")).
      by rewrite app_assoc_str.
    + by rewrite app_empty_r.
Qed.

Lemma find_prefix_nil_l b : find_prefix "" b = "".
Proof. done. Qed.

Lemma find_prefix_nil_r a : find_prefix a "" = "".
Proof. by destruct a. Qed.

Lemma find_prefix_cons x a y b :
  find_prefix (String x a) (String y b) =
  if Ascii.eqb x y then String x (find_prefix a b) else "".
Proof.
  unfold find_prefix; simpl. destruct (Ascii.eqb x y); simpl; [|done].
  by rewrite app_nil_l_str, find_prefix_loop_acc.
Qed.

(** Every common prefix of [a] and [b] is a prefix of [find_prefix a b]. *)
Lemma find_prefix_greatest a b d :
  String.prefix d a = true → String.prefix d b = true →
  String.prefix d (find_prefix a b) = true.
Proof.
  revert a b. induction d as [|z d IH]; intros a b Ha Hb.
  - by destruct (find_prefix a b).
  - destruct a as [|x a], b as [|y b]; simpl in *; try done.
    rewrite find_prefix_cons.
    destruct (ascii_dec z x) as [->|]; [|done].
    destruct (ascii_dec x y) as [->|]; [|done].
    rewrite Ascii.eqb_refl. simpl.
    destruct (ascii_dec y y); [|done]. by apply IH.
Qed.

End FindPrefix.

Section Scan.

Lemma world_eta w :
  World (f_2 w) (demultiplexed_files_1 w) (demultiplexed_files_2 w) (slots w)
    (stderr w) (log_demultiplexed w) (log_not_matched w)
    (bound_files_1 w) (bound_files_2 w) (open_files w) = w.
Proof. by destruct w. Qed.

Lemma times_files_1_readline n i f w :
  demultiplexed_files_1 w !! i = Some f →
  times n (files_1_readline i) w =
  (Ok (readlines n f).1,
   set_files_1 (<[i:=(readlines n f).2]> (demultiplexed_files_1 w)) w).
Proof.
  revert f w. induction n as [|n IH]; intros f w Hf.
  - simpl. unfold ret, set_files_1. rewrite list_insert_id by done.
    by rewrite world_eta.
  - cbn [times readlines]. unfold bind at 1. unfold files_1_readline at 1.
    rewrite Hf. destruct (Py.readline f) as [l f'] eqn:Hl.
    unfold bind at 1.
    rewrite (IH f') by (apply list_lookup_insert_eq; by eapply lookup_lt_Some).
    destruct (readlines n f') as [ls f''] eqn:Hls. simpl.
    unfold ret, set_files_1. simpl. by rewrite list_insert_insert_eq.
Qed.


Lemma scan_nil name r w : scan [] name r w = (Ok false, w).
Proof. done. Qed.

(** The scan at a slot whose lookahead has a first line. *)
Lemma scan_cons i idxs name r w look line :
  slots w !! i = Some look → look !! 0 = Some line →
  scan (i :: idxs) name r w =
  if Py.truthy line then
    match name_of line with
    | Some name_1 =>
        if String.eqb name_1 name then
          (let* _ := files_2_writelines i r in
           let* lines := times 4 (files_1_readline i) in
           let* _ := assign_slot i lines in
           let* _ := incr_demultiplexed in
           ret true) w
        else scan idxs name r w
    | None => (Raise IndexError, w)
    end
  else scan idxs name r w.
Proof.
  intros Hi Hl. cbn [scan]. unfold bind at 1, get_slot, item. rewrite Hi.
  unfold ret at 1. unfold bind at 1. rewrite Hl. unfold ret at 1.
  destruct (Py.truthy line); cbn [negb]; [|done].
  unfold bind at 1, item, name_of.
  destruct (Py.split line !! 0) as [name_1|]; [|done].
  unfold ret at 1. by destruct (String.eqb name_1 name).
Qed.

(** The four statements that follow a match. *)
Lemma take_record i r w look out f1 :
  slots w !! i = Some look →
  demultiplexed_files_2 w !! i = Some out →
  demultiplexed_files_1 w !! i = Some f1 →
  (let* _ := files_2_writelines i r in
   let* lines := times 4 (files_1_readline i) in
   let* _ := assign_slot i lines in
   let* _ := incr_demultiplexed in
   ret true) w = (Ok true, routed i r out f1 w).
Proof.
  intros Hi Hout Hf1. unfold bind at 1, files_2_writelines. rewrite Hout.
  unfold bind at 1. rewrite (times_files_1_readline 4 i f1) by done.
  unfold bind at 1, assign_slot. cbn [slots set_files_1 set_files_2].
  rewrite decide_True by (by eapply lookup_lt_Some).
  reflexivity.
Qed.

(** A slot whose lookahead is passed over is left alone. *)
Lemma scan_pass i idxs name r w look :
  slots w !! i = Some look → passes name look = true →
  scan (i :: idxs) name r w = scan idxs name r w.
Proof.
  intros Hi Hp. unfold passes in Hp.
  destruct (look !! 0) as [line|] eqn:Hl; [|done].
  rewrite (scan_cons _ _ _ _ _ _ _ Hi Hl).
  destruct (Py.truthy line); [|done]. simpl in Hp.
  destruct (name_of line) as [name_1|]; [|done].
  apply negb_true_iff in Hp. by rewrite Hp.
Qed.

(** A slot whose lookahead carries the name takes the record. *)
Lemma scan_hit i idxs name r w look out f1 :
  slots w !! i = Some look → matches name look = true →
  demultiplexed_files_2 w !! i = Some out →
  demultiplexed_files_1 w !! i = Some f1 →
  scan (i :: idxs) name r w = (Ok true, routed i r out f1 w).
Proof.
  intros Hi Hm Hout Hf1. unfold matches in Hm.
  destruct (look !! 0) as [line|] eqn:Hl; [|done].
  rewrite (scan_cons _ _ _ _ _ _ _ Hi Hl).
  destruct (Py.truthy line); [|done]. simpl in Hm.
  destruct (name_of line) as [name_1|]; [|done].
  rewrite Hm. by eapply take_record.
Qed.

(** A slot whose lookahead has a non-empty first line without a token stops
    the scan with [IndexError]. *)
Lemma scan_nameless i idxs name r w look :
  slots w !! i = Some look → nameless look = true →
  scan (i :: idxs) name r w = (Raise IndexError, w).
Proof.
  intros Hi Hn. unfold nameless in Hn.
  destruct (look !! 0) as [line|] eqn:Hl; [|done].
  rewrite (scan_cons _ _ _ _ _ _ _ Hi Hl).
  destruct (Py.truthy line); [|done]. simpl in Hn.
  by destruct (name_of line) as [name_1|].
Qed.

Lemma scan_passes pre idxs name r w :
  Forall (λ j, ∃ look, slots w !! j = Some look ∧ passes name look = true) pre →
  scan (pre ++ idxs) name r w = scan idxs name r w.
Proof.
  induction 1 as [|j pre (look & Hj & Hp) _ IH]; [done|].
  rewrite <- app_comm_cons. by rewrite (scan_pass j _ _ _ _ look).
Qed.

End Scan.

Section Iteration.

Lemma xrange_split i n :
  i < n → xrange n = xrange i ++ i :: seq (S i) (n - S i).
Proof.
  intros Hi. unfold xrange.
  replace n with (i + S (n - S i)) at 1 by lia.
  by rewrite seq_app.
Qed.

Lemma slot_passes_xrange name w i :
  (∀ j, j < i → slot_passes name w j = true) →
  Forall (λ j, ∃ look, slots w !! j = Some look ∧ passes name look = true)
         (xrange i).
Proof.
  intros H. apply Forall_forall. intros j Hj%elem_of_seq.
  specialize (H j ltac:(lia)). unfold slot_passes in H.
  destruct (slots w !! j) as [look|]; [|done]. by exists look.
Qed.

Lemma iteration_unfold n r w line name :
  r !! 0 = Some line → name_of line = Some name →
  iteration n r w =
  match scan (xrange n) name r w with
  | (Ok true, w') => (Ok tt, w')
  | (Ok false, w') => (Ok tt, reported name w')
  | (Raise e, w') => (Raise e, w')
  | (OutOfFuel, w') => (OutOfFuel, w')
  end.
Proof.
  intros Hl Hn. unfold iteration, bind at 1, item. rewrite Hl.
  unfold ret at 1. unfold bind at 1. unfold name_of in Hn. rewrite Hn.
  unfold ret at 1. unfold bind at 1.
  destruct (scan (xrange n) name r w) as [[[]| |] w']; done.
Qed.

Lemma key_Some r name :
  key r = Some name ↔ ∃ line, r !! 0 = Some line ∧ name_of line = Some name.
Proof.
  unfold key. destruct (r !! 0) as [line|]; simpl;
    [|split; [done | by intros (? & ? & ?)]].
  split; [by exists line | intros (l & Hl & Hn); congruence].
Qed.

(** The first slot whose lookahead carries the record's name takes it. *)
Lemma iteration_routed n r w name i look out f1 :
  key r = Some name → i < n →
  (∀ j, j < i → slot_passes name w j = true) →
  slots w !! i = Some look → matches name look = true →
  demultiplexed_files_2 w !! i = Some out →
  demultiplexed_files_1 w !! i = Some f1 →
  iteration n r w = (Ok tt, routed i r out f1 w).
Proof.
  intros (line & Hl & Hn)%key_Some Hi Hpre Hlook Hm Hout Hf1.
  rewrite (iteration_unfold _ _ _ _ _ Hl Hn), (xrange_split i n Hi).
  rewrite scan_passes by by apply slot_passes_xrange.
  by rewrite (scan_hit _ _ _ _ _ look out f1).
Qed.

(** A record whose name no lookahead carries is reported and counted. *)
Lemma iteration_reported n r w name :
  key r = Some name →
  (∀ j, j < n → slot_passes name w j = true) →
  iteration n r w = (Ok tt, reported name w).
Proof.
  intros (line & Hl & Hn)%key_Some Hall.
  rewrite (iteration_unfold _ _ _ _ _ Hl Hn).
  rewrite <- (app_nil_r (xrange n)).
  rewrite scan_passes by by apply slot_passes_xrange.
  by rewrite scan_nil.
Qed.

(** A record whose first line holds no token stops the run. *)
Lemma iteration_nameless_record n r w line :
  r !! 0 = Some line → name_of line = None →
  iteration n r w = (Raise IndexError, w).
Proof.
  intros Hl Hn. unfold iteration, bind at 1, item. rewrite Hl.
  unfold ret at 1. unfold bind at 1. unfold name_of in Hn. by rewrite Hn.
Qed.

(** So does a lookahead without a token, once the scan gets to it. *)
Lemma iteration_nameless_slot n r w name i look :
  key r = Some name → i < n →
  (∀ j, j < i → slot_passes name w j = true) →
  slots w !! i = Some look → nameless look = true →
  iteration n r w = (Raise IndexError, w).
Proof.
  intros (line & Hl & Hn)%key_Some Hi Hpre Hlook Hm.
  rewrite (iteration_unfold _ _ _ _ _ Hl Hn), (xrange_split i n Hi).
  rewrite scan_passes by by apply slot_passes_xrange.
  by rewrite (scan_nameless _ _ _ _ _ look).
Qed.

Lemma first_not_passing (P : nat → bool) n :
  (∀ j, j < n → P j = true) ∨
  (∃ i, i < n ∧ P i = false ∧ ∀ j, j < i → P j = true).
Proof.
  induction n as [|n [IH|(i & Hi & Hf & Hpre)]].
  - left. lia.
  - destruct (P n) eqn:Hn.
    + left. intros j Hj. destruct (decide (j = n)) as [->|]; [done|].
      apply IH. lia.
    + right. exists n. split_and!; [lia|done|done].
  - right. exists i. split_and!; [lia|done|done].
Qed.

(** What the scan does at a slot it does not step over. *)
Lemma scan_head_cases i idxs name r w :
  slot_passes name w i = false →
  (∃ look out f1,
      slots w !! i = Some look ∧ matches name look = true ∧
      demultiplexed_files_2 w !! i = Some out ∧
      demultiplexed_files_1 w !! i = Some f1 ∧
      scan (i :: idxs) name r w = (Ok true, routed i r out f1 w)) ∨
  scan (i :: idxs) name r w = (Raise IndexError, w) ∨
  (∃ look out,
      slots w !! i = Some look ∧ matches name look = true ∧
      demultiplexed_files_2 w !! i = Some out ∧
      demultiplexed_files_1 w !! i = None ∧
      scan (i :: idxs) name r w =
      (Raise IndexError,
       set_files_2 (<[i:=out +:+ Py.join r]> (demultiplexed_files_2 w)) w)).
Proof.
  unfold slot_passes. intros Hp.
  destruct (slots w !! i) as [look|] eqn:Hlook; last first.
  { right; left. cbn [scan]. unfold bind at 1, get_slot, item. by rewrite Hlook. }
  destruct (look !! 0) as [line|] eqn:Hl; last first.
  { right; left. cbn [scan]. unfold bind at 1, get_slot, item. rewrite Hlook.
    unfold ret at 1. unfold bind at 1. by rewrite Hl. }
  rewrite (scan_cons _ _ _ _ _ _ _ Hlook Hl).
  unfold passes in Hp. rewrite Hl in Hp.
  assert (matches name look =
          Py.truthy line &&
          match name_of line with
          | Some name_1 => String.eqb name_1 name
          | None => false
          end) as Hm by (unfold matches; by rewrite Hl).
  destruct (Py.truthy line); [|done]. simpl in Hp, Hm.
  destruct (name_of line) as [name_1|]; [|by right; left].
  apply negb_false_iff in Hp. rewrite Hp in Hm |- *.
  destruct (demultiplexed_files_2 w !! i) as [out|] eqn:Hout; last first.
  { right; left. unfold bind at 1, files_2_writelines. by rewrite Hout. }
  destruct (demultiplexed_files_1 w !! i) as [f1|] eqn:Hf1.
  { left. exists look, out, f1. split_and!; try done. by eapply take_record. }
  right; right. exists look, out. split_and!; [done..|].
  unfold bind at 1, files_2_writelines. rewrite Hout.
  unfold bind at 1. cbn [times]. unfold bind at 1, files_1_readline at 1.
  cbn [demultiplexed_files_1 set_files_2]. by rewrite Hf1.
Qed.

(** The four ways one iteration can go: the record is routed to the first slot
    that carries its name, it is reported as unmatched, or an index is out of
    range, before anything was changed or (when the list of inputs is shorter
    than the list of outputs) after the write. *)
Lemma iteration_cases n r w :
  (∃ name i look out f1,
      key r = Some name ∧ i < n ∧
      (∀ j, j < i → slot_passes name w j = true) ∧
      slots w !! i = Some look ∧ matches name look = true ∧
      demultiplexed_files_2 w !! i = Some out ∧
      demultiplexed_files_1 w !! i = Some f1 ∧
      iteration n r w = (Ok tt, routed i r out f1 w)) ∨
  (∃ name,
      key r = Some name ∧ (∀ j, j < n → slot_passes name w j = true) ∧
      iteration n r w = (Ok tt, reported name w)) ∨
  iteration n r w = (Raise IndexError, w) ∨
  (∃ name i look out,
      key r = Some name ∧ i < n ∧
      (∀ j, j < i → slot_passes name w j = true) ∧
      slots w !! i = Some look ∧ matches name look = true ∧
      demultiplexed_files_2 w !! i = Some out ∧
      demultiplexed_files_1 w !! i = None ∧
      iteration n r w =
      (Raise IndexError,
       set_files_2 (<[i:=out +:+ Py.join r]> (demultiplexed_files_2 w)) w)).
Proof.
  destruct (key r) as [name|] eqn:Hkey; last first.
  { right; right; left. unfold key in Hkey.
    destruct (r !! 0) as [line|] eqn:Hl; simpl in Hkey.
    - by eapply iteration_nameless_record.
    - unfold iteration, bind at 1, item. by rewrite Hl. }
  destruct (first_not_passing (slot_passes name w) n)
    as [Hall|(i & Hi & Hf & Hpre)].
  { right; left. exists name. split_and!; [done..|]. by apply iteration_reported. }
  pose proof Hkey as (line & Hl & Hn)%key_Some.
  rewrite (iteration_unfold _ _ _ _ _ Hl Hn), (xrange_split i n Hi).
  rewrite scan_passes by by apply slot_passes_xrange.
  destruct (scan_head_cases i (seq (S i) (n - S i)) name r w Hf)
    as [(look & out & f1 & ? & ? & ? & ? & ->)|[->|(look & out & ? & ? & ? & ? & ->)]].
  - left. exists name, i, look, out, f1. by split_and!.
  - right; right; by left.
  - right; right; right. by exists name, i, look, out.
Qed.

(** The second slot waits for id3, but the scan meets the blank lookahead of
    the first slot before it and raises. *)
Example blank_first_raises :
  matches "@id3" Fastq.id3_1 = true ∧
  iteration 2 Fastq.id3_2 Fastq.blank_first =
    (Raise IndexError, Fastq.blank_first).
Proof. by vm_compute. Qed.

End Iteration.

Section Loop.

Lemma readline_app f : (Py.readline f).1 +:+ (Py.readline f).2 = f.
Proof.
  induction f as [|c f IH]; [done|]. simpl.
  destruct (Ascii.eqb c Py.nl); [done|].
  destruct (Py.readline f) as [l rest]. simpl in *.
  by rewrite app_cons_str, IH.
Qed.

Lemma readlines_app n f : Py.join (readlines n f).1 +:+ (readlines n f).2 = f.
Proof.
  revert f. induction n as [|n IH]; intros f; [done|]. simpl.
  pose proof (readline_app f) as Hf.
  destruct (Py.readline f) as [l f']. specialize (IH f').
  destruct (readlines n f') as [ls f'']. simpl in *.
  by rewrite app_assoc_str, IH.
Qed.

Lemma readlines_length n f : length (readlines n f).1 = n.
Proof.
  revert f. induction n as [|n IH]; intros f; [done|]. simpl.
  destruct (Py.readline f) as [l f']. specialize (IH f').
  destruct (readlines n f') as [ls f'']. simpl in *. by rewrite IH.
Qed.

Lemma truthy_length s : Py.truthy s = true → 0 < String.length s.
Proof. destruct s; simpl; [done | lia]. Qed.

Lemma all_join_length r :
  Py.all r = true → length r ≤ String.length (Py.join r).
Proof.
  induction r as [|l r IH]; simpl; [lia|].
  intros [Hl Hr]%andb_true_iff. rewrite app_length_str.
  apply truthy_length in Hl. specialize (IH Hr). lia.
Qed.

Lemma times_f_2_readline n w :
  times n f_2_readline w =
  (Ok (readlines n (f_2 w)).1, set_f_2 (readlines n (f_2 w)).2 w).
Proof.
  revert w. induction n as [|n IH]; intros w.
  - simpl. unfold ret, set_f_2. by rewrite world_eta.
  - cbn [times readlines]. unfold bind at 1. unfold f_2_readline at 1.
    destruct (Py.readline (f_2 w)) as [l f'] eqn:Hl.
    unfold bind at 1. rewrite IH. cbn [f_2 set_f_2].
    by destruct (readlines n f') as [ls f''].
Qed.

Lemma while_loop_stop fuel n r w :
  Py.all r = false → while_loop fuel n r w = (Ok tt, w).
Proof. intros Hr. destruct fuel; simpl; by rewrite Hr. Qed.

Lemma while_loop_step fuel n r w :
  Py.all r = true →
  while_loop (S fuel) n r w =
  match iteration n r w with
  | (Ok _, w') => read_loop fuel n w'
  | (Raise e, w') => (Raise e, w')
  | (OutOfFuel, w') => (OutOfFuel, w')
  end.
Proof. intros Hr. cbn [while_loop]. by rewrite Hr. Qed.

Lemma read_loop_unfold fuel n w :
  read_loop fuel n w =
  while_loop fuel n (readlines 4 (f_2 w)).1
    (set_f_2 (readlines 4 (f_2 w)).2 w).
Proof. unfold read_loop, bind. by rewrite times_f_2_readline. Qed.

(** An iteration leaves the mate-2 input where it is, and the files open. *)
Lemma iteration_f_2 n r w :
  f_2 (iteration n r w).2 = f_2 w ∧
  open_files (iteration n r w).2 = open_files w ∧
  bound_files_1 (iteration n r w).2 = bound_files_1 w ∧
  bound_files_2 (iteration n r w).2 = bound_files_2 w ∧
  length (demultiplexed_files_1 (iteration n r w).2) =
    length (demultiplexed_files_1 w) ∧
  length (demultiplexed_files_2 (iteration n r w).2) =
    length (demultiplexed_files_2 w).
Proof.
  destruct (iteration_cases n r w)
    as [(?&?&?&?&?&_&_&_&_&_&_&_& ->)|[(?&_&_& ->)|[->|(?&?&?&?&_&_&_&_&_&_&_& ->)]]];
    simpl; by rewrite ?length_insert.
Qed.

(** Each completed iteration adds one to exactly one of the two counters. *)
Lemma iteration_counts n r w w' :
  iteration n r w = (Ok tt, w') →
  (log_demultiplexed w' = log_demultiplexed w + 1 ∧
   log_not_matched w' = log_not_matched w) ∨
  (log_demultiplexed w' = log_demultiplexed w ∧
   log_not_matched w' = log_not_matched w + 1).
Proof.
  destruct (iteration_cases n r w)
    as [(?&?&?&?&?&_&_&_&_&_&_&_& ->)|[(?&_&_& ->)|[->|(?&?&?&?&_&_&_&_&_&_&_& ->)]]];
    intros [= <-]; simpl; auto.
Qed.

Lemma iteration_Ok_key n r w w' :
  iteration n r w = (Ok tt, w') → ∃ name, key r = Some name.
Proof.
  destruct (iteration_cases n r w)
    as [(name&?&?&?&?&?&_&_&_&_&_&_& ->)|[(name&?&_& ->)|[->|(?&?&?&?&_&_&_&_&_&_&_& ->)]]];
    intros [= <-]; by exists name.
Qed.

(** The loop never uses up its fuel when it starts with more fuel than there
    are bytes in the record at hand and in the rest of the file. *)
Lemma while_loop_fuel fuel n r w :
  String.length (Py.join r) + String.length (f_2 w) < fuel →
  (while_loop fuel n r w).1 ≠ OutOfFuel.
Proof.
  revert r w. induction fuel as [|fuel IH]; intros r w Hlen; [lia|].
  destruct (Py.all r) eqn:Hr; [|by rewrite while_loop_stop].
  rewrite while_loop_step by done.
  pose proof (iteration_f_2 n r w) as (Hf2 & _).
  pose proof (iteration_cases n r w) as Hcases.
  destruct (iteration n r w) as [[[]|e|] w'] eqn:Hit; simpl in *; [|done|].
  - rewrite read_loop_unfold. apply IH. cbn [f_2 set_f_2].
    pose proof (readlines_app 4 (f_2 w')) as Happ.
    apply (f_equal String.length) in Happ. rewrite app_length_str in Happ.
    pose proof (all_join_length r Hr).
    apply iteration_Ok_key in Hit as (name & Hkey).
    assert (0 < length r) by (destruct r; simpl in *; [done | lia]).
    rewrite <- Hf2 in Hlen. lia.
  - destruct Hcases as [(?&?&?&?&?&_&_&_&_&_&_&_& ?)|[(?&_&_& ?)|[?|(?&?&?&?&_&_&_&_&_&_&_& ?)]]];
      done.
Qed.

Lemma read_loop_fuel fuel n w :
  String.length (f_2 w) < fuel → (read_loop fuel n w).1 ≠ OutOfFuel.
Proof.
  intros Hlen. rewrite read_loop_unfold. apply while_loop_fuel.
  cbn [f_2 set_f_2]. pose proof (readlines_app 4 (f_2 w)) as Happ.
  apply (f_equal String.length) in Happ. rewrite app_length_str in Happ. lia.
Qed.

Lemma classified_counted n k w w' :
  classified n k w w' → counted w' = counted w + k.
Proof.
  induction 1 as [|k w r rest w1 w' Hread Hall Hit _ IH]; [unfold counted; lia|].
  rewrite IH. apply iteration_counts in Hit. unfold counted in *.
  simpl in Hit. lia.
Qed.

Lemma classified_stream n k w w' :
  classified n k w w' →
  ∃ records,
    length records = k ∧
    Forall (λ r, length r = 4 ∧ Py.all r = true) records ∧
    f_2 w = stream records +:+ f_2 w'.
Proof.
  induction 1 as [|k w r rest w1 w' Hread Hall Hit _ (records & Hlen & Hrec & Hf)].
  - by exists [].
  - exists (r :: records). split_and!.
    + simpl. by rewrite Hlen.
    + constructor; [|done]. split; [|done].
      pose proof (readlines_length 4 (f_2 w)) as Hl. by rewrite Hread in Hl.
    + pose proof (readlines_app 4 (f_2 w)) as Happ. rewrite Hread in Happ.
      simpl in Happ. rewrite <- Happ. unfold stream in *. cbn [fmap list_fmap Py.join].
      rewrite app_assoc_str. f_equal.
      pose proof (iteration_f_2 n r (set_f_2 rest w)) as (Hf2 & _).
      rewrite Hit in Hf2. simpl in Hf2. by rewrite <- Hf2.
Qed.

(** A loop that ends normally has classified every record up to the first
    reading that is not four non-empty lines. *)
Lemma read_loop_classified fuel n w w' :
  read_loop fuel n w = (Ok tt, w') →
  ∃ k w'',
    classified n k w w'' ∧
    Py.all (readlines 4 (f_2 w'')).1 = false ∧
    w' = set_f_2 (readlines 4 (f_2 w'')).2 w''.
Proof.
  revert w. induction fuel as [|fuel IH]; intros w; rewrite read_loop_unfold.
  - destruct (Py.all (readlines 4 (f_2 w)).1) eqn:Hall.
    + cbn [while_loop]. by rewrite Hall.
    + rewrite while_loop_stop by done. intros [= <-].
      exists 0, w. split_and!; [constructor|done..].
  - destruct (Py.all (readlines 4 (f_2 w)).1) eqn:Hall.
    + rewrite while_loop_step by done.
      destruct (iteration n _ _) as [[[]|e|] w1] eqn:Hit; [|done..].
      intros (k & w'' & Hk & Hstop & ->)%IH.
      exists (S k), w''. split_and!; [|done..].
      eapply classified_S; [|done..]. by destruct (readlines 4 (f_2 w)).
    + rewrite while_loop_stop by done. intros [= <-].
      exists 0, w. split_and!; [constructor|done..].
Qed.

End Loop.

Section Routing.

Lemma app_eq_self (s t : string) : s +:+ t = s → t = "".
Proof.
  induction s as [|c s IH]; [done|]. rewrite app_cons_str. intros [= H]. auto.
Qed.

Lemma matches_key name look :
  matches name look = true →
  key look = Some name ∧ ∃ line, look !! 0 = Some line ∧ line ≠ "".
Proof.
  unfold matches, key. destruct (look !! 0) as [line|]; [|done]. simpl.
  intros [Ht Hn]%andb_true_iff. destruct (name_of line) as [name_1|]; [|done].
  apply String.eqb_eq in Hn as ->. split; [done|]. exists line.
  split; [done|]. by destruct line.
Qed.


Lemma whitespace_only_split_go s :
  whitespace_only s = true → Py.split_go "" s = [].
Proof.
  induction s as [|c s IH]; [done|]. simpl.
  intros [-> Hs]%andb_true_iff. auto.
Qed.

Lemma whitespace_only_name_of line :
  whitespace_only line = true → name_of line = None.
Proof.
  intros H. unfold name_of, Py.split. by rewrite whitespace_only_split_go.
Qed.

Lemma whitespace_only_nameless look line :
  look !! 0 = Some line → line ≠ "" → whitespace_only line = true →
  nameless look = true.
Proof.
  intros Hl Hne Hw. unfold nameless. rewrite Hl.
  rewrite (whitespace_only_name_of _ Hw). by destruct line.
Qed.

End Routing.

Section Diagnostics.

Lemma no_space_app s c :
  no_space s = true → Py.isspace c = false →
  no_space (s +:+ String c "") = true.
Proof.
  intros Hs Hc. induction s as [|d s IH]; simpl in *.
  - unfold no_space. simpl. by rewrite Hc.
  - rewrite app_cons_str. unfold no_space in *. simpl in *.
    apply andb_true_iff in Hs as [-> Hs]. simpl. auto.
Qed.

Lemma split_go_no_space cur s tok :
  no_space cur = true → tok ∈ Py.split_go cur s → no_space tok = true.
Proof.
  revert cur. induction s as [|c s IH]; intros cur Hcur; simpl.
  - destruct (Py.truthy cur); [|by intros ?%elem_of_nil].
    by intros ->%list_elem_of_singleton.
  - destruct (Py.isspace c) eqn:Hc.
    + destruct (Py.truthy cur).
      * intros [->|Hin]%elem_of_cons; [done|]. by apply (IH "").
      * by apply (IH "").
    + apply IH. by apply no_space_app.
Qed.

Lemma name_of_no_space line name :
  name_of line = Some name → no_space name = true.
Proof.
  unfold name_of, Py.split. intros H.
  apply (split_go_no_space "" line); [done|].
  by eapply list_elem_of_lookup_2.
Qed.

Lemma no_space_no_newline s : no_space s = true → no_newline s = true.
Proof.
  unfold no_space, no_newline. induction (list_ascii_of_string s) as [|c l IH];
    simpl; [done|].
  intros [Hc Hl]%andb_true_iff. rewrite (IH Hl), andb_true_r.
  destruct (Ascii.eqb c Py.nl) eqn:Heq; [|done].
  apply Ascii.eqb_eq in Heq as ->. done.
Qed.

Lemma no_newline_app s t :
  no_newline s = true → no_newline t = true → no_newline (s +:+ t) = true.
Proof.
  intros Hs Ht. induction s as [|c s IH]; [done|].
  rewrite app_cons_str. unfold no_newline in *. simpl in *.
  apply andb_true_iff in Hs as [-> Hs]. simpl. auto.
Qed.

Lemma line_count_one s :
  no_newline s = true → line_count (s +:+ String Py.nl "") = 1.
Proof.
  induction s as [|c s IH]; [done|]. intros H.
  unfold no_newline in H. simpl in H. apply andb_true_iff in H as [Hc Hs].
  rewrite app_cons_str. cbn [line_count].
  apply negb_true_iff in Hc. rewrite Hc.
  destruct (s +:+ String Py.nl "") eqn:Happ; [by destruct s|].
  by apply IH.
Qed.

(** The diagnostic is one line. *)
Lemma missing_message_one_line line name :
  name_of line = Some name → line_count (missing_message name) = 1.
Proof.
  intros Hn. unfold missing_message. rewrite <- app_assoc_str.
  apply line_count_one, no_newline_app; [done|].
  by eapply no_space_no_newline, name_of_no_space.
Qed.

Lemma readline_line_count f :
  f ≠ "" →
  Py.truthy (Py.readline f).1 = true ∧
  line_count f = S (line_count (Py.readline f).2).
Proof.
  induction f as [|c f IH]; [done|]. intros _. simpl.
  destruct (Ascii.eqb c Py.nl); [done|].
  destruct f as [|d f].
  - done.
  - destruct IH as [_ IH]; [done|].
    destruct (Py.readline (String d f)) as [l rest]. simpl in *. by split.
Qed.

Lemma readlines_nil n : (readlines n "").2 = "".
Proof.
  induction n as [|n IH]; [done|]. simpl.
  by destruct (readlines n "") as [ls rest].
Qed.

(** Fewer lines than are asked for: some line read is empty, and the file is
    used up. *)
Lemma readlines_short n f :
  line_count f < n →
  Py.all (readlines n f).1 = false ∧ (readlines n f).2 = "".
Proof.
  revert f. induction n as [|n IH]; intros f Hlt; [lia|].
  destruct (decide (f = "")) as [->|Hne].
  - simpl. pose proof (readlines_nil n).
    by destruct (readlines n "") as [ls rest].
  - destruct (readline_line_count f Hne) as [Ht Hc]. simpl.
    destruct (Py.readline f) as [l rest]. simpl in *.
    destruct (IH rest ltac:(lia)) as [Hall Hrest].
    destruct (readlines n rest) as [ls rest']. simpl in *.
    by rewrite Hall, andb_false_r.
Qed.

End Diagnostics.

Section Lines.

Lemma readline_is_line l rest :
  is_line l = true → Py.readline (l +:+ rest) = (l, rest).
Proof.
  induction l as [|c l IH]; [done|]. rewrite app_cons_str. simpl.
  destruct (Ascii.eqb c Py.nl).
  - destruct l; [done|done].
  - intros Hl. by rewrite (IH Hl).
Qed.

Lemma is_line_truthy l : is_line l = true → Py.truthy l = true.
Proof. by destruct l. Qed.

Lemma readlines_lines ls rest :
  forallb is_line ls = true →
  readlines (length ls) (Py.join ls +:+ rest) = (ls, rest).
Proof.
  induction ls as [|l ls IH]; [done|]. simpl.
  intros [Hl Hls]%andb_true_iff.
  rewrite app_assoc_str, (readline_is_line _ _ Hl). by rewrite (IH Hls).
Qed.

Lemma wf_read_readlines r rest :
  wf_read r = true → readlines 4 (Py.join r +:+ rest) = (r, rest).
Proof.
  unfold wf_read. intros [[Hlen Hl]%andb_true_iff _]%andb_true_iff.
  apply Nat.eqb_eq in Hlen. rewrite <- Hlen. by apply readlines_lines.
Qed.

Lemma wf_read_all r : wf_read r = true → Py.all r = true.
Proof.
  unfold wf_read. intros [[_ Hl]%andb_true_iff _]%andb_true_iff.
  unfold Py.all. induction r as [|l r IH]; [done|]. simpl in *.
  apply andb_true_iff in Hl as [Hl Hr]. by rewrite (is_line_truthy _ Hl), IH.
Qed.

Lemma wf_read_key r : wf_read r = true → ∃ name, key r = Some name.
Proof.
  unfold wf_read. intros [_ Hk]%andb_true_iff.
  destruct (key r) as [name|]; [by exists name | done].
Qed.

Lemma stream_cons r rs : stream (r :: rs) = Py.join r +:+ stream rs.
Proof. done. Qed.

Lemma readlines_at_end : readlines 4 "" = ([""; ""; ""; ""], "").
Proof. done. Qed.

Lemma split_go_lstrip s : Py.split_go "" (Py.lstrip s) = Py.split_go "" s.
Proof.
  induction s as [|c s IH]; [done|]. simpl.
  destruct (Py.isspace c) eqn:Hc; [done|]. simpl. by rewrite Hc.
Qed.

Lemma split_go_rstrip cur s :
  Py.split_go cur (Py.rstrip s) = Py.split_go cur s.
Proof.
  revert cur. induction s as [|c s IH]; intros cur; [done|]. simpl.
  destruct (Py.isspace c) eqn:Hc; simpl.
  - destruct (Py.truthy (Py.rstrip s)) eqn:Ht; simpl.
    + rewrite Hc. by rewrite IH.
    + rewrite <- (IH ""). destruct (Py.rstrip s); [|done]. simpl.
      by destruct (Py.truthy cur).
  - rewrite Hc. by rewrite IH.
Qed.

(** Stripping a line does not change its name. *)
Lemma name_of_strip l : name_of (Py.strip l) = name_of l.
Proof.
  unfold name_of, Py.split, Py.strip.
  by rewrite split_go_lstrip, split_go_rstrip.
Qed.

Lemma name_of_truthy l name : name_of l = Some name → l ≠ "".
Proof. by intros H ->. Qed.

End Lines.

Section Sync.

(** [in_one_slot], unfolded: the one slot and its index. *)
Lemma in_one_slot_unique (K : list (list string)) name :
  in_one_slot K name →
  ∃ i ks, K !! i = Some ks ∧ name ∈ ks ∧
          ∀ j ks', K !! j = Some ks' → name ∈ ks' → j = i.
Proof.
  unfold in_one_slot. induction K as [|ks K IH]; [done|].
  destruct (decide (name ∈ ks)) as [Hin|Hnin].
  - rewrite filter_cons_True by done. simpl. intros [= Hlen].
    apply nil_length_inv in Hlen.
    exists 0, ks. split_and!; [done..|].
    intros [|j] ks' Hj Hin'; [done|]. simpl in Hj.
    apply list_elem_of_lookup_2 in Hj.
    by destruct (filter_nil_not_elem_of _ _ _ Hlen Hin').
  - rewrite filter_cons_False by done. intros (i & ks0 & Hi & Hin & Huniq)%IH.
    exists (S i), ks0. split_and!; [done..|].
    intros [|j] ks' Hj Hin'; simpl in Hj; [congruence|].
    f_equal. by eapply Huniq.
Qed.

Lemma filter_ext_elem {A} (P Q : A → Prop) `{!∀ x, Decision (P x)}
    `{!∀ x, Decision (Q x)} (l : list A) :
  (∀ x, x ∈ l → P x ↔ Q x) → filter P l = filter Q l.
Proof.
  induction l as [|x l IH]; intros Hext; [done|].
  rewrite !filter_cons. rewrite IH by (intros y Hy; apply Hext; by right).
  destruct (decide (P x)) as [HP|HP], (decide (Q x)) as [HQ|HQ]; try done.
  - destruct HQ. apply Hext; [by left | done].
  - destruct HP. apply Hext; [by left | done].
Qed.

(** One step of a run in step: the name at the head of the mate-2 names heads
    the names of exactly one slot; once both heads are taken away, the rest is
    in step again. *)
Lemma sync_step (K : list (list string)) (M : list string) name :
  (∀ x, x ∈ name :: M →
     ∃ i ks, K !! i = Some ks ∧ x ∈ ks ∧
             ∀ j ks', K !! j = Some ks' → x ∈ ks' → j = i) →
  (∀ i ks, K !! i = Some ks → in_step (name :: M) ks) →
  ∃ i ks',
    K !! i = Some (name :: ks') ∧
    (∀ j ks, K !! j = Some ks → j ≠ i → name ∉ ks) ∧
    (∀ x, x ∈ M →
       ∃ i0 ks, <[i:=ks']> K !! i0 = Some ks ∧ x ∈ ks ∧
                ∀ j ks0, <[i:=ks']> K !! j = Some ks0 → x ∈ ks0 → j = i0) ∧
    (∀ i0 ks, <[i:=ks']> K !! i0 = Some ks → in_step M ks).
Proof.
  intros H1 H2.
  destruct (H1 name ltac:(by left)) as (i & ks & Hi & Hin & Huniq).
  pose proof (H2 i ks Hi) as Hstep. unfold in_step in Hstep.
  rewrite filter_cons_True in Hstep by done.
  destruct ks as [|k0 ks']; [by apply elem_of_nil in Hin|].
  pose proof (prefix_cons_inv_1 _ _ _ _ Hstep) as <-.
  apply prefix_cons_inv_2 in Hstep.
  assert (Hsub : ∀ x, x ∈ M → x ∈ name :: ks' → x ∈ ks').
  { intros x HxM Hx. destruct Hstep as [tl ->].
    apply elem_of_app; left. by apply list_elem_of_filter. }
  assert (Hlt : i < length K) by by eapply lookup_lt_Some.
  exists i, ks'. split_and!; [done|..].
  - intros j ks Hj Hne Hin'. by destruct Hne; eapply Huniq.
  - intros x Hx.
    destruct (H1 x ltac:(by right)) as (i0 & ks0 & Hi0 & Hin0 & Huniq0).
    destruct (decide (i0 = i)) as [->|Hne].
    + exists i, ks'. rewrite list_lookup_insert_eq by done.
      assert (ks0 = name :: ks') as -> by congruence.
      split_and!; [done|by apply Hsub|].
      intros j ks1 Hj Hin1. destruct (decide (j = i)) as [|Hji]; [done|].
      rewrite list_lookup_insert_ne in Hj by done. by eapply Huniq0.
    + exists i0, ks0. rewrite list_lookup_insert_ne by done.
      split_and!; [done..|].
      intros j ks1 Hj Hin1. destruct (decide (j = i)) as [->|Hji].
      * rewrite list_lookup_insert_eq in Hj by done. injection Hj as <-.
        eapply Huniq0; [done|]. by right.
      * rewrite list_lookup_insert_ne in Hj by done. by eapply Huniq0.
  - intros i0 ks Hi0. unfold in_step.
    destruct (decide (i0 = i)) as [->|Hne].
    + rewrite list_lookup_insert_eq in Hi0 by done. injection Hi0 as <-.
      rewrite (filter_ext_elem (.∈ ks') (.∈ name :: ks')); [done|].
      intros x Hx. split; [by right | by apply Hsub].
    + rewrite list_lookup_insert_ne in Hi0 by done.
      pose proof (H2 i0 ks Hi0) as Hstep0. unfold in_step in Hstep0.
      rewrite filter_cons_False in Hstep0; [done|].
      intros Hin0. by destruct Hne; eapply Huniq.
Qed.

Lemma names_cons r rs name :
  key r = Some name → names (r :: rs) = name :: names rs.
Proof. intros H. unfold names. simpl. by rewrite H. Qed.

Lemma holds_matches look f1 r rs name :
  holds look f1 (r :: rs) → key r = Some name → matches name look = true.
Proof.
  intros [(line & Hl & Hne & Hn) _] Hkey. unfold matches. rewrite Hl.
  rewrite Hn, Hkey, String.eqb_refl. by destruct line.
Qed.

Lemma holds_passes look f1 rs name :
  Forall (λ r, wf_read r = true) rs → holds look f1 rs →
  name ∉ names rs → passes name look = true.
Proof.
  intros Hwf Hh Hnin. unfold passes. destruct rs as [|r rs]; simpl in Hh.
  - by rewrite Hh.
  - destruct Hh as [(line & Hl & Hne & Hn) _]. rewrite Hl, Hn.
    apply Forall_cons in Hwf as [(name_r & Hkey)%wf_read_key _].
    rewrite Hkey. rewrite (names_cons _ _ _ Hkey) in Hnin.
    destruct (String.eqb_spec name_r name) as [->|]; [|by rewrite orb_true_r].
    destruct Hnin. by left.
Qed.

(** The slot that has just read its next four lines stands for the records
    that come after the one it gave away. *)
Lemma holds_advance rs :
  Forall (λ r, wf_read r = true) rs →
  holds (readlines 4 (stream rs)).1 (readlines 4 (stream rs)).2 rs.
Proof.
  intros Hwf. destruct rs as [|r rs]; [done|].
  apply Forall_cons in Hwf as [Hr _].
  rewrite stream_cons, (wf_read_readlines _ _ Hr). simpl. split; [|done].
  destruct (wf_read_key _ Hr) as (name & Hkey).
  pose proof Hkey as (line & Hl & Hn)%key_Some.
  exists line. split_and!; [done|by eapply name_of_truthy|by rewrite Hkey].
Qed.

Lemma in_sync_routed n R w i r rs m out f1 :
  in_sync n R w → R !! i = Some (r :: rs) →
  demultiplexed_files_1 w !! i = Some f1 → f1 = stream rs →
  in_sync n (<[i:=rs]> R) (routed i m out f1 w).
Proof.
  intros (HR & H2 & Hslots) Hi Hf1 ->.
  assert (i < length R) by by eapply lookup_lt_Some.
  split_and!; [by rewrite length_insert|simpl; by rewrite length_insert|].
  intros j rs0 Hj. destruct (decide (j = i)) as [->|Hne].
  - rewrite list_lookup_insert_eq in Hj by done. injection Hj as <-.
    destruct (Hslots i _ Hi) as (Hwf & look & f1' & Hlook & _ & _).
    apply Forall_cons in Hwf as [_ Hwf]. split; [done|].
    exists (readlines 4 (stream rs)).1, (readlines 4 (stream rs)).2. simpl.
    rewrite !list_lookup_insert_eq by by eapply lookup_lt_Some.
    split_and!; [done..|]. by apply holds_advance.
  - rewrite list_lookup_insert_ne in Hj by done.
    destruct (Hslots j _ Hj) as (Hwf & look & f1' & Hlook & Hf1' & Hh).
    split; [done|]. exists look, f1'. simpl.
    by rewrite !list_lookup_insert_ne.
Qed.

(** A loop whose slots stand for records in step with the mate-2 records
    matches every one of them. *)
Lemma read_loop_in_step mates :
  Forall (λ r, wf_read r = true) mates →
  ∀ fuel n R w,
    in_sync n R w → f_2 w = stream mates →
    (∀ x, x ∈ names mates →
       ∃ i ks, (names <$> R) !! i = Some ks ∧ x ∈ ks ∧
               ∀ j ks', (names <$> R) !! j = Some ks' → x ∈ ks' → j = i) →
    (∀ i ks, (names <$> R) !! i = Some ks → in_step (names mates) ks) →
    String.length (f_2 w) < fuel →
    ∃ w',
      read_loop fuel n w = (Ok tt, w') ∧
      log_demultiplexed w' = log_demultiplexed w + length mates ∧
      log_not_matched w' = log_not_matched w.
Proof.
  induction 1 as [|m mates Hm Hmates IH]; intros fuel n R w Hsync Hf2 H1 H2 Hfuel.
  - exists (set_f_2 "" w). rewrite read_loop_unfold, Hf2.
    rewrite while_loop_stop by done. simpl. split_and!; [done|lia|done].
  - destruct (wf_read_key _ Hm) as (name & Hkey).
    rewrite (names_cons _ _ _ Hkey) in H1, H2.
    destruct (sync_step _ _ _ H1 H2) as (i & ks' & Hi & Hothers & H1' & H2').
    rewrite list_lookup_fmap in Hi.
    destruct (R !! i) as [rs|] eqn:HRi; [|done]. injection Hi as Hnames.
    pose proof Hsync as (HlenR & Hlen2 & Hslots).
    destruct (Hslots i rs HRi) as (Hwf & look & f1 & Hlook & Hf1 & Hholds).
    destruct rs as [|r rs]; [done|].
    pose proof Hwf as [(name_r & Hkey_r)%wf_read_key Hwf_rs]%Forall_cons.
    rewrite (names_cons _ _ _ Hkey_r) in Hnames.
    injection Hnames as -> <-.
    assert (Hin : i < n) by (rewrite <- HlenR; by eapply lookup_lt_Some).
    destruct (lookup_lt_is_Some_2 (demultiplexed_files_2 w) i ltac:(lia))
      as [out Hout].
    rewrite stream_cons in Hf2.
    rewrite read_loop_unfold, Hf2, (wf_read_readlines _ _ Hm). simpl.
    destruct fuel as [|fuel]; [lia|].
    rewrite while_loop_step by by apply wf_read_all.
    rewrite (iteration_routed n m _ name i look out f1); try done.
    + destruct (IH fuel n (<[i:=rs]> R) (routed i m out f1 (set_f_2 (stream mates) w)))
        as (w' & Hloop & Hd & Hn).
      * destruct Hholds as [_ Hf1eq].
        eapply in_sync_routed; [|done|done|done].
        destruct Hsync as (? & ? & ?). by split_and!.
      * done.
      * by rewrite list_fmap_insert.
      * by rewrite list_fmap_insert.
      * simpl. rewrite Hf2, app_length_str in Hfuel.
        pose proof (all_join_length m (wf_read_all _ Hm)).
        assert (length m = 4).
        { unfold wf_read in Hm.
          apply andb_true_iff in Hm as [[Hl%Nat.eqb_eq _]%andb_true_iff _].
          done. }
        lia.
      * exists w'. split_and!; [done|simpl in *; lia|done].
    + intros j Hj. unfold slot_passes. simpl.
      destruct (lookup_lt_is_Some_2 R j ltac:(lia)) as [rs_j HRj].
      destruct (Hslots j rs_j HRj) as (Hwf_j & look_j & f1_j & Hlook_j & _ & Hh_j).
      rewrite Hlook_j. eapply holds_passes; [done..|].
      eapply (Hothers j); [|lia]. by rewrite list_lookup_fmap, HRj.
    + by eapply holds_matches.
Qed.

End Sync.

Section Run.

Lemma open_each_read i contents w :
  open_each open_read i (openable <$> contents) w =
  (Ok contents,
   set_open_files (open_files w ++ (Demux1 <$> seq i (length contents))) w).
Proof.
  revert i w. induction contents as [|c contents IH]; intros i w.
  - simpl. unfold ret, set_open_files. by rewrite app_nil_r, world_eta.
  - cbn [fmap list_fmap open_each]. unfold bind at 1.
    unfold open_read at 1. cbn [readable openable]. unfold bind at 1.
    unfold open_handle at 1, ret at 1. unfold bind at 1. rewrite IH.
    unfold ret, set_open_files. simpl. by rewrite <- app_assoc.
Qed.

Lemma open_each_write i contents w :
  open_each open_write i (openable <$> contents) w =
  (Ok (replicate (length contents) ""),
   set_open_files (open_files w ++ (Demux2 <$> seq i (length contents))) w).
Proof.
  revert i w. induction contents as [|c contents IH]; intros i w.
  - simpl. unfold ret, set_open_files. by rewrite app_nil_r, world_eta.
  - cbn [fmap list_fmap open_each]. unfold bind at 1.
    unfold open_write at 1. cbn [writable openable]. unfold bind at 1.
    unfold open_handle at 1, ret at 1. unfold bind at 1. rewrite IH.
    unfold ret, set_open_files. simpl. by rewrite <- app_assoc.
Qed.

Lemma times_strip_readline n i f w :
  demultiplexed_files_1 w !! i = Some f →
  times n (let* l := files_1_readline i in ret (Py.strip l)) w =
  (Ok (Py.strip <$> (readlines n f).1),
   set_files_1 (<[i:=(readlines n f).2]> (demultiplexed_files_1 w)) w).
Proof.
  revert f w. induction n as [|n IH]; intros f w Hf.
  - simpl. unfold ret, set_files_1. rewrite list_insert_id by done.
    by rewrite world_eta.
  - cbn [times readlines]. unfold bind at 1. unfold bind at 1.
    unfold files_1_readline at 1.
    rewrite Hf. destruct (Py.readline f) as [l f'] eqn:Hl.
    unfold ret at 1. unfold bind at 1.
    rewrite (IH f') by (apply list_lookup_insert_eq; by eapply lookup_lt_Some).
    destruct (readlines n f') as [ls f''] eqn:Hls. simpl.
    unfold ret, set_files_1. simpl. by rewrite list_insert_insert_eq.
Qed.

Lemma prime_spec done todo w :
  demultiplexed_files_1 w = done ++ todo →
  prime (seq (length done) (length todo)) w =
  (Ok (first_lookahead <$> todo),
   set_files_1 (done ++ (after_first <$> todo)) w).
Proof.
  revert done w. induction todo as [|f todo IH]; intros done w Hw.
  - simpl. unfold ret, set_files_1. rewrite <- Hw. by rewrite world_eta.
  - cbn [length seq prime]. unfold bind at 1.
    rewrite (times_strip_readline 4 _ f)
      by (rewrite Hw; by apply list_lookup_middle).
    unfold bind at 1.
    replace (S (length done)) with (length (done ++ [after_first f]))
      by (rewrite length_app; simpl; lia).
    rewrite (IH (done ++ [after_first f])); last first.
    { simpl. rewrite Hw. rewrite <- app_assoc. simpl.
      replace (length done) with (length done + 0) at 1 by lia.
      by rewrite insert_app_r. }
    unfold ret, set_files_1. simpl. by rewrite <- app_assoc.
Qed.

Lemma synchronise_unfold fuel n w :
  synchronise fuel n w =
  read_loop fuel n
    (set_slots (first_lookahead <$> demultiplexed_files_1 w)
       (set_files_1 (after_first <$> demultiplexed_files_1 w) w)).
Proof.
  pose proof (prime_spec [] (demultiplexed_files_1 w) w eq_refl) as H.
  cbn [length app] in H.
  unfold synchronise, bind at 1, xrange. rewrite H.
  unfold bind at 1. reflexivity.
Qed.

(** The loop leaves the files open and the two lists as long as they were. *)
Lemma while_loop_keeps fuel n r w :
  open_files (while_loop fuel n r w).2 = open_files w ∧
  bound_files_1 (while_loop fuel n r w).2 = bound_files_1 w ∧
  bound_files_2 (while_loop fuel n r w).2 = bound_files_2 w ∧
  length (demultiplexed_files_1 (while_loop fuel n r w).2) =
    length (demultiplexed_files_1 w) ∧
  length (demultiplexed_files_2 (while_loop fuel n r w).2) =
    length (demultiplexed_files_2 w).
Proof.
  revert r w. induction fuel as [|fuel IH]; intros r w.
  - simpl. by destruct (Py.all r).
  - destruct (Py.all r) eqn:Hr; [|by rewrite while_loop_stop].
    rewrite while_loop_step by done.
    pose proof (iteration_f_2 n r w) as (_ & Ho & Hb1 & Hb2 & Hl1 & Hl2).
    destruct (iteration n r w) as [[[]|e|] w1]; simpl in *; [|done..].
    rewrite read_loop_unfold.
    destruct (IH (readlines 4 (f_2 w1)).1 (set_f_2 (readlines 4 (f_2 w1)).2 w1))
      as (-> & -> & -> & -> & ->). by simpl.
Qed.

Lemma filter_all {A} (P : A → Prop) `{!∀ x, Decision (P x)} (l : list A) :
  (∀ x, x ∈ l → P x) → filter P l = l.
Proof.
  induction l as [|x l IH]; intros Hall; [done|].
  rewrite filter_cons_True by (apply Hall; by left).
  rewrite IH; [done|]. intros y Hy. apply Hall. by right.
Qed.

Lemma close_each_spec hs w :
  close_each hs w =
  (Ok tt, set_open_files (filter (λ h, h ∉ hs) (open_files w)) w).
Proof.
  revert w. induction hs as [|h hs IH]; intros w.
  - simpl. unfold ret, set_open_files.
    rewrite filter_all by (by intros ? _ ?%elem_of_nil).
    by rewrite world_eta.
  - cbn [close_each]. unfold bind at 1, close_handle at 1. rewrite IH.
    unfold set_open_files. simpl. rewrite list_filter_filter.
    do 3 f_equal. apply filter_ext_elem. intros x _.
    rewrite not_elem_of_cons. tauto.
Qed.

Lemma finally_block_bound w :
  bound_files_1 w = true → bound_files_2 w = true →
  finally_block w =
  (Ok tt,
   set_open_files
     (filter (λ h, h ∉ Demux2 <$> xrange (length (demultiplexed_files_2 w)))
        (filter (λ h, h ∉ Demux1 <$> xrange (length (demultiplexed_files_1 w)))
           (open_files w))) w).
Proof.
  intros H1 H2. unfold finally_block, bind. rewrite H1, close_each_spec.
  cbn [bound_files_2 set_open_files]. rewrite H2, close_each_spec. done.
Qed.

Lemma all_closed n :
  filter (λ h, h ≠ File2)
    (filter (λ h, h ∉ Demux2 <$> xrange n)
       (filter (λ h, h ∉ Demux1 <$> xrange n)
          ([File2] ++ (Demux1 <$> seq 0 n) ++ (Demux2 <$> seq 0 n)))) = [].
Proof.
  apply elem_of_nil_inv. intros h.
  rewrite !list_elem_of_filter, !elem_of_app, list_elem_of_singleton.
  unfold xrange. tauto.
Qed.

(** When every file opens, [run] is the synchronisation from [opened], and
    when it is over, by return or by exception, no file is left open. *)
Lemma run_openable bytes contents :
  let n := length contents in
  let rw := synchronise (S (String.length bytes)) n (opened bytes contents) in
  run (Some bytes) (openable <$> contents) = (rw.1, set_open_files [] rw.2).
Proof.
  simpl. unfold run, try_finally, try_block.
  unfold bind at 1. rewrite open_each_read.
  unfold bind at 1, assign_files_1 at 1.
  unfold bind at 1. rewrite open_each_write.
  unfold bind at 1, assign_files_2 at 1.
  rewrite length_fmap. cbn [app].
  match goal with |- context [synchronise ?f ?n ?w] =>
    change w with (opened bytes contents) end.
  pose proof (synchronise_unfold (S (String.length bytes)) (length contents)
                (opened bytes contents)) as Hs.
  destruct (synchronise (S (String.length bytes)) (length contents)
              (opened bytes contents)) as [r w'] eqn:Hrun.
  assert (open_files w' = open_files (opened bytes contents) ∧
          bound_files_1 w' = true ∧ bound_files_2 w' = true ∧
          length (demultiplexed_files_1 w') = length contents ∧
          length (demultiplexed_files_2 w') = length contents)
    as (Ho & Hb1 & Hb2 & Hl1 & Hl2).
  { rewrite read_loop_unfold in Hs.
    match type of Hs with _ = while_loop ?f ?n ?r ?w =>
      pose proof (while_loop_keeps f n r w) as Hk end.
    rewrite <- Hs in Hk. simpl in Hk.
    rewrite length_fmap, length_replicate in Hk. done. }
  rewrite (finally_block_bound w' Hb1 Hb2). simpl.
  unfold set_open_files. simpl. rewrite Ho, Hl1, Hl2. simpl.
  pose proof (all_closed (length contents)) as Hc. simpl in Hc.
  by rewrite Hc.
Qed.

(** With every file open, no file is left open when [run] is over, whether
    it returns or raises. *)
Lemma run_closes_every_file bytes contents :
  open_files (run (Some bytes) (openable <$> contents)).2 = [].
Proof. by rewrite run_openable. Qed.

Lemma holds_primed rs :
  Forall (λ r, wf_read r = true) rs →
  holds (first_lookahead (stream rs)) (after_first (stream rs)) rs.
Proof.
  intros Hwf. unfold first_lookahead, after_first.
  destruct rs as [|r rs]; [done|].
  apply Forall_cons in Hwf as [Hr _].
  rewrite stream_cons, (wf_read_readlines _ _ Hr). simpl. split; [|done].
  destruct (wf_read_key _ Hr) as (name & Hkey).
  pose proof Hkey as (line & Hl & Hn)%key_Some.
  exists (Py.strip line). rewrite list_lookup_fmap, Hl, name_of_strip, Hkey.
  split_and!; [done| |done].
  eapply name_of_truthy. by rewrite name_of_strip.
Qed.

Lemma in_sync_primed bytes buckets :
  Forall (Forall (λ r, wf_read r = true)) buckets →
  in_sync (length buckets) buckets
    (set_slots (first_lookahead <$> (stream <$> buckets))
       (set_files_1 (after_first <$> (stream <$> buckets))
          (opened bytes (stream <$> buckets)))).
Proof.
  intros Hwf. split_and!; [done|simpl; by rewrite length_replicate, length_fmap|].
  intros i rs Hi. split; [by eapply Forall_lookup_1|].
  exists (first_lookahead (stream rs)), (after_first (stream rs)). simpl.
  rewrite !list_lookup_fmap, Hi. split_and!; [done..|].
  apply holds_primed. by eapply Forall_lookup_1.
Qed.

End Run.

Section Totality.

Lemma steady_ret {A} (a : A) : steady (ret a).
Proof. by intros w. Qed.

Lemma steady_raise {A} e : steady (@raise A e).
Proof. by intros w. Qed.

Lemma steady_bind {A B} (m : M A) (k : A → M B) :
  steady m → (∀ a, steady (k a)) → steady (bind m k).
Proof.
  intros Hm Hk w. unfold bind. destruct (Hm w) as [Hne Hf].
  destruct (m w) as [[a|e|] w']; simpl in *; [|done..].
  destruct (Hk a w') as [Hne' Hf']. by rewrite Hf', Hf.
Qed.

Lemma steady_times {A} n (m : M A) : steady m → steady (times n m).
Proof.
  intros Hm. induction n as [|n IH]; [apply steady_ret|].
  cbn [times]. apply steady_bind; [done|]. intros x.
  apply steady_bind; [done|]. intros xs. apply steady_ret.
Qed.

Lemma steady_files_1_readline i : steady (files_1_readline i).
Proof.
  intros w. unfold files_1_readline.
  destruct (demultiplexed_files_1 w !! i) as [f|]; [|done].
  by destruct (Py.readline f).
Qed.

Lemma steady_prime idxs : steady (prime idxs).
Proof.
  induction idxs as [|i idxs IH]; [apply steady_ret|].
  cbn [prime]. apply steady_bind.
  - apply steady_times, steady_bind; [apply steady_files_1_readline|].
    intros l. apply steady_ret.
  - intros lines. apply steady_bind; [done|]. intros rest. apply steady_ret.
Qed.

Lemma steady_open_each open_ i fnames :
  (∀ j d, steady (open_ j d)) → steady (open_each open_ i fnames).
Proof.
  intros Hopen. revert i. induction fnames as [|d fnames IH]; intros i;
    [apply steady_ret|].
  cbn [open_each]. apply steady_bind; [done|]. intros f.
  apply steady_bind; [done|]. intros fs. apply steady_ret.
Qed.

Lemma steady_open_read j d : steady (open_read j d).
Proof.
  unfold open_read. destruct (readable d); [|apply steady_raise].
  apply steady_bind; [done|]. intros _. apply steady_ret.
Qed.

Lemma steady_open_write j d : steady (open_write j d).
Proof.
  unfold open_write. destruct (writable d); [|apply steady_raise].
  apply steady_bind; [done|]. intros _. apply steady_ret.
Qed.

(** After a steady computation, what follows has the fuel it needs. *)
Lemma bind_fuel {A B} (m : M A) (k : A → M B) fuel :
  steady m →
  (∀ a w, String.length (f_2 w) < fuel → (k a w).1 ≠ OutOfFuel) →
  ∀ w, String.length (f_2 w) < fuel → (bind m k w).1 ≠ OutOfFuel.
Proof.
  intros Hm Hk w Hlen. unfold bind. destruct (Hm w) as [Hne Hf].
  destruct (m w) as [[a|e|] w']; simpl in *; [|done..].
  apply Hk. by rewrite Hf.
Qed.

Lemma synchronise_fuel fuel n w :
  String.length (f_2 w) < fuel → (synchronise fuel n w).1 ≠ OutOfFuel.
Proof.
  revert w. unfold synchronise. apply bind_fuel.
  { intros w. apply steady_prime. }
  intros primed. apply bind_fuel; [done|].
  intros _ w. apply read_loop_fuel.
Qed.

Lemma try_block_fuel fuel fnames w :
  String.length (f_2 w) < fuel → (try_block fuel fnames w).1 ≠ OutOfFuel.
Proof.
  revert w. unfold try_block. apply bind_fuel.
  { apply steady_open_each, steady_open_read. }
  intros fs1. apply bind_fuel; [done|].
  intros _. apply bind_fuel.
  { apply steady_open_each, steady_open_write. }
  intros fs2. apply bind_fuel; [done|].
  intros _ w. apply synchronise_fuel.
Qed.

Lemma finally_block_fuel w : (finally_block w).1 ≠ OutOfFuel.
Proof.
  unfold finally_block, bind.
  destruct (bound_files_1 w); [|done]. rewrite close_each_spec.
  cbn [bound_files_2 set_open_files].
  destruct (bound_files_2 w); [|done]. by rewrite close_each_spec.
Qed.

(** [run] always ends, by return or by exception: its fuel, one more than the
    number of bytes in the mate-2 file, is never used up. *)
Lemma run_total file_2 fnames : (run file_2 fnames).1 ≠ OutOfFuel.
Proof.
  unfold run. destruct file_2 as [bytes|]; [|done].
  unfold try_finally.
  pose proof (try_block_fuel (S (String.length bytes)) fnames
    (set_open_files [File2] (set_f_2 bytes initial)) ltac:(simpl; lia)) as Ht.
  destruct (try_block _ _ _) as [r w'].
  pose proof (finally_block_fuel w') as Hf.
  destruct (finally_block w') as [[[]|e|] w'']; simpl in *; done.
Qed.

End Totality.

Section Failures.

Lemma open_each_read_fails i contents d rest w :
  readable d = None →
  open_each open_read i ((openable <$> contents) ++ d :: rest) w =
  (Raise IOError,
   set_open_files (open_files w ++ (Demux1 <$> seq i (length contents))) w).
Proof.
  intros Hd. revert i w. induction contents as [|c contents IH]; intros i w.
  - cbn [fmap list_fmap app open_each]. unfold bind at 1, open_read at 1.
    rewrite Hd. unfold raise, set_open_files. simpl.
    by rewrite app_nil_r, world_eta.
  - cbn [fmap list_fmap app open_each]. unfold bind at 1.
    unfold open_read at 1. cbn [readable openable]. unfold bind at 1.
    unfold open_handle at 1, ret at 1. unfold bind at 1. rewrite IH.
    unfold set_open_files. simpl. by rewrite <- app_assoc.
Qed.

(** When a [_demux1] file cannot be opened, [run] ends with
    [UnboundLocalError] and every [_demux1] file opened before it is still
    open. *)
Lemma open_read_failure_leaks bytes contents d rest :
  readable d = None →
  run (Some bytes) ((openable <$> contents) ++ d :: rest) =
  (Raise UnboundLocalError,
   set_open_files (Demux1 <$> seq 0 (length contents))
     (set_f_2 bytes initial)).
Proof.
  intros Hd. unfold run, try_finally, try_block.
  unfold bind at 1. rewrite (open_each_read_fails _ _ _ _ _ Hd).
  unfold finally_block, bind. simpl. unfold set_open_files. simpl.
  do 2 f_equal. rewrite filter_cons_False by (intros H; by apply H).
  apply filter_all. intros h (i & -> & _)%list_elem_of_fmap. done.
Qed.

(** An iteration that raises leaves the two counters as they were. *)
Lemma iteration_raise_counts n r w e w' :
  iteration n r w = (Raise e, w') →
  log_demultiplexed w' = log_demultiplexed w ∧
  log_not_matched w' = log_not_matched w.
Proof.
  destruct (iteration_cases n r w)
    as [(?&?&?&?&?&_&_&_&_&_&_&_& ->)|[(?&_&_& ->)
       |[->|(?&?&?&?&_&_&_&_&_&_&_& ->)]]];
    intros [= <- <-]; done.
Qed.

End Failures.

(** ** The records of the mate-2 file and where they go *)

Section Records.

Lemma records_of_cons fuel f r rest :
  readlines 4 f = (r, rest) → Py.all r = true →
  records_of (S fuel) f = r :: records_of fuel rest.
Proof.
  intros Hr Hall. cbn [records_of]. rewrite Hr. cbn [fst snd].
  by rewrite Hall.
Qed.

Lemma records_of_stop fuel f :
  Py.all (readlines 4 f).1 = false → records_of fuel f = [].
Proof. intros Hall. destruct fuel; [done|]. cbn [records_of]. by rewrite Hall. Qed.

(** The records are the bytes at the head of the file. *)
Lemma records_of_stream fuel f :
  ∃ rest, f = stream (records_of fuel f) +:+ rest.
Proof.
  revert f. induction fuel as [|fuel IH]; intros f; [by exists f|].
  cbn [records_of]. destruct (Py.all (readlines 4 f).1); [|by exists f].
  destruct (IH (readlines 4 f).2) as (rest & Hrest). exists rest.
  rewrite stream_cons, app_assoc_str, <- Hrest. by rewrite readlines_app.
Qed.

Lemma record_bytes r rest f :
  readlines 4 f = (r, rest) → Py.all r = true →
  String.length rest < String.length f.
Proof.
  intros Hr Hall. pose proof (readlines_app 4 f) as Happ.
  pose proof (readlines_length 4 f) as Hlen. rewrite Hr in Happ, Hlen.
  simpl in Happ, Hlen. rewrite <- Happ, app_length_str.
  pose proof (all_join_length r Hall). lia.
Qed.

(** Every record is four non-empty lines. *)
Lemma records_of_wf fuel f :
  Forall (λ r, length r = 4 ∧ Py.all r = true) (records_of fuel f).
Proof.
  revert f. induction fuel as [|fuel IH]; intros f; [constructor|].
  cbn [records_of]. destruct (Py.all (readlines 4 f).1) eqn:Hall; [|constructor].
  constructor; [|apply IH]. split; [apply readlines_length|done].
Qed.

(** With fuel for every byte, what follows the records is not a record. *)
Lemma records_of_rest fuel f :
  String.length f < fuel →
  ∃ rest,
    f = stream (records_of fuel f) +:+ rest ∧
    Py.all (readlines 4 rest).1 = false.
Proof.
  revert f. induction fuel as [|fuel IH]; intros f Hfuel; [lia|].
  cbn [records_of]. destruct (Py.all (readlines 4 f).1) eqn:Hall.
  - assert (String.length (readlines 4 f).2 < String.length f) as Hlt.
    { apply (record_bytes (readlines 4 f).1); [|done].
      by destruct (readlines 4 f). }
    destruct (IH (readlines 4 f).2) as (rest & Hrest & Hstop); [lia|].
    exists rest. split; [|done].
    rewrite stream_cons, app_assoc_str, <- Hrest. by rewrite readlines_app.
  - by exists f.
Qed.

Lemma mate_2_records_rest bytes :
  ∃ rest,
    bytes = stream (mate_2_records bytes) +:+ rest ∧
    Py.all (readlines 4 rest).1 = false.
Proof. apply records_of_rest. lia. Qed.

Lemma sent_to_cons t r dest records d :
  sent_to (t :: dest) (r :: records) d =
  if decide (t = d) then r :: sent_to dest records d
  else sent_to dest records d.
Proof.
  unfold sent_to. cbn [zip zip_with]. rewrite filter_cons. simpl.
  by destruct (decide (t = d)).
Qed.

Lemma sent_to_length dest records :
  length dest = length records →
  length (sent_to dest records None) ≤ length records.
Proof.
  revert records. induction dest as [|t dest IH]; intros [|r records] Hlen;
    simplify_eq/=; [done|].
  rewrite sent_to_cons. specialize (IH records Hlen).
  destruct (decide (t = None)); simpl; lia.
Qed.

Lemma lookup_outputs (F : list string) (g : nat → string) j :
  zip_with (λ out i, out +:+ g i) F (seq 0 (length F)) !! j =
  (λ out, out +:+ g j) <$> F !! j.
Proof.
  rewrite lookup_zip_with. destruct (F !! j) as [out|] eqn:Hj; [|done].
  simpl. rewrite lookup_seq_lt by by eapply lookup_lt_Some. done.
Qed.

Lemma outputs_fresh n (g : nat → string) :
  zip_with (λ out i, out +:+ g i) (replicate n "") (seq 0 n) = g <$> seq 0 n.
Proof.
  apply list_eq. intros j.
  pose proof (lookup_outputs (replicate n "") g j) as H.
  rewrite length_replicate in H. rewrite H, list_lookup_fmap.
  destruct (decide (j < n)) as [Hj|Hj].
  - rewrite lookup_replicate_2, lookup_seq_lt by done. simpl.
    by rewrite app_nil_l_str.
  - rewrite !lookup_ge_None_2; [done|rewrite length_seq; lia|].
    rewrite length_replicate. lia.
Qed.

(** The records classified by the loop, each with its destination. *)
Lemma classified_sent n k w w' :
  classified n k w w' →
  ∀ fuel, String.length (f_2 w) < fuel →
  ∃ records dest fuel',
    length records = k ∧ length dest = k ∧
    String.length (f_2 w') < fuel' ∧
    records_of fuel (f_2 w) = records ++ records_of fuel' (f_2 w') ∧
    f_2 w = stream records +:+ f_2 w' ∧
    Forall (λ d, ∀ i, d = Some i → i < length (demultiplexed_files_2 w)) dest ∧
    demultiplexed_files_2 w' =
      zip_with (λ out i, out +:+ stream (sent_to dest records (Some i)))
        (demultiplexed_files_2 w) (seq 0 (length (demultiplexed_files_2 w))) ∧
    stderr w' =
      stderr w +:+
      Py.join (missing_message <$> names (sent_to dest records None)) ∧
    log_not_matched w' =
      log_not_matched w + length (sent_to dest records None) ∧
    log_demultiplexed w' + log_not_matched w' =
      log_demultiplexed w + log_not_matched w + k.
Proof.
  induction 1 as [w|k w r rest w1 w' Hread Hall Hit _ IH]; intros fuel Hfuel.
  - exists [], [], fuel.
    assert (demultiplexed_files_2 w =
            zip_with (λ out i, out +:+ stream (sent_to [] [] (Some i)))
              (demultiplexed_files_2 w)
              (seq 0 (length (demultiplexed_files_2 w)))) as Hout.
    { apply list_eq. intros j. rewrite lookup_outputs.
      destruct (demultiplexed_files_2 w !! j); simpl; [|done].
      unfold sent_to, stream. simpl. by rewrite app_empty_r. }
    split_and!; try done; unfold sent_to; simpl; rewrite ?app_empty_r;
      try done; lia.
  - destruct fuel as [|fuel]; [lia|].
    pose proof (record_bytes _ _ _ Hread Hall) as Hrest.
    pose proof (iteration_f_2 n r (set_f_2 rest w)) as (Hf2 & _ & _ & _ & _ & Hl2).
    rewrite Hit in Hf2, Hl2. simpl in Hf2, Hl2.
    destruct (IH fuel ltac:(rewrite Hf2; lia))
      as (records & dest & fuel' & Hlen & Hlend & Hfuel' & Hrec & Hbytes
            & Hvalid & Hout & Herr & Hn & Hsum).
    rewrite Hf2 in Hrec, Hbytes. rewrite Hl2 in Hvalid.
    assert (f_2 w = stream (r :: records) +:+ f_2 w') as Hbytes'.
    { rewrite stream_cons, app_assoc_str, <- Hbytes.
      pose proof (readlines_app 4 (f_2 w)) as Happ. by rewrite Hread in Happ. }
    assert (records_of (S fuel) (f_2 w) =
            (r :: records) ++ records_of fuel' (f_2 w')) as Hcons
      by (by rewrite (records_of_cons _ _ _ _ Hread Hall), Hrec).
    set (R := records_of (S fuel) (f_2 w)) in *. clearbody R.
    destruct (iteration_cases n r (set_f_2 rest w))
      as [(name&i&look&out&f1& Hkey & Hi & Hpre & Hlook & Hm & Ho & Hf1 & Heq)
         |[(name & Hkey & Hpass & Heq)|[Heq|(?&?&?&?&_&_&_&_&_&_&_& Heq)]]];
      rewrite Heq in Hit; try done; injection Hit as <-; simpl in *.
    + exists (r :: records), (Some i :: dest), fuel'.
      rewrite (sent_to_cons (Some i) r dest records None).
      rewrite decide_False by done.
      split_and!.
      * simpl. by rewrite Hlen.
      * simpl. by rewrite Hlend.
      * done.
      * done.
      * done.
      * apply Forall_cons. split; [|done].
        intros ? [= <-]. by eapply lookup_lt_Some.
      * rewrite Hout. apply list_eq. intros j.
        rewrite !lookup_outputs, sent_to_cons.
        destruct (decide (i = j)) as [<-|Hne].
        -- rewrite list_lookup_insert_eq by by eapply lookup_lt_Some.
           rewrite Ho. simpl. rewrite decide_True by done.
           by rewrite stream_cons, !app_assoc_str.
        -- rewrite list_lookup_insert_ne by done.
           rewrite decide_False by congruence. done.
      * done.
      * done.
      * lia.
    + exists (r :: records), (None :: dest), fuel'.
      rewrite (sent_to_cons None r dest records None).
      rewrite decide_True by done.
      split_and!.
      * simpl. by rewrite Hlen.
      * simpl. by rewrite Hlend.
      * done.
      * done.
      * done.
      * apply Forall_cons. split; [done|done].
      * rewrite Hout. apply list_eq. intros j. rewrite !lookup_outputs.
        by rewrite sent_to_cons.
      * rewrite Herr, (names_cons _ _ _ Hkey). simpl.
        by rewrite app_assoc_str.
      * simpl. lia.
      * lia.
Qed.

(** A loop that raises does so in the iteration of a record it has read,
    after classifying the records before it. *)
Lemma read_loop_raises fuel n w e w' :
  read_loop fuel n w = (Raise e, w') →
  ∃ k w'' r rest,
    classified n k w w'' ∧
    readlines 4 (f_2 w'') = (r, rest) ∧ Py.all r = true ∧
    iteration n r (set_f_2 rest w'') = (Raise e, w').
Proof.
  revert w. induction fuel as [|fuel IH]; intros w; rewrite read_loop_unfold.
  - destruct (Py.all (readlines 4 (f_2 w)).1) eqn:Hall.
    + cbn [while_loop]. by rewrite Hall.
    + by rewrite while_loop_stop.
  - destruct (Py.all (readlines 4 (f_2 w)).1) eqn:Hall;
      [|by rewrite while_loop_stop].
    rewrite while_loop_step by done.
    destruct (iteration n _ _) as [[[]|e1|] w1] eqn:Hit; [| |done].
    + intros (k & w'' & r & rest & Hk & Hread & Hr & Hraise)%IH.
      exists (S k), w'', r, rest. split_and!; [|done..].
      apply (classified_S n k w (readlines 4 (f_2 w)).1
               (readlines 4 (f_2 w)).2 w1); [|done..].
      by destruct (readlines 4 (f_2 w)).
    + intros [= <- <-].
      exists 0, w, (readlines 4 (f_2 w)).1, (readlines 4 (f_2 w)).2.
      split_and!; [constructor|by destruct (readlines 4 (f_2 w))|done|done].
Qed.

(** A run that returns, every file being open: where each record of the
    mate-2 file went. *)
Lemma run_sent bytes contents :
  (run (Some bytes) (openable <$> contents)).1 = Ok tt →
  ∃ dest,
    length dest = length (mate_2_records bytes) ∧
    Forall (λ d, ∀ i, d = Some i → i < length contents) dest ∧
    demultiplexed_files_2 (run (Some bytes) (openable <$> contents)).2 =
      (λ i, stream (sent_to dest (mate_2_records bytes) (Some i)))
        <$> seq 0 (length contents) ∧
    stderr (run (Some bytes) (openable <$> contents)).2 =
      Py.join (missing_message <$>
               names (sent_to dest (mate_2_records bytes) None)) ∧
    log_not_matched (run (Some bytes) (openable <$> contents)).2 =
      length (sent_to dest (mate_2_records bytes) None) ∧
    log_demultiplexed (run (Some bytes) (openable <$> contents)).2 +
    log_not_matched (run (Some bytes) (openable <$> contents)).2 =
      length (mate_2_records bytes).
Proof.
  rewrite run_openable. cbn [fst snd]. rewrite synchronise_unfold.
  destruct (read_loop _ _ _) as [[[]|e|] w'] eqn:Hloop; simpl; [|done..].
  intros _. apply read_loop_classified in Hloop as (k & w'' & Hk & Hstop & ->).
  destruct (classified_sent _ _ _ _ Hk (S (String.length bytes)))
    as (records & dest & fuel' & Hlen & Hlend & _ & Hrec & _ & Hvalid & Hout
          & Herr & Hn & Hsum); [simpl; lia|].
  rewrite (records_of_stop _ _ Hstop), app_nil_r in Hrec.
  cbn [f_2 set_slots set_files_1 opened] in Hrec.
  fold (mate_2_records bytes) in Hrec. rewrite <- Hrec in *.
  remember (mate_2_records bytes) as M eqn:HM. clear HM Hrec.
  simpl in *. rewrite length_replicate in Hvalid, Hout.
  rewrite outputs_fresh in Hout. rewrite app_nil_l_str in Herr.
  exists dest. split_and!; try done; lia.
Qed.

(** A run that raises, every file being open, has counted fewer records than
    the mate-2 file holds: the record at hand was read and not counted. *)
Lemma run_raise_counts bytes contents e :
  (run (Some bytes) (openable <$> contents)).1 = Raise e →
  log_demultiplexed (run (Some bytes) (openable <$> contents)).2 +
  log_not_matched (run (Some bytes) (openable <$> contents)).2 <
    length (mate_2_records bytes).
Proof.
  rewrite run_openable. cbn [fst snd]. rewrite synchronise_unfold.
  destruct (read_loop _ _ _) as [[[]|e1|] w'] eqn:Hloop; simpl; [done| |done].
  intros _.
  apply read_loop_raises in Hloop as (k & w'' & r & rest & Hk & Hread & Hr & Hit).
  destruct (classified_sent _ _ _ _ Hk (S (String.length bytes)))
    as (records & dest & fuel' & Hlen & _ & Hfuel' & Hrec & _ & _ & _ & _ & _
          & Hsum); [simpl; lia|].
  apply iteration_raise_counts in Hit as [Hd Hn].
  cbn [f_2 set_slots set_files_1 opened] in Hrec.
  fold (mate_2_records bytes) in Hrec. rewrite Hrec.
  destruct fuel' as [|fuel']; [lia|].
  rewrite (records_of_cons _ _ _ _ Hread Hr), length_app.
  cbn [length]. simpl in Hd, Hn, Hsum. lia.
Qed.

End Records.

(** * The claims *)




(** C2, as amended. Let every mate-1 file and the mate-2 file be sequences of
    four-line reads with a name, let the name of every mate-2 read be found in
    exactly one slot, and let, for each slot, the mate-2 names found in it be,
    in the order of the mate-2 file, an initial segment of the names of the
    slot.  Then the run returns, every mate-2 read is counted as
    demultiplexed and none as unmatched. *)
Theorem run_in_step_matches_every_read
    (buckets : list (list (list string))) (mates : list (list string)) :
  Forall (Forall (λ r, wf_read r = true)) buckets →
  Forall (λ r, wf_read r = true) mates →
  Forall (in_one_slot (names <$> buckets)) (names mates) →
  Forall (in_step (names mates)) (names <$> buckets) →
  (run (Some (stream mates)) (openable <$> (stream <$> buckets))).1 = Ok tt ∧
  log_demultiplexed
    (run (Some (stream mates)) (openable <$> (stream <$> buckets))).2
    = length mates ∧
  log_not_matched
    (run (Some (stream mates)) (openable <$> (stream <$> buckets))).2 = 0.
Proof.
  intros Hbuckets Hmates Hone Hstep.
  rewrite run_openable. cbn [fst snd]. rewrite synchronise_unfold.
  rewrite length_fmap.
  destruct (read_loop_in_step mates Hmates
              (S (String.length (stream mates))) (length buckets) buckets
              (set_slots (first_lookahead <$> (stream <$> buckets))
                 (set_files_1 (after_first <$> (stream <$> buckets))
                    (opened (stream mates) (stream <$> buckets)))))
    as (w' & Hloop & Hd & Hn).
  - by apply in_sync_primed.
  - done.
  - intros x Hx. apply in_one_slot_unique.
    by eapply (proj1 (Forall_forall _ _) Hone).
  - intros i ks Hi. by eapply (Forall_lookup_1 _ _ _ _ Hstep).
  - simpl. lia.
  - cbn [demultiplexed_files_1 opened set_files_1 set_slots] in *.
    rewrite Hloop. simpl in *. split_and!; [done|lia|lia].
Qed.

Lemma run_in_step_matches_every_read_witness :
  (run (Some (stream Fastq.mates_AB))
       (openable <$> (stream <$> Fastq.buckets_AB))).1 = Ok tt ∧
  log_demultiplexed
    (run (Some (stream Fastq.mates_AB))
         (openable <$> (stream <$> Fastq.buckets_AB))).2
    = length Fastq.mates_AB ∧
  log_not_matched
    (run (Some (stream Fastq.mates_AB))
         (openable <$> (stream <$> Fastq.buckets_AB))).2 = 0.
Proof.
  apply (run_in_step_matches_every_read Fastq.buckets_AB Fastq.mates_AB).
  - repeat constructor.
  - repeat constructor.
  - repeat constructor.
  - repeat constructor; by exists [].
Defined.

(** C2 as stated fails: the only slot holds id1, id2, id3 and the mate-2 file
    holds id1 and id3; each mate-2 name is found in exactly one slot and the
    two names come in the order they have in the slot, yet id3 is reported as
    unmatched, the slot still waiting for id2. *)
Lemma relative_order_is_not_enough :
  Forall (Forall (λ r, wf_read r = true)) Fastq.buckets_gap ∧
  Forall (λ r, wf_read r = true) Fastq.mates_gap ∧
  Forall (in_one_slot (names <$> Fastq.buckets_gap)) (names Fastq.mates_gap) ∧
  Forall (λ ks, filter (.∈ ks) (names Fastq.mates_gap) `sublist_of` ks)
         (names <$> Fastq.buckets_gap) ∧
  (run (Some (stream Fastq.mates_gap))
       (openable <$> (stream <$> Fastq.buckets_gap))).1 = Ok tt ∧
  log_demultiplexed
    (run (Some (stream Fastq.mates_gap))
         (openable <$> (stream <$> Fastq.buckets_gap))).2 = 1 ∧
  log_not_matched
    (run (Some (stream Fastq.mates_gap))
         (openable <$> (stream <$> Fastq.buckets_gap))).2 = 1.
Proof.
  split_and!.
  - repeat constructor.
  - repeat constructor.
  - repeat constructor.
  - repeat constructor.
  - by vm_compute.
  - by vm_compute.
  - by vm_compute.
Qed.

(** C3, as amended. Each iteration of the loop that completes adds one to
    exactly one of the two counters, and an iteration that raises changes
    neither.  Whenever the loop has read [k] records from the mate-2 file and
    classified them, these are the first [k] records of the file, the file
    has advanced by exactly their bytes, and the two counters have together
    grown by [k].  So a run that returns leaves in the two counters together
    the number of records of the mate-2 file; a run that ends with an
    exception leaves less: the record at hand was read and is not counted. *)
Theorem counters_sum_to_records_read :
  (∀ n r w w',
     iteration n r w = (Ok tt, w') →
     (log_demultiplexed w' = log_demultiplexed w + 1 ∧
      log_not_matched w' = log_not_matched w) ∨
     (log_demultiplexed w' = log_demultiplexed w ∧
      log_not_matched w' = log_not_matched w + 1)) ∧
  (∀ n r w e w',
     iteration n r w = (Raise e, w') →
     log_demultiplexed w' = log_demultiplexed w ∧
     log_not_matched w' = log_not_matched w) ∧
  (∀ n k w w' fuel,
     classified n k w w' → String.length (f_2 w) < fuel →
     log_demultiplexed w' + log_not_matched w' =
       log_demultiplexed w + log_not_matched w + k ∧
     k ≤ length (records_of fuel (f_2 w)) ∧
     f_2 w = stream (take k (records_of fuel (f_2 w))) +:+ f_2 w') ∧
  (∀ fuel n w w',
     read_loop fuel n w = (Ok tt, w') →
     ∃ k w'',
       classified n k w w'' ∧
       Py.all (readlines 4 (f_2 w'')).1 = false ∧
       log_demultiplexed w' + log_not_matched w' =
         log_demultiplexed w + log_not_matched w + k) ∧
  (∀ bytes,
     Forall (λ r, length r = 4 ∧ Py.all r = true) (mate_2_records bytes) ∧
     ∃ rest,
       bytes = stream (mate_2_records bytes) +:+ rest ∧
       Py.all (readlines 4 rest).1 = false) ∧
  (∀ bytes contents,
     (run (Some bytes) (openable <$> contents)).1 = Ok tt →
     log_demultiplexed (run (Some bytes) (openable <$> contents)).2 +
     log_not_matched (run (Some bytes) (openable <$> contents)).2 =
       length (mate_2_records bytes)) ∧
  (∀ bytes contents e,
     (run (Some bytes) (openable <$> contents)).1 = Raise e →
     log_demultiplexed (run (Some bytes) (openable <$> contents)).2 +
     log_not_matched (run (Some bytes) (openable <$> contents)).2 <
       length (mate_2_records bytes)).
Proof.
  split_and!.
  - apply iteration_counts.
  - apply iteration_raise_counts.
  - intros n k w w' fuel Hk Hfuel.
    destruct (classified_sent _ _ _ _ Hk fuel Hfuel)
      as (records & dest & fuel' & Hlen & _ & _ & Hrec & Hbytes & _ & _ & _ & _
            & Hsum).
    rewrite Hrec, length_app, take_app_length' by done.
    split_and!; [done|lia|done].
  - intros fuel n w w' (k & w'' & Hk & Hstop & ->)%read_loop_classified.
    exists k, w''. split_and!; [done..|].
    apply (classified_counted _ _ _ _ Hk).
  - intros bytes. split; [apply records_of_wf|apply mate_2_records_rest].
  - intros bytes contents Hrun.
    by destruct (run_sent bytes contents Hrun) as (dest & _ & _ & _ & _ & _ & ?).
  - apply run_raise_counts.
Qed.

Lemma counters_sum_to_records_read_witness :
  log_demultiplexed
    (run (Some (Fastq.file Fastq.mates_gap))
         (openable <$> (stream <$> Fastq.buckets_gap))).2 +
  log_not_matched
    (run (Some (Fastq.file Fastq.mates_gap))
         (openable <$> (stream <$> Fastq.buckets_gap))).2 =
    length (mate_2_records (Fastq.file Fastq.mates_gap)).
Proof.
  apply (proj1 (proj2 (proj2 (proj2 (proj2 (proj2
           counters_sum_to_records_read)))))
           (Fastq.file Fastq.mates_gap) (stream <$> Fastq.buckets_gap)).
  vm_compute. reflexivity.
Defined.

(** C3 as stated fails: the mate-2 file holds the two records id1 and id4
    and the run reads both, the file being used up when the run ends; after
    id1 has gone to the only slot, whose lookahead is then a blank line, the
    iteration of id4 raises [IndexError], and the two counters hold 1 and 0:
    two records were read and one was counted. *)
Lemma record_read_but_not_counted :
  mate_2_records (Fastq.file [Fastq.id1_2; Fastq.id4_2]) =
    [Fastq.id1_2; Fastq.id4_2] ∧
  Fastq.blank_then_unmatched.1 = Raise IndexError ∧
  f_2 Fastq.blank_then_unmatched.2 = "" ∧
  log_demultiplexed Fastq.blank_then_unmatched.2 = 1 ∧
  log_not_matched Fastq.blank_then_unmatched.2 = 0.
Proof. vm_compute. split_and!; done. Qed.

(** C4. Whenever a completed iteration wrote to the mate-2 output of slot [i],
    what it appended is the record, and the record's name is the name of the
    lookahead of slot [i]; that lookahead was consumed in the same iteration:
    the slot's new lookahead is the next four lines of the slot's own mate-1
    file. *)
Theorem written_record_has_name_of_consumed_lookahead
    (n : nat) (r : list string) (w w' : world) (i : nat) :
  iteration n r w = (Ok tt, w') →
  demultiplexed_files_2 w' !! i ≠ demultiplexed_files_2 w !! i →
  ∃ name look out f1,
    key r = Some name ∧
    slots w !! i = Some look ∧ key look = Some name ∧
    demultiplexed_files_2 w !! i = Some out ∧
    demultiplexed_files_2 w' !! i = Some (out +:+ Py.join r) ∧
    demultiplexed_files_1 w !! i = Some f1 ∧
    slots w' !! i = Some (readlines 4 f1).1 ∧
    demultiplexed_files_1 w' !! i = Some (readlines 4 f1).2.
Proof.
  intros Hit Hw.
  destruct (iteration_cases n r w)
    as [(name&i'&look&out&f1& Hkey & Hi & Hpre & Hlook & Hm & Hout & Hf1 & Heq)
       |[(name & Hkey & Hall & Heq)|[Heq|(?&?&?&?&_&_&_&_&_&_&_& Heq)]]];
    rewrite Heq in Hit; try done; injection Hit as <-; simpl in Hw; [|done].
  destruct (decide (i = i')) as [->|Hne];
    [|by rewrite list_lookup_insert_ne in Hw].
  exists name, look, out, f1. simpl.
  rewrite !list_lookup_insert_eq by by eapply lookup_lt_Some.
  split_and!; try done. by apply matches_key.
Qed.

Lemma written_record_has_name_of_consumed_lookahead_witness :
  ∃ name look out f1,
    key Fastq.id3_2 = Some name ∧
    slots Fastq.waiting !! 1 = Some look ∧ key look = Some name ∧
    demultiplexed_files_2 Fastq.waiting !! 1 = Some out ∧
    demultiplexed_files_2 (iteration 2 Fastq.id3_2 Fastq.waiting).2 !! 1
      = Some (out +:+ Py.join Fastq.id3_2) ∧
    demultiplexed_files_1 Fastq.waiting !! 1 = Some f1 ∧
    slots (iteration 2 Fastq.id3_2 Fastq.waiting).2 !! 1
      = Some (readlines 4 f1).1 ∧
    demultiplexed_files_1 (iteration 2 Fastq.id3_2 Fastq.waiting).2 !! 1
      = Some (readlines 4 f1).2.
Proof.
  apply (written_record_has_name_of_consumed_lookahead
           2 Fastq.id3_2 Fastq.waiting).
  - vm_compute. reflexivity.
  - vm_compute. discriminate.
Defined.

(** C5, as amended. When every slot's lookahead is at the end of its file or
    carries a name other than the record's (in particular when there is no
    slot), the iteration completes: it appends to the error channel one line
    that names the record, adds one to the count of unmatched records, leaves
    the count of demultiplexed records, every output, every lookahead and
    every mate-1 file as they were, and the loop goes on to read the next
    record. *)
Theorem unmatched_record_reported
    (fuel n : nat) (r : list string) (w : world) (name : string) :
  Py.all r = true →
  key r = Some name →
  (∀ j, j < n → slot_passes name w j = true) →
  ∃ w',
    iteration n r w = (Ok tt, w') ∧
    stderr w' = stderr w +:+ missing_message name ∧
    line_count (missing_message name) = 1 ∧
    log_not_matched w' = log_not_matched w + 1 ∧
    log_demultiplexed w' = log_demultiplexed w ∧
    demultiplexed_files_2 w' = demultiplexed_files_2 w ∧
    demultiplexed_files_1 w' = demultiplexed_files_1 w ∧
    slots w' = slots w ∧
    while_loop (S fuel) n r w = read_loop fuel n w'.
Proof.
  intros Hall Hkey Hpass. exists (reported name w).
  pose proof (iteration_reported n r w name Hkey Hpass) as Hit.
  apply key_Some in Hkey as (line & Hl & Hn).
  split_and!; try done.
  - by eapply missing_message_one_line.
  - by rewrite while_loop_step, Hit.
Qed.

Lemma unmatched_record_reported_witness :
  ∃ w',
    iteration 2 Fastq.id4_2 Fastq.waiting = (Ok tt, w') ∧
    stderr w' = stderr Fastq.waiting +:+ missing_message "@id4" ∧
    line_count (missing_message "@id4") = 1 ∧
    log_not_matched w' = log_not_matched Fastq.waiting + 1 ∧
    log_demultiplexed w' = log_demultiplexed Fastq.waiting ∧
    demultiplexed_files_2 w' = demultiplexed_files_2 Fastq.waiting ∧
    demultiplexed_files_1 w' = demultiplexed_files_1 Fastq.waiting ∧
    slots w' = slots Fastq.waiting ∧
    while_loop 1 2 Fastq.id4_2 Fastq.waiting = read_loop 0 2 w'.
Proof.
  apply (unmatched_record_reported 0 2 Fastq.id4_2 Fastq.waiting "@id4").
  - reflexivity.
  - reflexivity.
  - intros [|[|j]] Hj; [reflexivity | reflexivity | lia].
Defined.

(** C5 as stated fails: after the only slot has taken id1, its lookahead is
    the blank line that follows in its file; the name of the next record, id4,
    is carried by no lookahead, and yet the iteration raises [IndexError]:
    nothing is reported, nothing is counted, and the run ends with that
    exception. *)
Lemma unmatched_record_may_raise :
  key Fastq.id4_2 = Some "@id4" ∧
  slots Fastq.blank_lookahead = [[Fastq.line ""; ""; ""; ""]] ∧
  matches "@id4" [Fastq.line ""; ""; ""; ""] = false ∧
  iteration 1 Fastq.id4_2 Fastq.blank_lookahead =
    (Raise IndexError, Fastq.blank_lookahead) ∧
  Fastq.blank_then_unmatched.1 = Raise IndexError ∧
  stderr Fastq.blank_then_unmatched.2 = "" ∧
  log_not_matched Fastq.blank_then_unmatched.2 = 0.
Proof. vm_compute. done. Qed.

(** C6, as amended. When the bytes left in the mate-2 file are one to three
    lines, the loop ends there without an exception: the lines are read and
    dropped, and no output, lookahead, counter or diagnostic changes. *)
Theorem short_read_ends_loop (fuel n : nat) (w : world) :
  1 ≤ line_count (f_2 w) ≤ 3 →
  read_loop fuel n w = (Ok tt, set_f_2 "" w).
Proof.
  intros [_ Hle]. rewrite read_loop_unfold.
  destruct (readlines_short 4 (f_2 w) ltac:(lia)) as [Hall ->].
  by rewrite while_loop_stop.
Qed.

Lemma short_read_ends_loop_witness :
  read_loop 0 2 (set_f_2 Fastq.half_read Fastq.waiting)
  = (Ok tt, set_f_2 "" (set_f_2 Fastq.half_read Fastq.waiting)).
Proof.
  apply (short_read_ends_loop 0 2 (set_f_2 Fastq.half_read Fastq.waiting)).
  vm_compute. lia.
Defined.

(** C6 as stated fails: a mate-2 file made of the record id1 and two more
    lines is read to its end without any exception; the record is routed and
    the two lines are dropped. *)
Lemma truncated_record_dropped :
  line_count Fastq.half_read = 2 ∧
  Fastq.truncated.1 = Ok tt ∧
  demultiplexed_files_2 Fastq.truncated.2 = [Fastq.file [Fastq.id1_2]] ∧
  stderr Fastq.truncated.2 = "" ∧
  log_demultiplexed Fastq.truncated.2 = 1 ∧
  log_not_matched Fastq.truncated.2 = 0.
Proof. vm_compute. split_and!; done. Qed.

(** C7 fails on the code.  When the second [_demux1] file cannot be opened,
    the first one, already open, is never closed: the [finally] block reads a
    list variable that was not assigned and raises [UnboundLocalError].  When
    the second [_demux2] file cannot be opened, the [_demux1] files are
    closed, and the first [_demux2] file stays open for the same reason. *)
Theorem open_failure_leaves_files_open :
  run (Some (Fastq.file [Fastq.id1_2]))
      [Fastq.bucket [Fastq.id1_1]; Demux_file None true] =
    (Raise UnboundLocalError,
     World (Fastq.file [Fastq.id1_2]) [] [] [] "" 0 0 false false [Demux1 0]) ∧
  run (Some (Fastq.file [Fastq.id1_2]))
      [Fastq.bucket [Fastq.id1_1]; Demux_file (Some "") false] =
    (Raise UnboundLocalError,
     World (Fastq.file [Fastq.id1_2]) [Fastq.file [Fastq.id1_1]; ""] [] [] ""
           0 0 true false [Demux2 0]).
Proof. vm_compute. done. Qed.

(** C8. [find_prefix a b] is a prefix of [a] and of [b], and it is the longest
    one: either it is as long as the shorter of the two strings, or [a] and [b]
    both have a next byte after it and these two bytes differ. *)
Theorem find_prefix_longest_common_prefix (a b : string) :
  let c := find_prefix a b in
  String.prefix c a = true ∧ String.prefix c b = true ∧
  (String.length c = String.length a `min` String.length b ∨
   ∃ x y, String.get (String.length c) a = Some x ∧
          String.get (String.length c) b = Some y ∧ x ≠ y).
Proof.
  simpl. revert b. induction a as [|x a IH]; intros b.
  - rewrite find_prefix_nil_l. simpl. split_and!; [done|by destruct b|by left].
  - destruct b as [|y b].
    + rewrite find_prefix_nil_r. simpl. split_and!; [done|done|by left].
    + rewrite find_prefix_cons.
      destruct (Ascii.eqb x y) eqn:Hxy.
      * apply Ascii.eqb_eq in Hxy as <-.
        destruct (IH b) as (Ha & Hb & Hlen). simpl.
        destruct (ascii_dec x x); [|done]. split_and!; [done|done|].
        destruct Hlen as [Hlen|Hnext]; [left; by rewrite Hlen | by right].
      * apply Ascii.eqb_neq in Hxy. simpl.
        split_and!; [done|done|]. right. by exists x, y.
Qed.

(** C9, as amended. A record whose first line is non-empty and all whitespace
    makes the loop raise [IndexError] before anything is changed.  A slot
    whose lookahead has such a first line makes the loop raise [IndexError]
    when the scan reaches it, that is when every slot before it is at the end
    of its file or carries a name other than the record's.  Nothing in [run]
    handles the exception: what the synchronisation raises is what [run]
    raises. *)
Theorem nameless_line_raises :
  (∀ fuel n r w line,
     Py.all r = true →
     r !! 0 = Some line → whitespace_only line = true →
     while_loop (S fuel) n r w = (Raise IndexError, w)) ∧
  (∀ fuel n r w name i look line,
     Py.all r = true → key r = Some name →
     i < n → (∀ j, j < i → slot_passes name w j = true) →
     slots w !! i = Some look →
     look !! 0 = Some line → line ≠ "" → whitespace_only line = true →
     while_loop (S fuel) n r w = (Raise IndexError, w)) ∧
  (∀ bytes contents,
     (run (Some bytes) (openable <$> contents)).1 =
     (synchronise (S (String.length bytes)) (length contents)
                  (opened bytes contents)).1).
Proof.
  split_and!.
  - intros fuel n r w line Hall Hl Hw.
    rewrite while_loop_step by done.
    by rewrite (iteration_nameless_record n r w line Hl
                  (whitespace_only_name_of _ Hw)).
  - intros fuel n r w name i look line Hall Hkey Hi Hpre Hlook Hl Hne Hw.
    rewrite while_loop_step by done.
    by rewrite (iteration_nameless_slot n r w name i look Hkey Hi Hpre Hlook
                  (whitespace_only_nameless _ _ Hl Hne Hw)).
  - intros bytes contents. by rewrite run_openable.
Qed.

Lemma nameless_line_raises_witness :
  while_loop 1 1 Fastq.nameless_read Fastq.waiting =
    (Raise IndexError, Fastq.waiting) ∧
  while_loop 1 2 Fastq.id3_2 Fastq.blank_second =
    (Raise IndexError, Fastq.blank_second).
Proof.
  split.
  - apply (proj1 nameless_line_raises 0 1 Fastq.nameless_read Fastq.waiting
             (Fastq.line " ")); reflexivity.
  - apply (proj1 (proj2 nameless_line_raises) 0 2 Fastq.id3_2 Fastq.blank_second
             "@id3" 1 [Fastq.line ""; ""; ""; ""] (Fastq.line "")).
    + reflexivity.
    + reflexivity.
    + lia.
    + intros [|j] Hj; [reflexivity | lia].
    + reflexivity.
    + reflexivity.
    + discriminate.
    + reflexivity.
Defined.

(** C9 as stated fails: the lookahead of the second slot is a blank line, a
    non-empty line of whitespace, and the record id1 is still classified, as
    matched by the first slot, without any exception; a whole run in which the
    second slot ends on such a lookahead returns with three records
    matched. *)
Lemma nameless_lookahead_not_reached :
  slots Fastq.blank_second !! 1 = Some [Fastq.line ""; ""; ""; ""] ∧
  Fastq.line "" ≠ "" ∧ whitespace_only (Fastq.line "") = true ∧
  (iteration 2 Fastq.id1_2 Fastq.blank_second).1 = Ok tt ∧
  log_demultiplexed (iteration 2 Fastq.id1_2 Fastq.blank_second).2 =
    log_demultiplexed Fastq.blank_second + 1 ∧
  Fastq.blank_never_reached.1 = Ok tt ∧
  slots Fastq.blank_never_reached.2 !! 1 =
    Some [Fastq.line ""; ""; ""; ""] ∧
  log_demultiplexed Fastq.blank_never_reached.2 = 3.
Proof. vm_compute. split_and!; done. Qed.

(** C10. One iteration changes at most one slot: either some slot is the first
    whose lookahead carries the record's name, and the lookahead and the
    mate-2 output of every other slot are what they were, or no lookahead and
    no mate-2 output changed at all; the latter is the case whenever the record
    was counted as unmatched. *)
Theorem iteration_frame (n : nat) (r : list string) (w : world) :
  let w' := (iteration n r w).2 in
  ((∃ name i look,
       key r = Some name ∧ i < n ∧
       slots w !! i = Some look ∧ matches name look = true ∧
       (∀ j, j < i → slot_passes name w j = true) ∧
       ∀ j, j ≠ i →
         slots w' !! j = slots w !! j ∧
         demultiplexed_files_2 w' !! j = demultiplexed_files_2 w !! j) ∨
   (slots w' = slots w ∧
    demultiplexed_files_2 w' = demultiplexed_files_2 w)) ∧
  (log_not_matched w' = log_not_matched w + 1 →
   slots w' = slots w ∧
   demultiplexed_files_2 w' = demultiplexed_files_2 w).
Proof.
  simpl.
  destruct (iteration_cases n r w)
    as [(name&i&look&out&f1& Hkey & Hi & Hpre & Hlook & Hm & Hout & Hf1 & ->)
       |[(name & Hkey & Hall & ->)
        |[->|(name&i&look&out& Hkey & Hi & Hpre & Hlook & Hm & Hout & Hf1 & ->)]]];
    simpl.
  - split; [|lia]. left. exists name, i, look. split_and!; [done..|].
    intros j Hj. by rewrite !list_lookup_insert_ne.
  - split; [by right | done].
  - split; [by right | done].
  - split; [|lia]. left. exists name, i, look. split_and!; [done..|].
    intros j Hj. by rewrite !list_lookup_insert_ne.
Qed.

(** * Further properties *)

Section DriverExamples.

Example demux2_name_of_bucket :
  demux2_name "s1_AAA_demux1.fastq" = "s1_AAA_demux2.fastq".
Proof. reflexivity. Qed.

Example replace_every_occurrence :
  replace "x_demux1_demux1y_demu_demux1" "_demux1" "_demux2" =
    "x_demux2_demux2y_demu_demux2" ∧
  replace "aaa" "aa" "b" = "ba" ∧ replace "ab" "" "-" = "-a-b-".
Proof. by vm_compute. Qed.

Example fnames_of_listing :
  fnames_of "s1_"
    ["s1_AAA_demux1.fastq"; "s2_AAA_demux1.fastq"; "s1_unmatched_demux1.fastq";
     "s1_AAA_demux2.fastq"; "s1_.fastq"] =
  ["s1_AAA_demux1.fastq"; "s1_unmatched_demux1.fastq"].
Proof. reflexivity. Qed.

Example getopt_error_exits_with_status_one :
  Options.init "usage" Toy.int (inl "option --foo not recognized") =
  (Throw (SystemExit 1),
   Printed "" ("option --foo not recognized" +:+
               String Py.nl (String Py.nl "") +:+ "usage")).
Proof. reflexivity. Qed.

Example mismatch_not_a_number :
  Options.init "usage" Toy.int (inr ([("--mismatch", "x")], [])) =
  (Throw ValueError, Printed "" "").
Proof. reflexivity. Qed.

(** A batch list of two jobs with a blank line between them: both jobs are
    run, each with the barcode file of its line and the common prefix of its
    two files. *)
Example batch_of_two_lines :
  (Toy.main (inr (Toy.batch_opts, ["list.txt"]))
     [Fastq.line "bc.txt s1_1.fastq s1_2.fastq"; Fastq.line "  ";
      "bc2.txt q_1.fq q_2.fq"] []).1 = (Return 0%Z, Printed "" "") ∧
  BarcodeSplitter.args <$>
    (Toy.main (inr (Toy.batch_opts, ["list.txt"]))
       [Fastq.line "bc.txt s1_1.fastq s1_2.fastq"; Fastq.line "  ";
        "bc2.txt q_1.fq q_2.fq"] []).2 =
  [PStr <$> ["fastx_barcode_splitter.pl"; "--suffix"; "_demux1.fastq";
             "--bcfile"; "bc.txt"; "--prefix"; "s1_"; "--bol";
             "--mismatch"; "2"];
   PStr <$> ["fastx_barcode_splitter.pl"; "--suffix"; "_demux1.fastq";
             "--bcfile"; "bc2.txt"; "--prefix"; "q_"; "--bol";
             "--mismatch"; "2"]].
Proof. by vm_compute. Qed.

(** A pair of files: one job, with the options of the command line; a third
    argument is ignored. *)
Example pair_of_files :
  (Toy.main (inr (Toy.pair_opts, ["s1_1.fastq"; "s1_2.fastq"; "more"]))
     [] []).1 = (Return 0%Z, Printed "" "") ∧
  BarcodeSplitter.args <$>
    (Toy.main (inr (Toy.pair_opts, ["s1_1.fastq"; "s1_2.fastq"; "more"]))
       [] []).2 =
  [PStr <$> ["fastx_barcode_splitter.pl"; "--suffix"; "_demux1.fastq";
             "--bcfile"; "barcodes.txt"; "--prefix"; "s1_"; "--eol";
             "--mismatch"; "1"]].
Proof. by vm_compute. Qed.

End DriverExamples.

Section Exhausted.

Lemma matches_not_exhausted name w i look :
  slots w !! i = Some look → matches name look = true → exhausted w i = false.
Proof.
  intros Hl Hm. unfold exhausted, matches in *. rewrite Hl.
  destruct (look !! 0) as [line|]; [|done].
  by destruct (Py.truthy line).
Qed.

Lemma iteration_keeps_exhausted n r w j :
  exhausted w j = true →
  slots (iteration n r w).2 !! j = slots w !! j ∧
  demultiplexed_files_1 (iteration n r w).2 !! j =
    demultiplexed_files_1 w !! j ∧
  demultiplexed_files_2 (iteration n r w).2 !! j =
    demultiplexed_files_2 w !! j.
Proof.
  intros Hj.
  destruct (iteration_cases n r w)
    as [(name&i&look&out&f1& _ & _ & _ & Hlook & Hm & _ & _ & ->)
       |[(name & _ & _ & ->)
        |[->|(name&i&look&out& _ & _ & _ & Hlook & Hm & _ & _ & ->)]]];
    simpl; try done.
  - assert (i ≠ j) by (intros ->; by rewrite (matches_not_exhausted _ _ _ _ Hlook Hm) in Hj).
    by rewrite !list_lookup_insert_ne.
  - assert (i ≠ j) by (intros ->; by rewrite (matches_not_exhausted _ _ _ _ Hlook Hm) in Hj).
    by rewrite !list_lookup_insert_ne.
Qed.

Lemma while_loop_keeps_exhausted fuel n r w j :
  exhausted w j = true →
  slots (while_loop fuel n r w).2 !! j = slots w !! j ∧
  demultiplexed_files_1 (while_loop fuel n r w).2 !! j =
    demultiplexed_files_1 w !! j ∧
  demultiplexed_files_2 (while_loop fuel n r w).2 !! j =
    demultiplexed_files_2 w !! j.
Proof.
  revert r w. induction fuel as [|fuel IH]; intros r w Hj.
  - simpl. by destruct (Py.all r).
  - destruct (Py.all r) eqn:Hr; [|by rewrite while_loop_stop].
    rewrite while_loop_step by done.
    pose proof (iteration_keeps_exhausted n r w j Hj) as (Hs & H1 & H2).
    destruct (iteration n r w) as [[[]|e|] w1]; simpl in *; [|done..].
    rewrite read_loop_unfold.
    destruct (IH (readlines 4 (f_2 w1)).1 (set_f_2 (readlines 4 (f_2 w1)).2 w1))
      as (-> & -> & ->); [|done].
    unfold exhausted in *. simpl. by rewrite Hs.
Qed.

End Exhausted.

Section Conservation.






End Conservation.

Section RunShares.



End RunShares.

Section ErrorChannel.






End ErrorChannel.

Section NoSlot.

Lemma read_loop_no_slot mates :
  Forall (λ r, wf_read r = true) mates →
  ∀ fuel w,
    f_2 w = stream mates → String.length (f_2 w) < fuel →
    read_loop fuel 0 w =
    (Ok tt,
     set_f_2 ""
       (set_log_not_matched (log_not_matched w + length mates)
          (set_stderr (stderr w +:+ Py.join (missing_message <$> names mates))
             w))).
Proof.
  induction 1 as [|m mates Hm Hmates IH]; intros fuel w Hf2 Hfuel.
  - rewrite read_loop_unfold, Hf2. rewrite while_loop_stop by done.
    destruct w; simpl. by rewrite app_empty_r, Nat.add_0_r.
  - destruct (wf_read_key _ Hm) as (name & Hkey).
    rewrite stream_cons in Hf2. rewrite (names_cons _ _ _ Hkey).
    rewrite read_loop_unfold, Hf2, (wf_read_readlines _ _ Hm).
    cbn [fst snd length fmap list_fmap Py.join].
    destruct fuel as [|fuel]; [lia|].
    rewrite while_loop_step by by apply wf_read_all.
    rewrite (iteration_reported 0 m _ name Hkey) by lia.
    rewrite IH; [|done|].
    + destruct w; simpl.
      by rewrite app_assoc_str, <- Nat.add_assoc.
    + simpl. rewrite Hf2, app_length_str in Hfuel.
      pose proof (all_join_length m (wf_read_all _ Hm)).
      assert (length m = 4).
      { unfold wf_read in Hm.
        apply andb_true_iff in Hm as [[Hl%Nat.eqb_eq _]%andb_true_iff _].
        done. }
      lia.
Qed.

End NoSlot.

Section BlankStart.

Lemma readlines_head n f :
  (readlines (S n) f).1 !! 0 = Some (Py.readline f).1.
Proof.
  simpl. destruct (Py.readline f) as [l f'].
  by destruct (readlines n f') as [ls f''].
Qed.

Lemma first_lookahead_head f :
  first_lookahead f !! 0 = Some (Py.strip (Py.readline f).1).
Proof.
  unfold first_lookahead. by rewrite list_lookup_fmap, readlines_head.
Qed.

End BlankStart.

Section OutputFailure.

Lemma open_each_read_readable i contents ws w :
  length ws = length contents →
  open_each open_read i (zip_with readable_file contents ws) w =
  (Ok contents,
   set_open_files (open_files w ++ (Demux1 <$> seq i (length contents))) w).
Proof.
  revert i ws w. induction contents as [|c contents IH]; intros i ws w Hlen.
  - simpl. unfold ret, set_open_files. by rewrite app_nil_r, world_eta.
  - destruct ws as [|b ws]; [done|]. injection Hlen as Hlen.
    cbn [zip_with open_each]. unfold bind at 1.
    unfold open_read at 1. cbn [readable readable_file]. unfold bind at 1.
    unfold open_handle at 1, ret at 1. unfold bind at 1. rewrite IH by done.
    unfold ret, set_open_files. simpl. by rewrite <- app_assoc.
Qed.

Lemma open_each_write_fails i contents k ws w :
  length contents = k + S (length ws) →
  open_each open_write i
    (zip_with readable_file contents (replicate k true ++ false :: ws)) w =
  (Raise IOError,
   set_open_files (open_files w ++ (Demux2 <$> seq i k)) w).
Proof.
  revert i contents w. induction k as [|k IH]; intros i contents w Hlen.
  - destruct contents as [|c contents]; [done|].
    cbn [replicate app zip_with open_each]. unfold bind at 1, open_write at 1.
    cbn [writable readable_file]. unfold raise, set_open_files. simpl.
    by rewrite app_nil_r, world_eta.
  - destruct contents as [|c contents]; [done|]. injection Hlen as Hlen.
    cbn [replicate app zip_with open_each]. unfold bind at 1.
    unfold open_write at 1. cbn [writable readable_file]. unfold bind at 1.
    unfold open_handle at 1, ret at 1. unfold bind at 1. rewrite IH by done.
    unfold set_open_files. simpl. by rewrite <- app_assoc.
Qed.

Lemma filter_none {A} (P : A → Prop) `{!∀ x, Decision (P x)} (l : list A) :
  (∀ x, x ∈ l → ¬ P x) → filter P l = [].
Proof.
  induction l as [|x l IH]; intros Hnone; [done|].
  rewrite filter_cons_False by (apply Hnone; by left).
  apply IH. intros y Hy. apply Hnone. by right.
Qed.

Lemma inputs_closed n k :
  filter (λ h, h ≠ File2)
    (filter (λ h, h ∉ Demux1 <$> xrange n)
       ([File2] ++ (Demux1 <$> seq 0 n) ++ (Demux2 <$> seq 0 k))) =
  Demux2 <$> seq 0 k.
Proof.
  rewrite !filter_app.
  rewrite (filter_all _ [File2]); last first.
  { intros h ->%list_elem_of_singleton. by intros (? & ? & ?)%list_elem_of_fmap. }
  rewrite (filter_none _ (Demux1 <$> seq 0 n)) by (intros h Hh Hn; by apply Hn).
  rewrite (filter_all _ (Demux2 <$> seq 0 k)); last first.
  { intros h (? & -> & _)%list_elem_of_fmap. by intros (? & ? & ?)%list_elem_of_fmap. }
  cbn [app]. rewrite filter_cons_False by (intros H; by apply H).
  apply filter_all. by intros h (? & -> & _)%list_elem_of_fmap.
Qed.

End OutputFailure.

Section Names.

Lemma prefix_nil s : String.prefix "" s = true.
Proof. by destruct s. Qed.








Lemma prefix_has_byte c p s :
  String.prefix p s = true → has_byte c p = true → has_byte c s = true.
Proof.
  revert s. induction p as [|x p IH]; intros s Hp Hc; [done|].
  destruct s as [|y s]; [done|]. cbn [String.prefix] in Hp.
  destruct (ascii_dec x y) as [->|]; [|done].
  unfold has_byte in *. simpl in *.
  destruct (Ascii.eqb c y); [done|]. simpl in *. by apply IH.
Qed.

Lemma has_byte_prefix c p q :
  String.prefix p q = true → has_byte c p = true → has_byte c q = true.
Proof. apply prefix_has_byte. Qed.

Lemma prefix_app p s : String.prefix p (p +:+ s) = true.
Proof.
  induction p as [|c p IH]; [by destruct s|].
  rewrite app_cons_str. cbn [String.prefix]. by destruct (ascii_dec c c).
Qed.

Lemma has_byte_app_r c s t : has_byte c t = true → has_byte c (s +:+ t) = true.
Proof.
  intros Ht. induction s as [|x s IH]; [done|].
  rewrite app_cons_str. unfold has_byte in *. simpl. by rewrite IH, orb_true_r.
Qed.

Lemma fnames_of_nil_slash prefix listing :
  has_byte "/" prefix = true →
  Forall (λ fname, has_byte "/" fname = false) listing →
  fnames_of prefix listing = [].
Proof.
  intros Hp. induction 1 as [|fname listing Hf _ IH]; [done|].
  unfold fnames_of in *. simpl. rewrite IH.
  destruct (startswith fname prefix) eqn:Hs; [|done].
  unfold startswith in Hs.
  by rewrite (prefix_has_byte _ _ _ Hs Hp) in Hf.
Qed.

End Names.

Section CommonPrefix.

Lemma find_prefix_app p a b :
  find_prefix (p +:+ a) (p +:+ b) = p +:+ find_prefix a b.
Proof.
  induction p as [|c p IH]; [by rewrite !app_nil_l_str|].
  by rewrite !app_cons_str, find_prefix_cons, Ascii.eqb_refl, IH.
Qed.

Lemma find_prefix_is_prefix a b :
  String.prefix (find_prefix a b) a = true ∧
  String.prefix (find_prefix a b) b = true.
Proof.
  revert b. induction a as [|x a IH]; intros b.
  - rewrite find_prefix_nil_l. split; [done|apply prefix_nil].
  - destruct b as [|y b]; [by rewrite find_prefix_nil_r|].
    rewrite find_prefix_cons. destruct (Ascii.eqb_spec x y) as [<-|_]; [|done].
    cbn [String.prefix]. destruct (ascii_dec x x); [|done]. apply IH.
Qed.

Lemma prefix_trans a b c :
  String.prefix a b = true → String.prefix b c = true →
  String.prefix a c = true.
Proof.
  revert b c. induction a as [|x a IH]; intros b c Hab Hbc;
    [apply prefix_nil|].
  destruct b as [|y b]; [done|]. destruct c as [|z c]; [done|].
  cbn [String.prefix] in *.
  destruct (ascii_dec x y) as [->|]; [|done].
  destruct (ascii_dec y z) as [->|]; [|done]. by eapply IH.
Qed.

Lemma find_prefix_sym a b : find_prefix a b = find_prefix b a.
Proof.
  revert b. induction a as [|x a IH]; intros b.
  - by rewrite find_prefix_nil_l, find_prefix_nil_r.
  - destruct b as [|y b]; [by rewrite find_prefix_nil_l, find_prefix_nil_r|].
    rewrite !find_prefix_cons, (Ascii.eqb_sym y x).
    destruct (Ascii.eqb_spec x y) as [->|_]; [|done]. by rewrite IH.
Qed.

Lemma find_prefix_same a : find_prefix a a = a.
Proof.
  induction a as [|x a IH]; [done|].
  by rewrite find_prefix_cons, Ascii.eqb_refl, IH.
Qed.

End CommonPrefix.

Section NoBucket.

Lemma run_no_slot mates :
  Forall (λ r, wf_read r = true) mates →
  run (Some (stream mates)) [] =
  (Ok tt,
   World "" [] [] [] (Py.join (missing_message <$> names mates))
         0 (length mates) true true []).
Proof.
  intros Hm. pose proof (run_openable (stream mates) []) as Hrun.
  cbn [fmap list_fmap length] in Hrun. rewrite Hrun.
  rewrite synchronise_unfold.
  rewrite (read_loop_no_slot mates Hm) by (simpl; lia || done).
  simpl. by rewrite app_nil_l_str.
Qed.

Lemma fnames_of_directory dir a b listing :
  Forall (λ fname, has_byte "/" fname = false) listing →
  fnames_of (find_prefix (dir +:+ "/" +:+ a) (dir +:+ "/" +:+ b)) listing = [].
Proof.
  intros Hl. apply fnames_of_nil_slash; [|done].
  apply (prefix_has_byte "/" (dir +:+ "/")).
  - apply find_prefix_greatest; rewrite <- app_assoc_str; apply prefix_app.
  - apply has_byte_app_r. done.
Qed.

End NoBucket.

Section Typed.

Lemma typed_set_default : typed (Options.set_default ∅).
Proof.
  unfold typed, Options.set_default. split_and!.
  - intros k. rewrite !lookup_insert_is_Some', !elem_of_cons, elem_of_nil.
    pose proof (lookup_empty_is_Some (M:=gmap string) (A:=pyval) k).
    intuition congruence.
  - by exists false.
  - by exists 1%Z.
  - intros k Hk. left.
    repeat (apply elem_of_cons in Hk as [->|Hk]; [done|]).
    by apply elem_of_nil in Hk.
Qed.

Lemma typed_insert d k v :
  typed d →
  (k = "batch" ∧ ∃ b, v = PBool b) ∨ (k = "mismatch" ∧ ∃ z, v = PInt z) ∨
  (k ∈ ["bcfile"; "prefix"; "position"] ∧ ∃ a, v = PStr a) →
  typed (<[k:=v]> d).
Proof.
  intros (Hdom & (b & Hb) & (z & Hz) & Hstr) Hk.
  assert (k ∈ ["batch"; "bcfile"; "mismatch"; "prefix"; "position"]) as Hin.
  { destruct Hk as [[-> _]|[[-> _]|[Hk _]]].
    - by left.
    - by right; right; left.
    - repeat (apply elem_of_cons in Hk as [->|Hk];
              [rewrite !elem_of_cons; tauto|]).
      by apply elem_of_nil in Hk. }
  split_and!.
  - intros k'. rewrite lookup_insert_is_Some', Hdom.
    split; [intros [<-|?]; done | by right].
  - destruct (decide (k = "batch")) as [->|Hne].
    + rewrite lookup_insert_eq.
      destruct Hk as [[_ (b' & ->)]|[[? _]|[Hk _]]]; [by exists b'|done|].
      repeat (apply elem_of_cons in Hk as [?|Hk]; [done|]).
      by apply elem_of_nil in Hk.
    + rewrite lookup_insert_ne by done. by exists b.
  - destruct (decide (k = "mismatch")) as [->|Hne].
    + rewrite lookup_insert_eq.
      destruct Hk as [[? _]|[[_ (z' & ->)]|[Hk _]]]; [done|by exists z'|].
      repeat (apply elem_of_cons in Hk as [?|Hk]; [done|]).
      by apply elem_of_nil in Hk.
    + rewrite lookup_insert_ne by done. by exists z.
  - intros k' Hk'. destruct (decide (k = k')) as [->|Hne].
    + rewrite lookup_insert_eq. right.
      destruct Hk as [[-> _]|[[-> _]|[_ (a & ->)]]]; [..|by exists a];
        repeat (apply elem_of_cons in Hk' as [?|Hk']; [done|]);
        by apply elem_of_nil in Hk'.
    + rewrite lookup_insert_ne by done. by apply Hstr.
Qed.

End Typed.

Section OptionsFacts.

Variable doc : string.
Variable int : string → option Z.

Lemma loop_typed opts self d out :
  typed self → Options.loop doc int opts self = (Return d, out) →
  typed d ∧ out = "".
Proof.
  revert self. induction opts as [|[o a] opts IH]; intros self Hself; simpl.
  - by intros [= <- <-].
  - repeat case_match; try done; apply IH; apply typed_insert; try done.
    + left. split; [done|]. by eexists.
    + right; right. split; [by left|]. by eexists.
    + right; left. split; [done|]. by eexists.
    + right; right. split; [by right; left|]. by eexists.
    + right; right. split; [by right; right; left|]. by eexists.
Qed.


Lemma last_cons_from {A} (x : A) l : last (x :: l) = Some (default x (last l)).
Proof.
  revert x. induction l as [|y l IH]; intros x; [done|].
  change (last (x :: y :: l)) with (last (y :: l)). rewrite IH. simpl.
  by destruct (last l).
Qed.

Lemma given_cons k o a opts :
  given k ((o, a) :: opts) =
  if String.eqb o k then a :: given k opts else given k opts.
Proof. unfold given. simpl. by destruct (String.eqb o k). Qed.

(** What the loop leaves under each key: the value that was there, or what the
    last option that sets the key says. *)
Local Ltac flag := rewrite ?app_cons_str, ?app_nil_l_str; simpl.

Lemma loop_last opts self d out :
  Options.loop doc int opts self = (Return d, out) →
  d !! "batch" =
    (if bool_decide ("-b" ∈ opts.*1) then Some (PBool true)
     else self !! "batch") ∧
  d !! "mismatch" =
    match last (given "--mismatch" opts) with
    | Some a => PInt <$> int a
    | None => self !! "mismatch"
    end ∧
  ∀ k, k ∈ ["bcfile"; "prefix"; "position"] →
    d !! k =
    match last (given ("--" +:+ k) opts) with
    | Some a => Some (PStr a)
    | None => self !! k
    end.
Proof.
  revert self. induction opts as [|[o a] opts IH]; intros self.
  { simpl. intros [= <- <-]. split_and!; [done..|]. by intros k _. }
  cbn [Options.loop].
  destruct (String.eqb_spec o "--help") as [->|_]; [done|].
  destruct (String.eqb_spec o "-b") as [->|Hb].
  { intros (H1 & H2 & H3)%IH. rewrite bool_decide_eq_true_2 by (simpl; by left).
    split_and!.
    - rewrite H1. case_bool_decide; [done|]. by rewrite lookup_insert_eq.
    - rewrite H2, given_cons. simpl. by rewrite lookup_insert_ne.
    - intros k Hk. rewrite (H3 k Hk), given_cons.
      repeat (apply elem_of_cons in Hk as [->|Hk];
              [flag; by rewrite lookup_insert_ne|]).
      by apply elem_of_nil in Hk. }
  assert (∀ self' : gmap string pyval,
            (if bool_decide ("-b" ∈ ((o, a) :: opts).*1) then Some (PBool true)
             else self' !! "batch") =
            (if bool_decide ("-b" ∈ opts.*1) then Some (PBool true)
             else self' !! "batch")) as Hbatch.
  { intros self'. cbn [fmap list_fmap fst].
    destruct (decide ("-b" ∈ opts.*1)) as [Hin|Hnin].
    - rewrite !bool_decide_eq_true_2; [done|done|by right].
    - rewrite !bool_decide_eq_false_2; [done|done|].
      intros [?|?]%elem_of_cons; by simplify_eq. }
  destruct (String.eqb_spec o "--bcfile") as [->|Hbc].
  { intros (H1 & H2 & H3)%IH. rewrite Hbatch. split_and!.
    - rewrite H1. by rewrite lookup_insert_ne.
    - rewrite H2, given_cons. simpl. by rewrite lookup_insert_ne.
    - intros k Hk. rewrite (H3 k Hk), given_cons.
      apply elem_of_cons in Hk as [->|Hk].
      { flag. rewrite last_cons_from, lookup_insert_eq.
        destruct (last (given "--bcfile" opts)); reflexivity. }
      repeat (apply elem_of_cons in Hk as [->|Hk];
              [flag; by rewrite lookup_insert_ne|]).
      by apply elem_of_nil in Hk. }
  destruct (String.eqb_spec o "--mismatch") as [->|Hmm].
  { destruct (int a) as [z|] eqn:Hz; [|done].
    intros (H1 & H2 & H3)%IH. rewrite Hbatch. split_and!.
    - rewrite H1. by rewrite lookup_insert_ne.
    - rewrite H2, given_cons. simpl. rewrite last_cons_from, lookup_insert_eq.
      destruct (last (given "--mismatch" opts)); simpl; [done|].
      by rewrite Hz.
    - intros k Hk. rewrite (H3 k Hk), given_cons.
      repeat (apply elem_of_cons in Hk as [->|Hk];
              [flag; by rewrite lookup_insert_ne|]).
      by apply elem_of_nil in Hk. }
  destruct (String.eqb_spec o "--prefix") as [->|Hpr].
  { intros (H1 & H2 & H3)%IH. rewrite Hbatch. split_and!.
    - rewrite H1. by rewrite lookup_insert_ne.
    - rewrite H2, given_cons. simpl. by rewrite lookup_insert_ne.
    - intros k Hk. rewrite (H3 k Hk), given_cons.
      apply elem_of_cons in Hk as [->|Hk];
        [flag; by rewrite lookup_insert_ne|].
      apply elem_of_cons in Hk as [->|Hk].
      { flag. rewrite last_cons_from, lookup_insert_eq.
        destruct (last (given "--prefix" opts)); reflexivity. }
      repeat (apply elem_of_cons in Hk as [->|Hk];
              [flag; by rewrite lookup_insert_ne|]).
      by apply elem_of_nil in Hk. }
  destruct (String.eqb_spec o "--position") as [->|Hpo]; [|done].
  intros (H1 & H2 & H3)%IH. rewrite Hbatch. split_and!.
  - rewrite H1. by rewrite lookup_insert_ne.
  - rewrite H2, given_cons. simpl. by rewrite lookup_insert_ne.
  - intros k Hk. rewrite (H3 k Hk), given_cons.
    do 2 (apply elem_of_cons in Hk as [->|Hk];
          [flag; by rewrite lookup_insert_ne|]).
    apply elem_of_cons in Hk as [->|Hk]; [|by apply elem_of_nil in Hk].
    flag. rewrite last_cons_from, lookup_insert_eq. destruct (last (given "--position" opts)); reflexivity.
Qed.

End OptionsFacts.

Lemma options_typed_printed (doc : string) (int : string → option Z)
    (parsed : string + list (string * string) * list string)
    (o : Options.t) (p : printed) :
  Options.init doc int parsed = (Return o, p) →
  typed (Options.dict o) ∧ p = Printed "" "" ∧
  parsed = inr (Options.opts o, Options.args o).
Proof.
  unfold Options.init. destruct parsed as [e|[opts args]]; [done|].
  destruct (Options.loop doc int opts (Options.set_default ∅))
    as [[d|e] out] eqn:Hloop; [|done].
  intros [= <- <-]. simpl.
  destruct (loop_typed doc int _ _ _ _ typed_set_default Hloop) as [Ht ->].
  done.
Qed.

Lemma options_last (doc : string) (int : string → option Z)
    (opts : list (string * string)) (args : list string)
    (o : Options.t) (p : printed) :
  Options.init doc int (inr (opts, args)) = (Return o, p) →
  Options.dict o !! "batch" = Some (PBool (bool_decide ("-b" ∈ opts.*1))) ∧
  Options.dict o !! "mismatch" =
    Some (PInt (default 1%Z (last (given "--mismatch" opts) ≫= int))) ∧
  Options.dict o !! "bcfile" =
    Some (from_option PStr PNone (last (given "--bcfile" opts))) ∧
  Options.dict o !! "prefix" =
    Some (from_option PStr PNone (last (given "--prefix" opts))) ∧
  Options.dict o !! "position" =
    Some (from_option PStr PNone (last (given "--position" opts))).
Proof.
  unfold Options.init.
  destruct (Options.loop doc int opts (Options.set_default ∅))
    as [[d|e] out] eqn:Hloop; [|done].
  intros [= <- <-]. simpl.
  destruct (loop_typed doc int _ _ _ _ typed_set_default Hloop)
    as [(_ & _ & (z & Hz) & _) _].
  destruct (loop_last doc int _ _ _ _ Hloop) as (Hb & Hm & Hs).
  split_and!.
  - rewrite Hb. by case_bool_decide.
  - rewrite Hz in Hm. rewrite Hz.
    destruct (last (given "--mismatch" opts)) as [a|]; simpl.
    + destruct (int a); by simplify_eq/=.
    + by simplify_eq/=.
  - rewrite (Hs "bcfile") by (by left).
    change ("--" +:+ "bcfile") with "--bcfile".
    by destruct (last (given "--bcfile" opts)).
  - rewrite (Hs "prefix") by (by right; left).
    change ("--" +:+ "prefix") with "--prefix".
    by destruct (last (given "--prefix" opts)).
  - rewrite (Hs "position") by (by right; right; left).
    change ("--" +:+ "position") with "--position".
    by destruct (last (given "--position" opts)).
Qed.

Section InitFacts.

Import BarcodeSplitter.

Lemma keyword_accepted self k v :
  accepted (k, v) →
  ∃ self', keyword self k v = Return self' ∧
    args self' = args self ++ words (k, v) ∧
    file_1 self' = file_1 self ∧ file_2 self' = file_2 self ∧
    bcfile self' = (if decide (k = "bcfile") then Some v else bcfile self) ∧
    mismatch self' = (if decide (k = "mismatch") then Some v else mismatch self) ∧
    prefix self' = (if decide (k = "prefix") then Some v else prefix self) ∧
    position self' = (if decide (k = "position") then Some v else position self).
Proof.
  intros [Hk|[Hk (s & Hs)]]; simpl in *.
  - repeat (apply elem_of_cons in Hk as [->|Hk];
            [eexists; split; [reflexivity|done]|]).
    by apply elem_of_nil in Hk.
  - subst. eexists; split; [reflexivity|done].
Qed.

Lemma keywords_accepted kwargs self :
  Forall accepted kwargs →
  ∃ self', keywords kwargs self = Return self' ∧
    args self' = args self ++ (kwargs ≫= words) ∧
    file_1 self' = file_1 self ∧ file_2 self' = file_2 self.
Proof.
  intros Hall. revert self. induction Hall as [|[k v] kwargs Hkv _ IH];
    intros self.
  - exists self. simpl. by rewrite app_nil_r.
  - destruct (keyword_accepted self k v Hkv)
      as (self1 & Heq & Hargs & Hf1 & Hf2 & _).
    destruct (IH self1) as (self' & Heq' & Hargs' & Hf1' & Hf2').
    exists self'. cbn [keywords]. rewrite Heq, Heq'.
    split_and!; [done| |congruence|congruence].
    rewrite Hargs', Hargs. simpl. by rewrite <- app_assoc.
Qed.

(** The attributes after the loop hold the value of the only keyword of their
    name. *)
Lemma keywords_attribute kwargs self self' :
  Forall accepted kwargs → NoDup kwargs.*1 →
  keywords kwargs self = Return self' →
  ∀ k v, (k, v) ∈ kwargs →
    (k = "bcfile" → bcfile self' = Some v) ∧
    (k = "mismatch" → mismatch self' = Some v) ∧
    (k = "prefix" → prefix self' = Some v) ∧
    (k = "position" → position self' = Some v).
Proof.
  intros Hall. revert self. induction Hall as [|[k0 v0] kwargs Hkv Hall IH];
    intros self Hnd Heq k v Hin; [by apply elem_of_nil in Hin|].
  cbn [fmap list_fmap fst] in Hnd. apply NoDup_cons in Hnd as [Hk0 Hnd].
  destruct (keyword_accepted self k0 v0 Hkv)
    as (self1 & Heq1 & _ & _ & _ & Hb & Hm & Hp & Ho).
  cbn [keywords] in Heq. rewrite Heq1 in Heq.
  apply elem_of_cons in Hin as [[= -> ->]|Hin]; [|by eapply IH].
  clear IH.
  assert (∀ rest s s', Forall accepted rest → k0 ∉ rest.*1 →
            keywords rest s = Return s' →
            (k0 = "bcfile" → bcfile s' = bcfile s) ∧
            (k0 = "mismatch" → mismatch s' = mismatch s) ∧
            (k0 = "prefix" → prefix s' = prefix s) ∧
            (k0 = "position" → position s' = position s)) as Hkeep.
  { clear. intros rest s s' Hrest. revert s.
    induction Hrest as [|[k1 v1] rest Hkv _ IH]; intros s Hnin Heq.
    - by injection Heq as ->.
    - cbn [fmap list_fmap fst] in Hnin.
      apply not_elem_of_cons in Hnin as [Hne Hnin].
      destruct (keyword_accepted s k1 v1 Hkv)
        as (s1 & Heq1 & _ & _ & _ & Hb & Hm & Hp & Ho).
      cbn [keywords] in Heq. rewrite Heq1 in Heq.
      destruct (IH s1 Hnin Heq) as (Ib & Im & Ip & Io).
      split_and!; intros ->.
      + rewrite Ib by done. rewrite Hb. by rewrite decide_False.
      + rewrite Im by done. rewrite Hm. by rewrite decide_False.
      + rewrite Ip by done. rewrite Hp. by rewrite decide_False.
      + rewrite Io by done. rewrite Ho. by rewrite decide_False. }
  destruct (Hkeep kwargs self1 self' Hall Hk0 Heq) as (Ib & Im & Ip & Io).
  split_and!; intros ->.
  - rewrite Ib by done. by rewrite Hb, decide_True.
  - rewrite Im by done. by rewrite Hm, decide_True.
  - rewrite Ip by done. by rewrite Hp, decide_True.
  - rewrite Io by done. by rewrite Ho, decide_True.
Qed.

(** A [position] that is not a string stops the loop with [TypeError],
    wherever it comes among keywords that are all known. *)
Lemma keywords_position_not_str kwargs self v :
  Forall (λ kv, kv.1 ∈ ["bcfile"; "mismatch"; "prefix"; "position"]) kwargs →
  ("position", v) ∈ kwargs → (∀ s, v ≠ PStr s) →
  keywords kwargs self = Throw TypeError.
Proof.
  intros Hall. revert self. induction Hall as [|[k0 v0] kwargs Hk0 _ IH];
    intros self Hin Hv; [by apply elem_of_nil in Hin|].
  simpl in Hk0. cbn [keywords].
  assert (accepted (k0, v0) ∨ (k0 = "position" ∧ ∀ s, v0 ≠ PStr s)) as [Hacc|[-> Hv0]].
  { repeat (apply elem_of_cons in Hk0 as [->|Hk0];
            [left; left; simpl; rewrite !elem_of_cons; tauto|]).
    apply elem_of_cons in Hk0 as [->|Hk0]; [|by apply elem_of_nil in Hk0].
    destruct v0; try (by right); left; right; split; [done|by eexists]. }
  - destruct (keyword_accepted self k0 v0 Hacc) as (self1 & -> & _).
    apply IH; [|done].
    apply elem_of_cons in Hin as [[= <- <-]|Hin]; [|done].
    destruct Hacc as [Hk|[_ (s & Hs)]]; [|by destruct (Hv s)].
    simpl in Hk. repeat (apply elem_of_cons in Hk as [?|Hk]; [done|]).
    by apply elem_of_nil in Hk.
  - unfold keyword. simpl. destruct v0; try done. by destruct (Hv0 s).
Qed.

End InitFacts.

Section Passed.

Import BarcodeSplitter.

Lemma passed_accepted bcfile prefix position mismatch kwargs :
  kwargs ≡ₚ passed bcfile prefix (PStr position) mismatch →
  Forall accepted kwargs ∧ NoDup kwargs.*1.
Proof.
  intros Hp. rewrite Hp. split.
  - unfold passed. repeat (apply Forall_cons; split); [..|done].
    + left. by left.
    + left. by right; right; left.
    + right. split; [done|]. by eexists.
    + left. by right; left.
  - unfold passed. simpl.
    apply (bool_decide_unpack _). by vm_compute.
Qed.

Lemma position_not_str file_1 file_2 kwargs bcfile prefix position mismatch :
  kwargs ≡ₚ passed bcfile prefix position mismatch →
  (∀ s, position ≠ PStr s) →
  BarcodeSplitter.init file_1 file_2 kwargs = Throw TypeError.
Proof.
  intros Hp Hpos. apply (keywords_position_not_str _ _ position); [| |done].
  - rewrite Hp. unfold passed.
    repeat (apply Forall_cons; split); [..|done]; simpl;
      rewrite !elem_of_cons; tauto.
  - rewrite Hp. by right; right; left.
Qed.

End Passed.

Section MainFacts.

Context {St : Type}.
Variable doc : string.
Variable int : string → option Z.
Variable kwargs_order : list (string * pyval) → list (string * pyval).
Variable run_method : BarcodeSplitter.t → St → option failure * St.


Lemma batch_cons options line lines s :
  batch kwargs_order run_method options (line :: lines) s =
  if not_blank line then
    match batch kwargs_order run_method options [line] s with
    | (None, s') => batch kwargs_order run_method options lines s'
    | (Some e, s') => (Some e, s')
    end
  else batch kwargs_order run_method options lines s.
Proof.
  unfold not_blank. cbn [batch].
  destruct (Py.truthy (Py.strip line)); cbn [negb]; [|done].
  destruct (Py.split line) as [|? [|? [|? [|? ?]]]]; try done.
  destruct (getitem options "position"); [|done].
  destruct (getitem options "mismatch"); [|done].
  by destruct (barcode_splitter _ _ _ _ _ _ _ _ _) as [[e|] s'].
Qed.

Lemma batch_skips_blank options lines s :
  batch kwargs_order run_method options (List.filter not_blank lines) s = batch kwargs_order run_method options lines s.
Proof.
  revert s. induction lines as [|line lines IH]; intros s; [done|].
  cbn [List.filter]. rewrite (batch_cons _ line lines).
  destruct (not_blank line) eqn:Hl; [|done].
  rewrite batch_cons, Hl.
  destruct (batch kwargs_order run_method options [line] s) as [[e|] s']; [done|]. apply IH.
Qed.

Lemma batch_failed options pre rest s e s' :
  batch kwargs_order run_method options pre s = (Some e, s') →
  batch kwargs_order run_method options (pre ++ rest) s = (Some e, s').
Proof.
  revert s. induction pre as [|line pre IH]; intros s; [done|].
  rewrite <- app_comm_cons.
  rewrite (batch_cons _ line (pre ++ rest)), (batch_cons _ line pre).
  destruct (not_blank line); [|apply IH].
  destruct (batch kwargs_order run_method options [line] s) as [[e1|] s1]; [done|]. apply IH.
Qed.

Lemma batch_ext d1 d2 lines s :
  d1 !! "position" = d2 !! "position" →
  d1 !! "mismatch" = d2 !! "mismatch" →
  batch kwargs_order run_method d1 lines s = batch kwargs_order run_method d2 lines s.
Proof.
  intros Hp Hm. revert s. induction lines as [|line lines IH]; intros s;
    [done|].
  cbn [batch]. unfold getitem. rewrite Hp, Hm.
  destruct (negb _); [done|].
  destruct (Py.split line) as [|? [|? [|? [|? ?]]]]; try done.
  destruct (d2 !! "position"); [|done].
  destruct (d2 !! "mismatch"); [|done].
  destruct (barcode_splitter _ _ _ _ _ _ _ _ _) as [[e|] s']; [done|].
  apply IH.
Qed.

Lemma strip_blank_split line :
  Py.truthy (Py.strip line) = false → Py.split line = [].
Proof.
  intros Hs. pose proof (name_of_strip line) as Hn.
  destruct (Py.strip line); [|done]. unfold name_of in Hn.
  by destruct (Py.split line).
Qed.

Lemma barcode_splitter_no_position file_1 file_2 bcfile prefix position
    mismatch s :
  (∀ l, kwargs_order l ≡ₚ l) → (∀ a, position ≠ PStr a) →
  barcode_splitter kwargs_order run_method file_1 file_2 bcfile prefix
    position mismatch s = (Some TypeError, s).
Proof.
  intros Hperm Hpos. unfold barcode_splitter.
  rewrite (position_not_str file_1 file_2 _ bcfile prefix position mismatch);
    [done| |done].
  apply Hperm.
Qed.


Lemma given_absent k opts : k ∉ opts.*1 → given k opts = [].
Proof.
  induction opts as [|[o a] opts IH]; [done|]. cbn [fmap list_fmap fst].
  intros [Hne Hnin]%not_elem_of_cons. rewrite given_cons.
  destruct (String.eqb_spec o k) as [->|_]; [done|]. by apply IH.
Qed.

(** Leaving out the options [--bcfile] and [--prefix] changes neither the
    outcome of the loop nor what it leaves under the other keys. *)
Lemma loop_drop opts s1 s2 :
  s1 !! "batch" = s2 !! "batch" ∧ s1 !! "mismatch" = s2 !! "mismatch" ∧
  s1 !! "position" = s2 !! "position" →
  match Options.loop doc int opts s1,
        Options.loop doc int (List.filter kept_in_batch opts) s2 with
  | (Return d1, o1), (Return d2, o2) =>
      (d1 !! "batch" = d2 !! "batch" ∧ d1 !! "mismatch" = d2 !! "mismatch" ∧
       d1 !! "position" = d2 !! "position") ∧ o1 = o2
  | (Throw e1, o1), (Throw e2, o2) => e1 = e2 ∧ o1 = o2
  | _, _ => False
  end.
Proof.
  revert s1 s2. induction opts as [|[o a] opts IH]; intros s1 s2 (Hb & Hm & Hp).
  { simpl. done. }
  cbn [List.filter Options.loop].
  destruct (String.eqb_spec o "--help") as [->|Hhelp].
  { simpl. done. }
  destruct (String.eqb_spec o "-b") as [->|Hbatch].
  { simpl. apply IH. rewrite !lookup_insert_eq.
    by rewrite !lookup_insert_ne by done. }
  destruct (String.eqb_spec o "--bcfile") as [->|Hbcfile].
  { simpl. apply IH. by rewrite !lookup_insert_ne by done. }
  destruct (String.eqb_spec o "--mismatch") as [->|Hmismatch].
  { simpl. destruct (int a) as [z|]; [|done]. apply IH.
    rewrite !lookup_insert_eq. by rewrite !lookup_insert_ne by done. }
  destruct (String.eqb_spec o "--prefix") as [->|Hprefix].
  { simpl. apply IH. by rewrite !lookup_insert_ne by done. }
  assert (kept_in_batch (o, a) = true) as ->.
  { unfold kept_in_batch. simpl.
    by destruct (String.eqb_spec o "--bcfile"), (String.eqb_spec o "--prefix"). }
  cbn [Options.loop].
  destruct (String.eqb_spec o "--help") as [|_]; [done|].
  destruct (String.eqb_spec o "-b") as [|_]; [done|].
  destruct (String.eqb_spec o "--bcfile") as [|_]; [done|].
  destruct (String.eqb_spec o "--mismatch") as [|_]; [done|].
  destruct (String.eqb_spec o "--prefix") as [|_]; [done|].
  destruct (String.eqb_spec o "--position") as [->|_]; [|done].
  apply IH. rewrite !lookup_insert_eq. by rewrite !lookup_insert_ne by done.
Qed.

Lemma main_batch opts args o p lines s :
  Options.init doc int (inr (opts, args)) = (Return o, p) →
  "-b" ∈ opts.*1 →
  main doc int kwargs_order run_method (inr (opts, args)) lines s =
  match batch kwargs_order run_method (Options.dict o) lines s with
  | (None, s') => (Return 0%Z, Printed "" "", s')
  | (Some e, s') => (Throw e, Printed "" "", s')
  end.
Proof.
  intros Hinit Hb.
  destruct (options_typed_printed doc int _ _ _ Hinit) as (_ & -> & _).
  destruct (options_last doc int _ _ _ _ Hinit) as (Hbatch & _).
  unfold main. rewrite Hinit. unfold dispatch, getitem. rewrite Hbatch.
  rewrite bool_decide_eq_true_2 by done. simpl.
  by destruct (batch kwargs_order run_method (Options.dict o) lines s) as [[e|] s'].
Qed.

Lemma main_single opts args o p lines s :
  Options.init doc int (inr (opts, args)) = (Return o, p) →
  "-b" ∉ opts.*1 →
  main doc int kwargs_order run_method (inr (opts, args)) lines s =
  match single kwargs_order run_method o s with
  | (None, s') => (Return 0%Z, Printed "" "", s')
  | (Some e, s') => (Throw e, Printed "" "", s')
  end.
Proof.
  intros Hinit Hb.
  destruct (options_typed_printed doc int _ _ _ Hinit) as (_ & -> & _).
  destruct (options_last doc int _ _ _ _ Hinit) as (Hbatch & _).
  unfold main. rewrite Hinit. unfold dispatch, getitem. rewrite Hbatch.
  rewrite bool_decide_eq_false_2 by done. simpl.
  by destruct (single kwargs_order run_method o s) as [[e|] s'].
Qed.

End MainFacts.

(** ** The loop and the files of a run *)

(** X1. A slot whose lookahead is at the end of its file (line 213) takes no
    further part in the loop: whatever records follow and however the loop
    ends, its lookahead, its mate-1 file and its mate-2 output stay as they
    are. *)
Theorem exhausted_slot_left_alone (fuel n : nat) (r : list string) (w : world)
    (j : nat) :
  exhausted w j = true →
  slots (while_loop fuel n r w).2 !! j = slots w !! j ∧
  demultiplexed_files_1 (while_loop fuel n r w).2 !! j =
    demultiplexed_files_1 w !! j ∧
  demultiplexed_files_2 (while_loop fuel n r w).2 !! j =
    demultiplexed_files_2 w !! j.
Proof. apply while_loop_keeps_exhausted. Qed.

Lemma exhausted_slot_left_alone_witness :
  slots (while_loop 5 2 Fastq.id1_2 Cases.used_up).2 !! 0 =
    slots Cases.used_up !! 0 ∧
  demultiplexed_files_1 (while_loop 5 2 Fastq.id1_2 Cases.used_up).2 !! 0 =
    demultiplexed_files_1 Cases.used_up !! 0 ∧
  demultiplexed_files_2 (while_loop 5 2 Fastq.id1_2 Cases.used_up).2 !! 0 =
    demultiplexed_files_2 Cases.used_up !! 0.
Proof.
  apply (exhausted_slot_left_alone 5 2 Fastq.id1_2 Cases.used_up 0).
  reflexivity.
Defined.

(** X2. When every file opens and the run returns, every record of the
    mate-2 file has gone, unchanged, to exactly one place: the output of one
    slot or the report of unmatched reads.  With [dest] giving the place of
    each record, the output of slot [i] holds the bytes of the records sent
    to [i], and nothing else, in the order of the mate-2 file; the error
    channel holds one line for each record sent to no slot, the count of
    unmatched records is their number, and the two counts together are the
    number of records of the file. *)
Theorem records_shared_between_outputs (bytes : string)
    (contents : list string) :
  (run (Some bytes) (openable <$> contents)).1 = Ok tt →
  (∃ rest,
     bytes = stream (mate_2_records bytes) +:+ rest ∧
     Py.all (readlines 4 rest).1 = false) ∧
  ∃ dest,
    length dest = length (mate_2_records bytes) ∧
    Forall (λ d, ∀ i, d = Some i → i < length contents) dest ∧
    demultiplexed_files_2 (run (Some bytes) (openable <$> contents)).2 =
      (λ i, stream (sent_to dest (mate_2_records bytes) (Some i)))
        <$> seq 0 (length contents) ∧
    stderr (run (Some bytes) (openable <$> contents)).2 =
      Py.join (missing_message
                 <$> names (sent_to dest (mate_2_records bytes) None)) ∧
    log_not_matched (run (Some bytes) (openable <$> contents)).2 =
      length (sent_to dest (mate_2_records bytes) None) ∧
    log_demultiplexed (run (Some bytes) (openable <$> contents)).2 +
    log_not_matched (run (Some bytes) (openable <$> contents)).2 =
      length (mate_2_records bytes).
Proof.
  intros Hrun. split; [apply mate_2_records_rest|].
  apply (run_sent bytes contents Hrun).
Qed.

Lemma records_shared_between_outputs_witness :
  (∃ rest,
     Fastq.file Fastq.mates_gap =
       stream (mate_2_records (Fastq.file Fastq.mates_gap)) +:+ rest ∧
     Py.all (readlines 4 rest).1 = false) ∧
  ∃ dest,
    length dest = length (mate_2_records (Fastq.file Fastq.mates_gap)) ∧
    Forall (λ d, ∀ i, d = Some i → i < length (stream <$> Fastq.buckets_gap))
           dest ∧
    demultiplexed_files_2
      (run (Some (Fastq.file Fastq.mates_gap))
           (openable <$> (stream <$> Fastq.buckets_gap))).2 =
      (λ i, stream (sent_to dest (mate_2_records (Fastq.file Fastq.mates_gap))
                            (Some i)))
        <$> seq 0 (length (stream <$> Fastq.buckets_gap)) ∧
    stderr
      (run (Some (Fastq.file Fastq.mates_gap))
           (openable <$> (stream <$> Fastq.buckets_gap))).2 =
      Py.join (missing_message
                 <$> names (sent_to dest
                              (mate_2_records (Fastq.file Fastq.mates_gap))
                              None)) ∧
    log_not_matched
      (run (Some (Fastq.file Fastq.mates_gap))
           (openable <$> (stream <$> Fastq.buckets_gap))).2 =
      length (sent_to dest (mate_2_records (Fastq.file Fastq.mates_gap))
                      None) ∧
    log_demultiplexed
      (run (Some (Fastq.file Fastq.mates_gap))
           (openable <$> (stream <$> Fastq.buckets_gap))).2 +
    log_not_matched
      (run (Some (Fastq.file Fastq.mates_gap))
           (openable <$> (stream <$> Fastq.buckets_gap))).2 =
      length (mate_2_records (Fastq.file Fastq.mates_gap)).
Proof.
  apply (records_shared_between_outputs (Fastq.file Fastq.mates_gap)
           (stream <$> Fastq.buckets_gap)).
  vm_compute. reflexivity.
Defined.



(** X4. When the listing holds no bucket file and the mate-2 file is a
    sequence of named four-line reads, the run returns with every read
    reported as unmatched, one line each in the order of the file, and no
    file was created. *)
Theorem no_bucket_every_read_unmatched (mates : list (list string)) :
  Forall (λ r, wf_read r = true) mates →
  run (Some (stream mates)) [] =
  (Ok tt,
   World "" [] [] [] (Py.join (missing_message <$> names mates))
         0 (length mates) true true []).
Proof. apply run_no_slot. Qed.

Lemma no_bucket_every_read_unmatched_witness :
  run (Some (stream Fastq.mates_gap)) [] =
  (Ok tt,
   World "" [] [] [] (Py.join (missing_message <$> names Fastq.mates_gap))
         0 (length Fastq.mates_gap) true true []).
Proof.
  apply (no_bucket_every_read_unmatched Fastq.mates_gap).
  repeat constructor.
Defined.

(** X5. The first lookahead of a slot is stripped (line 192), later ones are
    not (line 217): a bucket file whose first line is blank, or which is
    empty, counts as used up from the start, and its mate-2 output is still
    empty when the run is over, whatever the mate-2 file holds and whether the
    run returns or raises. *)
Theorem blank_first_line_bucket_gets_nothing (bytes : string)
    (contents : list string) (j : nat) (f : string) :
  contents !! j = Some f →
  Py.strip (Py.readline f).1 = "" →
  demultiplexed_files_2 (run (Some bytes) (openable <$> contents)).2 !! j
    = Some "".
Proof.
  intros Hj Hblank. rewrite run_openable. cbn [fst snd].
  rewrite synchronise_unfold, read_loop_unfold.
  match goal with |- context [while_loop ?fuel ?n ?r ?w] =>
    destruct (while_loop_keeps_exhausted fuel n r w j) as (_ & _ & H2) end.
  - unfold exhausted. simpl. rewrite list_lookup_fmap, Hj. simpl.
    by rewrite first_lookahead_head, Hblank.
  - simpl in *. rewrite H2. apply lookup_replicate_2. by eapply lookup_lt_Some.
Qed.

Lemma blank_first_line_bucket_gets_nothing_witness :
  demultiplexed_files_2
    (run (Some (Fastq.file Fastq.mates_AB))
         (openable <$> Cases.blank_start)).2 !! 0 = Some "".
Proof.
  apply (blank_first_line_bucket_gets_nothing (Fastq.file Fastq.mates_AB)
           Cases.blank_start 0
           (Fastq.line "" +:+ Fastq.file [Fastq.id1_1])).
  - reflexivity.
  - vm_compute. reflexivity.
Defined.

(** X6. When every [_demux1] file opens and the [_demux2] file of slot [k]
    is the first that cannot be created, the run ends with
    [UnboundLocalError] in place of the [IOError]; the [finally] block has
    closed every [_demux1] file (line 232) before it fails on the unassigned
    list (line 233), and the [k] outputs opened so far are still open.  No
    line was read from any file. *)
Theorem output_open_failure_closes_inputs (bytes : string)
    (contents : list string) (k : nat) (ws : list bool) :
  length contents = k + S (length ws) →
  run (Some bytes)
      (zip_with readable_file contents (replicate k true ++ false :: ws)) =
  (Raise UnboundLocalError,
   World bytes contents [] [] "" 0 0 true false (Demux2 <$> seq 0 k)).
Proof.
  intros Hlen. unfold run, try_finally, try_block.
  unfold bind at 1. rewrite open_each_read_readable; last first.
  { rewrite length_app, length_replicate. simpl. lia. }
  unfold bind at 1, assign_files_1 at 1.
  unfold bind at 1. rewrite open_each_write_fails by done.
  unfold finally_block, bind. cbn [bound_files_1 set_open_files set_bound_files_1 set_files_1 set_f_2 initial].
  rewrite close_each_spec. simpl.
  pose proof (inputs_closed (length contents) k) as Hc. simpl in Hc.
  unfold close_handle, set_open_files. simpl.
  do 2 f_equal. exact Hc.
Qed.

Lemma output_open_failure_closes_inputs_witness :
  run (Some (Fastq.file [Fastq.id1_2]))
      (zip_with readable_file [Fastq.file [Fastq.id1_1]; ""]
                (replicate 1 true ++ false :: [])) =
  (Raise UnboundLocalError,
   World (Fastq.file [Fastq.id1_2]) [Fastq.file [Fastq.id1_1]; ""] [] [] ""
         0 0 true false (Demux2 <$> seq 0 1)).
Proof.
  apply (output_open_failure_closes_inputs (Fastq.file [Fastq.id1_2])
           [Fastq.file [Fastq.id1_1]; ""] 1 []).
  reflexivity.
Defined.

(** X7. The loop always ends: whatever the mate-2 file and the bucket files
    hold, and whichever files open, [run] returns or raises; each pass of the
    loop takes at least one byte from the mate-2 file, so that one pass more
    than the file has bytes is never needed. *)
Theorem run_returns_or_raises (file_2 : option string)
    (fnames : list demux_file) :
  (run file_2 fnames).1 = Ok tt ∨ ∃ e, (run file_2 fnames).1 = Raise e.
Proof.
  pose proof (run_total file_2 fnames) as Ht.
  destruct (run file_2 fnames).1 as [[]|e|]; [by left|right; by exists e|done].
Qed.

(** ** File names *)



(** X9. In batch mode the prefix is the common prefix of the two paths of a
    line (line 275).  When both paths lie in a directory, that prefix holds a
    slash, no name of the listing of the working directory starts with it, no
    bucket file is selected, and every read of the mate-2 file is reported as
    unmatched. *)
Theorem paths_in_a_directory_find_no_bucket (d : disk)
    (dir a b file_2 : string) (mates : list (list string)) :
  Forall (λ fname, has_byte "/" fname = false) (listdir d) →
  content d file_2 = Some (stream mates) →
  Forall (λ r, wf_read r = true) mates →
  fnames_of (find_prefix (dir +:+ "/" +:+ a) (dir +:+ "/" +:+ b)) (listdir d)
    = [] ∧
  run_listing d (find_prefix (dir +:+ "/" +:+ a) (dir +:+ "/" +:+ b)) file_2 =
  (Ok tt,
   World "" [] [] [] (Py.join (missing_message <$> names mates))
         0 (length mates) true true []).
Proof.
  intros Hl Hc Hm. pose proof (fnames_of_directory dir a b _ Hl) as Hf.
  split; [done|]. unfold run_listing. rewrite Hf, Hc.
  by apply run_no_slot.
Qed.

Lemma paths_in_a_directory_find_no_bucket_witness :
  fnames_of
    (find_prefix ("data" +:+ "/" +:+ "s1_1.fastq")
                 ("data" +:+ "/" +:+ "s1_2.fastq"))
    (listdir Cases.in_data) = [] ∧
  run_listing Cases.in_data
    (find_prefix ("data" +:+ "/" +:+ "s1_1.fastq")
                 ("data" +:+ "/" +:+ "s1_2.fastq"))
    "data/s1_2.fastq" =
  (Ok tt,
   World "" [] [] [] (Py.join (missing_message <$> names Fastq.mates_gap))
         0 (length Fastq.mates_gap) true true []).
Proof.
  apply (paths_in_a_directory_find_no_bucket Cases.in_data "data"
           "s1_1.fastq" "s1_2.fastq" "data/s1_2.fastq" Fastq.mates_gap).
  - repeat constructor.
  - reflexivity.
  - repeat constructor.
Defined.

(** ** [find_prefix] *)

(** X10. [find_prefix] stops at the first byte in which its arguments differ:
    for two paths that share [p] and go on with different bytes, such as the
    [_1] and [_2] files of a sample, the result is [p]. *)
Theorem find_prefix_stops_at_first_difference (p a b : string) (x y : ascii) :
  x ≠ y → find_prefix (p +:+ String x a) (p +:+ String y b) = p.
Proof.
  intros Hxy. rewrite find_prefix_app, find_prefix_cons.
  destruct (Ascii.eqb_spec x y); [done|]. by rewrite app_empty_r.
Qed.

Lemma find_prefix_stops_at_first_difference_witness :
  find_prefix ("SRR1_" +:+ String "1" ".fastq")
              ("SRR1_" +:+ String "2" ".fastq") = "SRR1_".
Proof.
  apply (find_prefix_stops_at_first_difference "SRR1_" ".fastq" ".fastq"
           "1" "2")%char.
  discriminate.
Defined.

(** X11. A string is a prefix of [find_prefix a b] exactly when it is a
    prefix of [a] and of [b]: the result is the greatest common prefix. *)
Theorem find_prefix_bounds_common_prefixes (a b d : string) :
  String.prefix d (find_prefix a b) = true ↔
  String.prefix d a = true ∧ String.prefix d b = true.
Proof.
  destruct (find_prefix_is_prefix a b) as [Ha Hb]. split.
  - intros Hd. split; by eapply prefix_trans.
  - intros [? ?]. by apply find_prefix_greatest.
Qed.

(** X12. The order of the two arguments of [find_prefix] does not matter, and
    the common prefix of a string with itself is the string. *)
Theorem find_prefix_symmetric_idempotent (a b : string) :
  find_prefix a b = find_prefix b a ∧ find_prefix a a = a.
Proof. split; [apply find_prefix_sym | apply find_prefix_same]. Qed.

(** ** [Options] *)

(** X13. Whenever [Options.__init__] returns, the dictionary holds exactly
    the five keys that [main] reads, so that none of its lookups raises
    [KeyError]; [batch] is a boolean, [mismatch] an integer, and [bcfile],
    [prefix] and [position] are [None] or a string.  Nothing was written to
    the standard streams, and the two attributes are what [getopt] gave. *)
Theorem options_always_typed (doc : string) (int : string → option Z)
    (parsed : string + list (string * string) * list string)
    (o : Options.t) (p : printed) :
  Options.init doc int parsed = (Return o, p) →
  typed (Options.dict o) ∧ p = Printed "" "" ∧
  parsed = inr (Options.opts o, Options.args o).
Proof. apply options_typed_printed. Qed.

Lemma options_always_typed_witness :
  typed (Options.dict (Toy.options Toy.batch_opts ["list.txt"])) ∧
  Printed "" "" = Printed "" "" ∧
  @inr string _ (Toy.batch_opts, ["list.txt"]) =
    inr (Options.opts (Toy.options Toy.batch_opts ["list.txt"]),
         Options.args (Toy.options Toy.batch_opts ["list.txt"])).
Proof.
  apply (options_always_typed "usage" Toy.int
           (inr (Toy.batch_opts, ["list.txt"]))
           (Toy.options Toy.batch_opts ["list.txt"]) (Printed "" "")).
  vm_compute. reflexivity.
Defined.

(** X14. Whenever [Options.__init__] returns, each key holds what the last
    option that sets it says, or its default: [batch] is true exactly when
    [-b] was given, [mismatch] is [int] of the last [--mismatch] argument or
    1, and [bcfile], [prefix] and [position] are the last argument given with
    their option, unchanged, or [None].  In particular [position] is kept as
    it was typed: the value of [lower()] at line 101 is dropped. *)
Theorem options_hold_last_given (doc : string) (int : string → option Z)
    (opts : list (string * string)) (args : list string)
    (o : Options.t) (p : printed) :
  Options.init doc int (inr (opts, args)) = (Return o, p) →
  Options.dict o !! "batch" = Some (PBool (bool_decide ("-b" ∈ opts.*1))) ∧
  Options.dict o !! "mismatch" =
    Some (PInt (default 1%Z (last (given "--mismatch" opts) ≫= int))) ∧
  Options.dict o !! "bcfile" =
    Some (from_option PStr PNone (last (given "--bcfile" opts))) ∧
  Options.dict o !! "prefix" =
    Some (from_option PStr PNone (last (given "--prefix" opts))) ∧
  Options.dict o !! "position" =
    Some (from_option PStr PNone (last (given "--position" opts))).
Proof. apply options_last. Qed.

Lemma options_hold_last_given_witness :
  Options.dict (Toy.options Toy.batch_opts ["list.txt"]) !! "batch" =
    Some (PBool (bool_decide ("-b" ∈ Toy.batch_opts.*1))) ∧
  Options.dict (Toy.options Toy.batch_opts ["list.txt"]) !! "mismatch" =
    Some (PInt (default 1%Z
                  (last (given "--mismatch" Toy.batch_opts) ≫= Toy.int))) ∧
  Options.dict (Toy.options Toy.batch_opts ["list.txt"]) !! "bcfile" =
    Some (from_option PStr PNone (last (given "--bcfile" Toy.batch_opts))) ∧
  Options.dict (Toy.options Toy.batch_opts ["list.txt"]) !! "prefix" =
    Some (from_option PStr PNone (last (given "--prefix" Toy.batch_opts))) ∧
  Options.dict (Toy.options Toy.batch_opts ["list.txt"]) !! "position" =
    Some (from_option PStr PNone (last (given "--position" Toy.batch_opts))).
Proof.
  apply (options_hold_last_given "usage" Toy.int Toy.batch_opts ["list.txt"]
           (Toy.options Toy.batch_opts ["list.txt"]) (Printed "" "")).
  vm_compute. reflexivity.
Defined.



(** ** [BarcodeSplitter.__init__] *)

(** X16. With the four keywords that [barcode_splitter] passes, [position]
    being a string, [__init__] returns in whatever order the dictionary
    yields them: the command line of the classifier starts with the program
    name and the suffix option, the rest is made of the four options, each
    option word followed at once by its value, and the attributes hold the
    values passed. *)
Theorem classifier_command_line (file_1 file_2 : string)
    (kwargs : list (string * pyval)) (bcfile prefix mismatch : pyval)
    (position : string) :
  kwargs ≡ₚ passed bcfile prefix (PStr position) mismatch →
  ∃ b,
    BarcodeSplitter.init file_1 file_2 kwargs = Return b ∧
    take 3 (BarcodeSplitter.args b) =
      [PStr "fastx_barcode_splitter.pl"; PStr "--suffix";
       PStr "_demux1.fastq"] ∧
    drop 3 (BarcodeSplitter.args b) ≡ₚ
      [PStr "--bcfile"; bcfile; PStr "--prefix"; prefix;
       PStr ("--" +:+ position); PStr "--mismatch"; PStr (str mismatch)] ∧
    (∀ kv, kv ∈ passed bcfile prefix (PStr position) mismatch →
       ∃ l1 l2, drop 3 (BarcodeSplitter.args b) = l1 ++ words kv ++ l2) ∧
    BarcodeSplitter.file_1 b = file_1 ∧
    BarcodeSplitter.file_2 b = file_2 ∧
    BarcodeSplitter.bcfile b = Some bcfile ∧
    BarcodeSplitter.prefix b = Some prefix ∧
    BarcodeSplitter.position b = Some (PStr position) ∧
    BarcodeSplitter.mismatch b = Some mismatch.
Proof.
  intros Hp. destruct (passed_accepted _ _ _ _ _ Hp) as [Hacc Hnd].
  unfold BarcodeSplitter.init.
  destruct (keywords_accepted kwargs
              (BarcodeSplitter.Make
                 [PStr "fastx_barcode_splitter.pl"; PStr "--suffix";
                  PStr "_demux1.fastq"] file_1 file_2 None None None None)
              Hacc) as (b & Heq & Hargs & Hf1 & Hf2).
  pose proof (keywords_attribute _ _ _ Hacc Hnd Heq) as Hattr.
  exists b. rewrite Hargs. cbn [BarcodeSplitter.args app take drop].
  split_and!; try done.
  - by rewrite Hp.
  - intros kv Hkv. rewrite <- Hp in Hkv.
    apply list_elem_of_split in Hkv as (l1 & l2 & ->).
    exists (l1 ≫= words), (l2 ≫= words). by rewrite bind_app, bind_cons.
  - apply (Hattr "bcfile" bcfile); [|done]. rewrite Hp. by left.
  - apply (Hattr "prefix" prefix); [|done]. rewrite Hp. by right; left.
  - apply (Hattr "position" (PStr position)); [|done].
    rewrite Hp. by right; right; left.
  - apply (Hattr "mismatch" mismatch); [|done].
    rewrite Hp. by right; right; right; left.
Qed.

Lemma classifier_command_line_witness :
  ∃ b,
    BarcodeSplitter.init "s1_1.fastq" "s1_2.fastq"
      (reverse (passed (PStr "bc.txt") (PStr "s1_") (PStr "bol") (PInt 2)))
      = Return b ∧
    take 3 (BarcodeSplitter.args b) =
      [PStr "fastx_barcode_splitter.pl"; PStr "--suffix";
       PStr "_demux1.fastq"] ∧
    drop 3 (BarcodeSplitter.args b) ≡ₚ
      [PStr "--bcfile"; PStr "bc.txt"; PStr "--prefix"; PStr "s1_";
       PStr ("--" +:+ "bol"); PStr "--mismatch"; PStr (str (PInt 2))] ∧
    (∀ kv, kv ∈ passed (PStr "bc.txt") (PStr "s1_") (PStr "bol") (PInt 2) →
       ∃ l1 l2, drop 3 (BarcodeSplitter.args b) = l1 ++ words kv ++ l2) ∧
    BarcodeSplitter.file_1 b = "s1_1.fastq" ∧
    BarcodeSplitter.file_2 b = "s1_2.fastq" ∧
    BarcodeSplitter.bcfile b = Some (PStr "bc.txt") ∧
    BarcodeSplitter.prefix b = Some (PStr "s1_") ∧
    BarcodeSplitter.position b = Some (PStr "bol") ∧
    BarcodeSplitter.mismatch b = Some (PInt 2).
Proof.
  apply (classifier_command_line "s1_1.fastq" "s1_2.fastq"
           (reverse (passed (PStr "bc.txt") (PStr "s1_") (PStr "bol")
                            (PInt 2)))
           (PStr "bc.txt") (PStr "s1_") (PInt 2) "bol").
  apply reverse_Permutation.
Defined.

(** X17. With the four keywords that [barcode_splitter] passes, a [position]
    that is not a string, such as the [None] that stands for a missing
    [--position], makes [__init__] raise [TypeError] at line 154, in whatever
    order the dictionary yields the keywords. *)
Theorem position_must_be_a_string (file_1 file_2 : string)
    (kwargs : list (string * pyval)) (bcfile prefix position mismatch : pyval) :
  kwargs ≡ₚ passed bcfile prefix position mismatch →
  (∀ s, position ≠ PStr s) →
  BarcodeSplitter.init file_1 file_2 kwargs = Throw TypeError.
Proof. apply position_not_str. Qed.

Lemma position_must_be_a_string_witness :
  BarcodeSplitter.init "s1_1.fastq" "s1_2.fastq"
    (passed (PStr "bc.txt") (PStr "s1_") PNone (PInt 1)) = Throw TypeError.
Proof.
  apply (position_must_be_a_string "s1_1.fastq" "s1_2.fastq"
           (passed (PStr "bc.txt") (PStr "s1_") PNone (PInt 1))
           (PStr "bc.txt") (PStr "s1_") PNone (PInt 1)).
  - reflexivity.
  - discriminate.
Defined.

(** ** [main] *)

Section Driver.

Context {St : Type}.
Variable doc : string.
Variable int : string → option Z.
Variable kwargs_order : list (string * pyval) → list (string * pyval).
Variable run_method : BarcodeSplitter.t → St → option failure * St.

(** X18. Blank lines of the batch list are skipped (line 273): [main] does
    the same with and without them, in the jobs it runs, in the state it
    leaves and in its outcome. *)
Theorem blank_lines_are_skipped
    (parsed : string + list (string * string) * list string)
    (lines : list string) (s : St) :
  main doc int kwargs_order run_method parsed
       (List.filter not_blank lines) s =
  main doc int kwargs_order run_method parsed lines s.
Proof.
  unfold main. destruct (Options.init doc int parsed) as [[o|e] p]; [|done].
  unfold dispatch. destruct (getitem (Options.dict o) "batch") as [b|e]; [|done].
  destruct (truth b); [|done]. by rewrite batch_skips_blank.
Qed.

(** X19. A line of the batch list that is not blank and does not hold exactly
    three fields raises [ValueError] at line 274, before any job is started
    for it; the lines after it are never read. *)
Theorem malformed_line_raises_ValueError (options : gmap string pyval)
    (line : string) (rest : list string) (s : St) :
  not_blank line = true → length (Py.split line) ≠ 3 →
  batch kwargs_order run_method options (line :: rest) s =
    (Some ValueError, s).
Proof.
  unfold not_blank. intros Hl Hn. cbn [batch]. rewrite Hl. cbn [negb].
  by destruct (Py.split line) as [|? [|? [|? [|? ?]]]].
Qed.

(** X20. Nothing in [main] handles an exception: once [main] has raised on
    the lines read so far, whatever lines follow change neither the exception
    nor the state it leaves, so the jobs of the later lines are never run. *)
Theorem first_failure_ends_main
    (parsed : string + list (string * string) * list string)
    (pre rest : list string) (s s' : St) (e : failure) (p : printed) :
  main doc int kwargs_order run_method parsed pre s = (Throw e, p, s') →
  main doc int kwargs_order run_method parsed (pre ++ rest) s =
    (Throw e, p, s').
Proof.
  unfold main. destruct (Options.init doc int parsed) as [[o|e0] p0]; [|done].
  unfold dispatch. destruct (getitem (Options.dict o) "batch") as [b|e0]; [|done].
  destruct (truth b); [|done].
  destruct (batch kwargs_order run_method (Options.dict o) pre s)
    as [[e1|] s1] eqn:Hpre; [|done].
  intros [= <- <- <-]. by rewrite (batch_failed _ _ _ _ _ _ _ _ Hpre).
Qed.

(** X21. With [-b], the options [--bcfile] and [--prefix] have no effect:
    [main] does the same when they are left out of the command line. *)
Theorem batch_overrides_bcfile_and_prefix (opts : list (string * string))
    (args lines : list string) (s : St) :
  "-b" ∈ opts.*1 →
  main doc int kwargs_order run_method
       (inr (List.filter kept_in_batch opts, args)) lines s =
  main doc int kwargs_order run_method (inr (opts, args)) lines s.
Proof.
  intros Hb. unfold main at 1 2, Options.init.
  pose proof (loop_drop doc int opts (Options.set_default ∅)
                (Options.set_default ∅) ltac:(done)) as Hdrop.
  destruct (Options.loop doc int opts (Options.set_default ∅))
    as [[d1|e1] o1] eqn:H1;
    destruct (Options.loop doc int (List.filter kept_in_batch opts)
                (Options.set_default ∅)) as [[d2|e2] o2] eqn:H2;
    try done.
  - destruct Hdrop as [(Hbatch & Hm & Hp) ->].
    destruct (loop_last doc int _ _ _ _ H1) as (Hb1 & _).
    rewrite bool_decide_eq_true_2 in Hb1 by done.
    unfold dispatch, getitem. cbn [Options.dict]. rewrite <- Hbatch, Hb1.
    cbn [truth]. by rewrite (batch_ext _ _ d2 d1).
  - by destruct Hdrop as [-> ->].
Qed.

(** X22. Without [-b], fewer than two arguments after the options make
    [main] raise [IndexError] at line 282, before anything is run. *)
Theorem single_input_needs_two_files (opts : list (string * string))
    (args lines : list string) (o : Options.t) (p : printed) (s : St) :
  Options.init doc int (inr (opts, args)) = (Return o, p) →
  "-b" ∉ opts.*1 → length args < 2 →
  main doc int kwargs_order run_method (inr (opts, args)) lines s =
    (Throw (Exn IndexError), Printed "" "", s).
Proof.
  intros Hinit Hb Hlen. rewrite (main_single _ _ _ _ _ _ _ _ _ _ Hinit Hb).
  destruct (options_typed_printed _ _ _ _ _ Hinit) as (_ & _ & [= _ Ha]).
  rewrite Ha in Hlen. unfold single.
  destruct (Options.args o) as [|? [|? ?]]; simpl in Hlen; [done|done|lia].
Qed.

(** X23. The option [--position] is not checked where options are read: when
    it is missing, [position] is [None], and the first job, that of the two
    files given or that of the first line of the batch list that is not blank
    when this line has three fields, ends [main] with the [TypeError] of line
    154, before the classifier is started. *)
Theorem missing_position_is_a_TypeError (opts : list (string * string))
    (args lines : list string) (o : Options.t) (p : printed) (s : St) :
  (∀ l, kwargs_order l ≡ₚ l) →
  Options.init doc int (inr (opts, args)) = (Return o, p) →
  "--position" ∉ opts.*1 →
  ("-b" ∉ opts.*1 → 2 ≤ length args →
   main doc int kwargs_order run_method (inr (opts, args)) lines s =
     (Throw TypeError, Printed "" "", s)) ∧
  ("-b" ∈ opts.*1 →
   ∀ line rest,
     List.filter not_blank lines = line :: rest →
     length (Py.split line) = 3 →
     main doc int kwargs_order run_method (inr (opts, args)) lines s =
       (Throw TypeError, Printed "" "", s)).
Proof.
  intros Hperm Hinit Hpos.
  destruct (options_last _ _ _ _ _ _ Hinit) as (_ & Hmm & Hbc & Hpr & Hpo).
  rewrite (given_absent _ _ Hpos) in Hpo. simpl in Hpo.
  split.
  - intros Hb Hlen. rewrite (main_single _ _ _ _ _ _ _ _ _ _ Hinit Hb).
    destruct (options_typed_printed _ _ _ _ _ Hinit) as (_ & _ & [= _ Ha]).
    rewrite Ha in Hlen. unfold single, getitem. rewrite Hbc, Hpr, Hpo, Hmm.
    destruct (Options.args o) as [|f1 [|f2 ?]]; simpl in Hlen; [lia|lia|].
    by rewrite barcode_splitter_no_position.
  - intros Hb line rest Hlines Hsplit.
    rewrite (main_batch _ _ _ _ _ _ _ _ _ _ Hinit Hb).
    rewrite <- batch_skips_blank, Hlines.
    assert (not_blank line = true) as Hl.
    { assert (In line (List.filter not_blank lines)) as Hin
        by (rewrite Hlines; by left).
      by apply filter_In in Hin as [_ ?]. }
    cbn [batch]. unfold not_blank in Hl. rewrite Hl. cbn [negb].
    destruct (Py.split line) as [|b [|f1 [|f2 [|? ?]]]]; try done.
    unfold getitem. rewrite Hpo, Hmm.
    by rewrite barcode_splitter_no_position.
Qed.

End Driver.

Lemma malformed_line_raises_ValueError_witness :
  batch id Toy.run_method ∅
        [Fastq.line "bc.txt s1_1.fastq"; Fastq.line "bc.txt s2_1.fastq s2_2.fastq"]
        [] =
    (Some ValueError, []).
Proof.
  apply (malformed_line_raises_ValueError id Toy.run_method ∅
           (Fastq.line "bc.txt s1_1.fastq")
           [Fastq.line "bc.txt s2_1.fastq s2_2.fastq"] []).
  - reflexivity.
  - vm_compute. lia.
Defined.

Lemma first_failure_ends_main_witness :
  main "usage" Toy.int id Toy.run_method (inr (Toy.batch_opts, []))
       ([Fastq.line "bc.txt s1_1.fastq"] ++
        [Fastq.line "bc.txt s2_1.fastq s2_2.fastq"]) [] =
    (Throw ValueError, Printed "" "", []).
Proof.
  apply (first_failure_ends_main "usage" Toy.int id Toy.run_method
           (inr (Toy.batch_opts, []))
           [Fastq.line "bc.txt s1_1.fastq"]
           [Fastq.line "bc.txt s2_1.fastq s2_2.fastq"] [] []
           ValueError (Printed "" "")).
  vm_compute. reflexivity.
Defined.

Lemma batch_overrides_bcfile_and_prefix_witness :
  main "usage" Toy.int id Toy.run_method
       (inr (List.filter kept_in_batch
               (("--bcfile", "other.txt") :: Toy.batch_opts), []))
       [Fastq.line "bc.txt s2_1.fastq s2_2.fastq"] [] =
  main "usage" Toy.int id Toy.run_method
       (inr (("--bcfile", "other.txt") :: Toy.batch_opts, []))
       [Fastq.line "bc.txt s2_1.fastq s2_2.fastq"] [].
Proof.
  apply (batch_overrides_bcfile_and_prefix "usage" Toy.int id Toy.run_method
           (("--bcfile", "other.txt") :: Toy.batch_opts) []
           [Fastq.line "bc.txt s2_1.fastq s2_2.fastq"] []).
  apply (bool_decide_unpack _). vm_compute. exact I.
Defined.

Lemma single_input_needs_two_files_witness :
  main "usage" Toy.int id Toy.run_method
       (inr (Toy.pair_opts, ["s1_1.fastq"])) [] [] =
    (Throw (Exn IndexError), Printed "" "", []).
Proof.
  apply (single_input_needs_two_files "usage" Toy.int id Toy.run_method
           Toy.pair_opts ["s1_1.fastq"] []
           (Toy.options Toy.pair_opts ["s1_1.fastq"]) (Printed "" "") []).
  - vm_compute. reflexivity.
  - apply (bool_decide_unpack _). vm_compute. exact I.
  - simpl. lia.
Defined.

Lemma missing_position_is_a_TypeError_witness :
  main "usage" Toy.int id Toy.run_method
       (inr ([("--bcfile", "bc.txt"); ("--prefix", "s1_")],
             ["s1_1.fastq"; "s1_2.fastq"])) [] [] =
    (Throw TypeError, Printed "" "", []).
Proof.
  apply (proj1 (missing_position_is_a_TypeError "usage" Toy.int id
                  Toy.run_method
                  [("--bcfile", "bc.txt"); ("--prefix", "s1_")]
                  ["s1_1.fastq"; "s1_2.fastq"] []
                  (Toy.options [("--bcfile", "bc.txt"); ("--prefix", "s1_")]
                               ["s1_1.fastq"; "s1_2.fastq"])
                  (Printed "" "") []
                  ltac:(intros l; reflexivity)
                  ltac:(vm_compute; reflexivity)
                  ltac:(apply (bool_decide_unpack _); vm_compute; exact I))).
  - apply (bool_decide_unpack _). vm_compute. exact I.
  - simpl. lia.
Defined.
